(** * ESP32 Greenhouse Controller: the dual-transport networking core

    A shallow embedding of the networking layer of the firmware
    (NetworkFacade.cpp, GPRSManager.cpp, WiFiManager.cpp, DeviceState.h,
    config.h and the reconnect helper of the main sketch) together with
    the properties its specification states about it.

    Conventions of the embedding
    - C++ objects are records, methods are functions from the object (and
      the shared [DeviceState]) to the updated object; a [bool] result is
      returned alongside.
    - [unsigned long] is 32 bits wide on the ESP32 and [uint8_t] 8 bits:
      both are [Z] values whose wrap-around is written with [u32]/[u8].
      [int] and [long] are 32 bits wide as well; where a value is
      converted to one of them the conversion is written with [s32].
    - Whatever the hardware answers (modem queries, the WiFi station
      status, [millis()]) is an input of the function that asks for it.
    - Debug printing, watchdog resets, LCD messages and blocking [delay]s
      change none of the modelled fields and are left out. *)

From Stdlib Require Import ZArith List String Ascii Bool Lia DecimalString.
Import ListNotations.
Open Scope Z_scope.

(** ** Machine integers *)

Definition u32 (x : Z) : Z := x mod 2 ^ 32.
Definition u8 (x : Z) : Z := x mod 2 ^ 8.
Definition s32 (x : Z) : Z := (x + 2 ^ 31) mod 2 ^ 32 - 2 ^ 31.

(** ** config.h *)

Module Config.
Definition INITIAL_RETRY_DELAY_MS : Z := 15 * 1000.
Definition MAX_RETRY_DELAY_MS : Z := 5 * 60 * 1000.
Definition WIFI_RETRY_WHEN_GPRS_MS : Z := 15 * 60 * 1000.
Definition MAX_WIFI_RETRY_WHEN_GPRS_MS : Z := 60 * 60 * 1000.

Definition GPRS_ATTACH_TIMEOUT_MS : Z := 60000.
Definition GPRS_RECONNECT_DELAY_INITIAL_MS : Z := 15 * 1000.
Definition GPRS_MAX_MODEM_RESETS : Z := 3.
Definition GPRS_MAX_ATTACH_FAILURES : Z := 5.
Definition GPRS_CONNECTION_CHECK_INTERVAL_MS : Z := 30000.
Definition GPRS_MAX_RECONNECT_ATTEMPTS : Z := 5.
Definition GPRS_MODEM_ERROR_RESTART_DELAY_MS : Z := 60000.
Definition GPRS_MODEM_FAIL_RECOVERY_TIMEOUT_MS : Z := 5 * 60 * 1000.
Definition MODEM_SERIAL_WAIT_TIMEOUT_MS : Z := 30000.

Definition GPRS_HTTP_TOTAL_TIMEOUT_MS : Z := 60000.
Definition GPRS_HTTP_CONNECT_TIMEOUT_MS : Z := 20000.
Definition GPRS_HTTP_HEADER_TIMEOUT_MS : Z := 20000.
Definition GPRS_HTTP_BODY_TIMEOUT_MS : Z := 30000.
Definition HTTP_RESPONSE_TIMEOUT_MS : Z := 20000.
Definition HTTP_RETRY_DELAY_MS : Z := 5000.
Definition MAX_HTTP_RETRIES : Z := 3.

Definition GPRS_REQUEST_BUFFER_SIZE : Z := 512.
Definition GPRS_MAX_HEADER_SIZE : Z := 1024.
Definition GPRS_BODY_BUFFER_SIZE : Z := 1024.

(** The build for greenhouse 1 ([GH_ID_FIRMWARE_DEFAULT] is 1). *)
Definition FW_NAME : string := "GH1_FW".
Definition FW_VERSION : string := "1.3.0_GH1".

Definition API_URL_MAX_LEN : nat := 257.
Definition GPRS_MAX_HOST_LEN : nat := API_URL_MAX_LEN.
Definition GPRS_MAX_PATH_LEN : nat := API_URL_MAX_LEN.
End Config.

(** ** DeviceState.h *)

Inductive GPRSState : Type :=
| GPRS_STATE_INIT_START
| GPRS_STATE_INIT_WAIT_SERIAL
| GPRS_STATE_INIT_RESET_MODEM
| GPRS_STATE_INIT_ATTACH_GPRS
| GPRS_STATE_OPERATIONAL
| GPRS_STATE_CONNECTION_LOST
| GPRS_STATE_RECONNECTING
| GPRS_STATE_ERROR_RESTART_MODEM
| GPRS_STATE_ERROR_MODEM_FAIL
| GPRS_STATE_DISABLED.

Definition GPRSState_eq_dec (a b : GPRSState) : {a = b} + {a <> b}.
Proof. decide equality. Defined.

Definition GPRSState_eqb (a b : GPRSState) : bool :=
  if GPRSState_eq_dec a b then true else false.

(** The fields of the process-wide [DeviceState] that the networking core
    reads or writes.  The timers of the sensor, SD-card and web-override
    helpers are not touched by any function modelled here. *)
Record DeviceState : Type := mkDeviceState {
  lastConnectionRetryTime : Z;
  lastWiFiRetryWhenGprsTime : Z;
  isInFailSafeMode : bool;
  currentConnectionRetryDelayMs : Z;
  currentWiFiSwitchBackoffDelayMs : Z;
  currentGprsState : GPRSState;
  lastGprsStateTransitionTime : Z;
  gprsModemResetCount : Z;
  gprsAttachFailCount : Z;
  isGprsConnected : bool;
  gprsSignalQuality : Z
}.

(** The constructor of [DeviceState]. *)
Definition DeviceState_init : DeviceState :=
  {| lastConnectionRetryTime := 0;
     lastWiFiRetryWhenGprsTime := 0;
     isInFailSafeMode := false;
     currentConnectionRetryDelayMs := Config.INITIAL_RETRY_DELAY_MS;
     currentWiFiSwitchBackoffDelayMs := Config.WIFI_RETRY_WHEN_GPRS_MS;
     currentGprsState := GPRS_STATE_INIT_START;
     lastGprsStateTransitionTime := 0;
     gprsModemResetCount := 0;
     gprsAttachFailCount := 0;
     isGprsConnected := false;
     gprsSignalQuality := 99 |}.

Definition ds_set_gprs_mirror (st : GPRSState) (t : Z) (ds : DeviceState) : DeviceState :=
  {| lastConnectionRetryTime := lastConnectionRetryTime ds;
     lastWiFiRetryWhenGprsTime := lastWiFiRetryWhenGprsTime ds;
     isInFailSafeMode := isInFailSafeMode ds;
     currentConnectionRetryDelayMs := currentConnectionRetryDelayMs ds;
     currentWiFiSwitchBackoffDelayMs := currentWiFiSwitchBackoffDelayMs ds;
     currentGprsState := st;
     lastGprsStateTransitionTime := t;
     gprsModemResetCount := gprsModemResetCount ds;
     gprsAttachFailCount := gprsAttachFailCount ds;
     isGprsConnected := isGprsConnected ds;
     gprsSignalQuality := gprsSignalQuality ds |}.

Definition ds_set_gprs_status (sq : Z) (conn : bool) (ds : DeviceState) : DeviceState :=
  {| lastConnectionRetryTime := lastConnectionRetryTime ds;
     lastWiFiRetryWhenGprsTime := lastWiFiRetryWhenGprsTime ds;
     isInFailSafeMode := isInFailSafeMode ds;
     currentConnectionRetryDelayMs := currentConnectionRetryDelayMs ds;
     currentWiFiSwitchBackoffDelayMs := currentWiFiSwitchBackoffDelayMs ds;
     currentGprsState := currentGprsState ds;
     lastGprsStateTransitionTime := lastGprsStateTransitionTime ds;
     gprsModemResetCount := gprsModemResetCount ds;
     gprsAttachFailCount := gprsAttachFailCount ds;
     isGprsConnected := conn;
     gprsSignalQuality := sq |}.

Definition ds_set_reconnect (last delay : Z) (ds : DeviceState) : DeviceState :=
  {| lastConnectionRetryTime := last;
     lastWiFiRetryWhenGprsTime := lastWiFiRetryWhenGprsTime ds;
     isInFailSafeMode := isInFailSafeMode ds;
     currentConnectionRetryDelayMs := delay;
     currentWiFiSwitchBackoffDelayMs := currentWiFiSwitchBackoffDelayMs ds;
     currentGprsState := currentGprsState ds;
     lastGprsStateTransitionTime := lastGprsStateTransitionTime ds;
     gprsModemResetCount := gprsModemResetCount ds;
     gprsAttachFailCount := gprsAttachFailCount ds;
     isGprsConnected := isGprsConnected ds;
     gprsSignalQuality := gprsSignalQuality ds |}.

Definition ds_set_switchback (last delay : Z) (ds : DeviceState) : DeviceState :=
  {| lastConnectionRetryTime := lastConnectionRetryTime ds;
     lastWiFiRetryWhenGprsTime := last;
     isInFailSafeMode := isInFailSafeMode ds;
     currentConnectionRetryDelayMs := currentConnectionRetryDelayMs ds;
     currentWiFiSwitchBackoffDelayMs := delay;
     currentGprsState := currentGprsState ds;
     lastGprsStateTransitionTime := lastGprsStateTransitionTime ds;
     gprsModemResetCount := gprsModemResetCount ds;
     gprsAttachFailCount := gprsAttachFailCount ds;
     isGprsConnected := isGprsConnected ds;
     gprsSignalQuality := gprsSignalQuality ds |}.

(** The members of [DeviceState] owned by the main loop. *)
Definition loop_fields (ds : DeviceState) : Z * Z * bool * Z * Z :=
  (lastConnectionRetryTime ds, lastWiFiRetryWhenGprsTime ds, isInFailSafeMode ds,
   currentConnectionRetryDelayMs ds, currentWiFiSwitchBackoffDelayMs ds).

(** ** ArduinoJson (external library)

    The parsed response handed to a completion callback.  The parser
    itself is a parameter of the HTTP machines below. *)
Unset Elimination Schemes.
Inductive JsonDocument : Type :=
| JNull
| JBool (b : bool)
| JInt (n : Z)
| JString (s : string)
| JArray (items : list JsonDocument)
| JObject (members : list (string * JsonDocument)).
Set Elimination Schemes.

(** A completion callback, [std::function<bool(JsonDocument&)>]; [None]
    is the empty function object. *)
Definition Callback : Type := option (JsonDocument -> bool).

(** ** TinyGSM (external library): what the modem can answer *)

Inductive SimStatus : Type :=
| SIM_ERROR | SIM_READY | SIM_LOCKED | SIM_ANTITHEFT_LOCKED.

Inductive RegStatus : Type :=
| REG_NO_RESULT | REG_UNREGISTERED | REG_SEARCHING | REG_DENIED
| REG_OK_HOME | REG_OK_ROAMING | REG_UNKNOWN.

Definition SimStatus_eqb (a b : SimStatus) : bool :=
  match a, b with
  | SIM_ERROR, SIM_ERROR | SIM_READY, SIM_READY
  | SIM_LOCKED, SIM_LOCKED | SIM_ANTITHEFT_LOCKED, SIM_ANTITHEFT_LOCKED => true
  | _, _ => false
  end.

Definition reg_ok (r : RegStatus) : bool :=
  match r with
  | REG_OK_HOME | REG_OK_ROAMING => true
  | _ => false
  end.

(** The answers of the modem and of [millis()] during one call into the
    GPRS manager.  Each field is the result of the call named in its
    comment; a handler reads only the fields of the calls it makes. *)
Record ModemObs : Type := mkModemObs {
  testAT : bool;                 (* _modem.testAT(200), via checkModemSerial();
                                    in the hard reset: some retry within the
                                    response timeout answered *)
  restart : bool;                (* _modem.restart() *)
  simStatusFirst : SimStatus;    (* _modem.getSimStatus() before the unlock *)
  simUnlock : bool;              (* _modem.simUnlock(pin) *)
  simStatusCheck : SimStatus;    (* _modem.getSimStatus() in the readiness test *)
  isNetworkConnected : bool;     (* _modem.isNetworkConnected(), first call *)
  isGprsConnected_modem : bool;  (* _modem.isGprsConnected() *)
  isNetworkConnectedAgain : bool;(* _modem.isNetworkConnected(), second call
                                    in handleGprsInitAttachGprs *)
  getRegistrationStatus : RegStatus; (* _modem.getRegistrationStatus() *)
  gprsConnect : bool;            (* _modem.gprsConnect(apn, user, pass) *)
  getSignalQuality : Z;          (* _modem.getSignalQuality() *)
  ms_elapsed : Z;                (* millis() in getElapsedTimeInCurrentGprsState() *)
  ms_mark : Z;                   (* millis() assigned directly to the timer *)
  ms_trans : Z                   (* millis() inside transitionToState() *)
}.

(** A command that leaves the manager for the hardware; the facade and
    the managers report the ones they issue, in order. *)
Inductive Event : Type :=
| EvWiFiConnect (ok : bool)      (* WiFiManager::connect() and its result *)
| EvWiFiDisconnect               (* WiFiManager::disconnect() *)
| EvGprsConnect (ok : bool)      (* GPRSManager::connect() and its result *)
| EvGprsDisconnect               (* GPRSManager::disconnect(): _modem.gprsDisconnect() *)
| EvCallback (doc : JsonDocument) (result : bool). (* _asyncCb(_jsonDoc) *)

(** ** NetworkInterface.h: the arguments of [startAsyncHttpRequest] *)

Record Request : Type := mkRequest {
  url : string;
  method : string;
  apiType : string;
  payload : option string;       (* [const char*], may be null *)
  cb : Callback;
  needsAuth : bool
}.

(** ** C library helpers used on URLs *)

Definition is_space (c : ascii) : bool :=
  let n := N_of_ascii c in
  (N.eqb n 32 || (N.leb 9 n && N.leb n 13))%bool.

Definition digit_of (c : ascii) : option Z :=
  let n := Z.of_N (N_of_ascii c) in
  if (48 <=? n) && (n <=? 57) then Some (n - 48) else None.

Fixpoint atoi_digits (acc : Z) (s : string) : Z :=
  match s with
  | EmptyString => acc
  | String c s' =>
      match digit_of c with
      | Some d => atoi_digits (acc * 10 + d) s'
      | None => acc
      end
  end.

Fixpoint skip_spaces (s : string) : string :=
  match s with
  | String c s' => if is_space c then skip_spaces s' else s
  | EmptyString => s
  end.

(** The number a text starts with: leading white space, an optional
    sign, decimal digits. *)
Definition decimal_value (s : string) : Z :=
  match skip_spaces s with
  | String "-"%char r => - atoi_digits 0 r
  | String "+"%char r => atoi_digits 0 r
  | r => atoi_digits 0 r
  end.

(** [atoi] and [atol].  The result is an [int] or a [long]: a number
    that does not fit (where C leaves the result open) is reduced to the
    32 bits of the type. *)
Definition atoi (s : string) : Z := s32 (decimal_value s).

Definition atol (s : string) : Z := s32 (decimal_value s).

(** [strtol(s, NULL, 16)]: white space, an optional sign, an optional
    0x, hexadecimal digits; a number beyond the range of [long] gives
    [LONG_MIN] or [LONG_MAX]. *)
Definition hex_digit_of (c : ascii) : option Z :=
  let n := Z.of_N (N_of_ascii c) in
  if (48 <=? n) && (n <=? 57) then Some (n - 48)
  else if (97 <=? n) && (n <=? 102) then Some (n - 87)
  else if (65 <=? n) && (n <=? 70) then Some (n - 55)
  else None.

Fixpoint hex_digits (acc : Z) (s : string) : Z :=
  match s with
  | EmptyString => acc
  | String c s' =>
      match hex_digit_of c with
      | Some d => hex_digits (acc * 16 + d) s'
      | None => acc
      end
  end.

Definition skip_0x (s : string) : string :=
  match s with
  | String "0"%char (String "x"%char r) => r
  | String "0"%char (String "X"%char r) => r
  | _ => s
  end.

Definition strtol16 (s : string) : Z :=
  let v := match skip_spaces s with
           | String "-"%char r => - hex_digits 0 (skip_0x r)
           | String "+"%char r => hex_digits 0 (skip_0x r)
           | r => hex_digits 0 (skip_0x r)
           end in
  Z.max (- 2 ^ 31) (Z.min v (2 ^ 31 - 1)).

(** The text [printf] writes for [%d]. *)
Definition decimal_text (n : nat) : string :=
  NilEmpty.string_of_uint (Nat.to_uint n).

(** Every character of [s] is a decimal digit. *)
Fixpoint all_digits (s : string) : bool :=
  match s with
  | EmptyString => true
  | String c s' =>
      match digit_of c with
      | Some _ => all_digits s'
      | None => false
      end
  end.

(** The suffix of [s] from position [n] on ([s + n] on a C string). *)
Definition string_from (n : nat) (s : string) : string :=
  String.substring n (String.length s - n) s.

Definition CRLF : string := String "013" (String "010" EmptyString).

(** ** Arduino [String] (external library)

    The methods the cellular HTTP client uses on its response buffer,
    as the Arduino reference describes them.  Positions are [int]s, -1
    for a text that is not found; a position passed to a method is taken
    as an [unsigned int].  Memory for a growing [String] is taken to be
    available. *)

Module WString.

Definition length (s : string) : Z := Z.of_nat (String.length s).

(** [s.indexOf(pat, fromIndex)]; [s.indexOf(pat)] is [indexOf pat 0 s]. *)
Definition indexOf (pat : string) (fromIndex : Z) (s : string) : Z :=
  let from := u32 fromIndex in
  if length s <=? from then -1
  else match String.index (Z.to_nat from) pat s with
       | Some i => Z.of_nat i
       | None => -1
       end.

(** [s.substring(left, right)]: the characters from [left] up to, not
    including, [right]; the two are exchanged when [left] is the larger
    and [right] is cut down to the length. *)
Definition substring (left right : Z) (s : string) : string :=
  let l0 := u32 left in
  let r0 := u32 right in
  let l := if l0 >? r0 then r0 else l0 in
  let r := if l0 >? r0 then l0 else r0 in
  if length s <=? l then EmptyString
  else String.substring (Z.to_nat l) (Z.to_nat ((if r >? length s then length s else r) - l)) s.

(** [s.substring(left)]. *)
Definition substring_from (left : Z) (s : string) : string :=
  substring left (length s) s.

(** [s.endsWith(suffix)]. *)
Definition endsWith (suffix s : string) : bool :=
  if (String.length s <? String.length suffix)%nat then false
  else String.eqb (string_from (String.length s - String.length suffix) s) suffix.

(** [s.toLowerCase()]. *)
Definition tolower (c : ascii) : ascii :=
  let n := N_of_ascii c in
  if (N.leb 65 n && N.leb n 90)%bool then ascii_of_N (n + 32) else c.

Fixpoint toLowerCase (s : string) : string :=
  match s with
  | EmptyString => EmptyString
  | String c s' => String (tolower c) (toLowerCase s')
  end.

(** [s.toInt()], a [long]. *)
Definition toInt (s : string) : Z := atol s.

(** [s += c]. *)
Definition concat (s : string) (c : ascii) : string :=
  (s ++ String c EmptyString)%string.

End WString.

(** ** GPRSManager.cpp: the cellular transport *)

Module GPRS.

Inductive GPRSHttpState : Type :=
| IDLE
| CLIENT_CONNECT
| SENDING_REQUEST
| HEADERS_RECEIVING
| BODY_RECEIVING
| PROCESSING_RESPONSE
| COMPLETE
| RETRY_WAIT
| ERROR.

(** The members that drive one asynchronous HTTP request. *)
Record HttpVars : Type := mkHttpVars {
  _currentHttpState : GPRSHttpState;
  _asyncUrl : string;
  _asyncMethod : string;
  _asyncApiType : string;
  _asyncPayload : string;
  _asyncCb : Callback;
  _asyncNeedsAuth : bool;
  _asyncRequestStartTime : Z;
  _asyncOperationActive : bool;
  _httpRetries : Z;
  _gprsHost : string;
  _gprsPath : string;
  _gprsPort : Z;
  _gprsResponseBuffer : string;
  _gprsHttpStatusCode : Z;
  _gprsContentLength : Z;
  _gprsChunkedEncoding : bool;
  _gprsBodyBytesRead : Z;
  _jsonDoc : option JsonDocument   (* [None]: the cleared document *)
}.

(** The members of [GPRSManager]; the HTTP ones are grouped under
    [http].  [_deviceState] records whether the pointer to the shared
    [DeviceState] is non-null; the pointee is passed to every method next
    to the manager.  [_modem], [_gprsClient] and [_lcd] are hardware
    handles: their answers are inputs. *)
Record GPRSManager : Type := mkGPRSManager {
  _apn : string;
  _gprsUser : string;
  _gprsPass : string;
  _simPin : string;
  _authToken : string;
  _deviceState : bool;
  _currentGprsState : GPRSState;
  _lastGprsStateTransitionTime : Z;
  _gprsReconnectAttempt : Z;
  _modemResetCount : Z;
  _gprsAttachFailCount : Z;
  http : HttpVars
}.

(** The constructor.  Members it leaves uninitialised (the request
    descriptor, its start time, the retry counter, the port) are given
    empty, zero or false values. *)
Definition init (apn gprsUser gprsPass simPin authToken : string)
  (deviceState : bool) : GPRSManager :=
  {| _apn := apn; _gprsUser := gprsUser; _gprsPass := gprsPass;
     _simPin := simPin; _authToken := authToken; _deviceState := deviceState;
     _currentGprsState := GPRS_STATE_DISABLED;
     _lastGprsStateTransitionTime := 0;
     _gprsReconnectAttempt := 0; _modemResetCount := 0; _gprsAttachFailCount := 0;
     http :=
       {| _currentHttpState := IDLE;
          _asyncUrl := EmptyString; _asyncMethod := EmptyString;
          _asyncApiType := EmptyString; _asyncPayload := EmptyString;
          _asyncCb := None; _asyncNeedsAuth := false;
          _asyncRequestStartTime := 0; _asyncOperationActive := false;
          _httpRetries := 0;
          _gprsHost := EmptyString; _gprsPath := EmptyString; _gprsPort := 0;
          _gprsResponseBuffer := EmptyString; _gprsHttpStatusCode := 0;
          _gprsContentLength := 0; _gprsChunkedEncoding := false;
          _gprsBodyBytesRead := 0; _jsonDoc := None |} |}.

(** Assignment to the members of the connection FSM. *)
Definition with_conn (st : GPRSState) (last reconn resets attach : Z)
  (g : GPRSManager) : GPRSManager :=
  {| _apn := _apn g; _gprsUser := _gprsUser g; _gprsPass := _gprsPass g;
     _simPin := _simPin g; _authToken := _authToken g; _deviceState := _deviceState g;
     _currentGprsState := st;
     _lastGprsStateTransitionTime := last;
     _gprsReconnectAttempt := reconn; _modemResetCount := resets;
     _gprsAttachFailCount := attach;
     http := http g |}.

Definition set_state (st : GPRSState) (g : GPRSManager) : GPRSManager :=
  with_conn st (_lastGprsStateTransitionTime g) (_gprsReconnectAttempt g)
    (_modemResetCount g) (_gprsAttachFailCount g) g.

Definition set_lastTransition (t : Z) (g : GPRSManager) : GPRSManager :=
  with_conn (_currentGprsState g) t (_gprsReconnectAttempt g)
    (_modemResetCount g) (_gprsAttachFailCount g) g.

Definition set_reconnectAttempt (n : Z) (g : GPRSManager) : GPRSManager :=
  with_conn (_currentGprsState g) (_lastGprsStateTransitionTime g) n
    (_modemResetCount g) (_gprsAttachFailCount g) g.

Definition set_modemResetCount (n : Z) (g : GPRSManager) : GPRSManager :=
  with_conn (_currentGprsState g) (_lastGprsStateTransitionTime g)
    (_gprsReconnectAttempt g) n (_gprsAttachFailCount g) g.

Definition set_attachFailCount (n : Z) (g : GPRSManager) : GPRSManager :=
  with_conn (_currentGprsState g) (_lastGprsStateTransitionTime g)
    (_gprsReconnectAttempt g) (_modemResetCount g) n g.

(** The manager together with the shared state its pointer refers to. *)
Definition St : Type := (GPRSManager * DeviceState)%type.

(** *** The connection FSM *)

(** [GPRSManager::transitionToState]; [ms] is what [millis()] returns. *)
Definition transitionToState (newState : GPRSState) (ms : Z) (s : St) : St :=
  let (g, ds) := s in
  if GPRSState_eqb (_currentGprsState g) newState then (g, ds)
  else
    let g1 := set_lastTransition ms (set_state newState g) in
    let g2 := if GPRSState_eqb newState GPRS_STATE_RECONNECTING then g1
              else set_reconnectAttempt 0 g1 in
    let g3 := if GPRSState_eqb newState GPRS_STATE_INIT_START
              then set_attachFailCount 0 (set_modemResetCount 0 g2)
              else g2 in
    let ds' := if _deviceState g3
               then ds_set_gprs_mirror (_currentGprsState g3)
                      (_lastGprsStateTransitionTime g3) ds
               else ds in
    (g3, ds').

(** [GPRSManager::getElapsedTimeInCurrentGprsState]. *)
Definition getElapsedTimeInCurrentGprsState (ms : Z) (g : GPRSManager) : Z :=
  u32 (ms - _lastGprsStateTransitionTime g).

(** [GPRSManager::isConnected]. *)
Definition isConnected (g : GPRSManager) : bool :=
  GPRSState_eqb (_currentGprsState g) GPRS_STATE_OPERATIONAL.

(** [GPRSManager::connect]: starts the FSM when it is disabled and
    always reports [true]. *)
Definition connect (ms : Z) (s : St) : bool * St :=
  if GPRSState_eqb (_currentGprsState (fst s)) GPRS_STATE_DISABLED
  then (true, transitionToState GPRS_STATE_INIT_START ms s)
  else (true, s).

(** [GPRSManager::disconnect]: one modem command, no member is written. *)
Definition disconnect (s : St) : St * list Event :=
  (s, [EvGprsDisconnect]).

(** [checkModemSerial], [performModemSoftReset], [performModemHardReset]. *)
Definition checkModemSerial (o : ModemObs) : bool := testAT o.

Definition performModemSoftReset (o : ModemObs) : bool :=
  if restart o then checkModemSerial o else false.

Definition performModemHardReset (o : ModemObs) : bool :=
  if restart o then true else checkModemSerial o.

Definition on_mgr (f : GPRSManager -> GPRSManager) (s : St) : St :=
  (f (fst s), snd s).

Definition handleGprsInitStart (o : ModemObs) (s : St) : St :=
  let s1 := on_mgr (fun g => set_attachFailCount 0 (set_modemResetCount 0 g)) s in
  if negb (checkModemSerial o)
  then transitionToState GPRS_STATE_INIT_WAIT_SERIAL (ms_trans o) s1
  else transitionToState GPRS_STATE_INIT_RESET_MODEM (ms_trans o) s1.

Definition handleGprsInitWaitSerial (o : ModemObs) (s : St) : St :=
  if checkModemSerial o
  then transitionToState GPRS_STATE_INIT_RESET_MODEM (ms_trans o) s
  else if getElapsedTimeInCurrentGprsState (ms_elapsed o) (fst s)
            >? Config.MODEM_SERIAL_WAIT_TIMEOUT_MS
  then transitionToState GPRS_STATE_ERROR_RESTART_MODEM (ms_trans o) s
  else s.

Definition handleGprsInitResetModem (o : ModemObs) (s : St) : St :=
  let resetOk := if _modemResetCount (fst s) =? 0
                 then performModemSoftReset o
                 else performModemHardReset o in
  if resetOk then
    let s1 := on_mgr (set_modemResetCount 0) s in
    if (0 <? Z.of_nat (String.length (_simPin (fst s1))))
       && SimStatus_eqb (simStatusFirst o) SIM_LOCKED
       && negb (simUnlock o)
    then transitionToState GPRS_STATE_ERROR_RESTART_MODEM (ms_trans o) s1
    else if negb (SimStatus_eqb (simStatusCheck o) SIM_READY) then
      let s2 := on_mgr (fun g => set_modemResetCount (u8 (_modemResetCount g + 1)) g) s1 in
      if _modemResetCount (fst s2) >=? Config.GPRS_MAX_MODEM_RESETS
      then transitionToState GPRS_STATE_ERROR_MODEM_FAIL (ms_trans o) s2
      else transitionToState GPRS_STATE_ERROR_RESTART_MODEM (ms_trans o) s2
    else transitionToState GPRS_STATE_INIT_ATTACH_GPRS (ms_trans o) s1
  else
    let s1 := on_mgr (fun g => set_modemResetCount (u8 (_modemResetCount g + 1)) g) s in
    if _modemResetCount (fst s1) >=? Config.GPRS_MAX_MODEM_RESETS
    then transitionToState GPRS_STATE_ERROR_MODEM_FAIL (ms_trans o) s1
    else transitionToState GPRS_STATE_ERROR_RESTART_MODEM (ms_trans o) s1.

Definition handleGprsInitAttachGprs (o : ModemObs) (s : St) : St :=
  if isNetworkConnected o && isGprsConnected_modem o then
    transitionToState GPRS_STATE_OPERATIONAL (ms_trans o)
      (on_mgr (set_attachFailCount 0) s)
  else if negb (isNetworkConnectedAgain o) && negb (reg_ok (getRegistrationStatus o)) then
    (* not registered: count a timeout or keep waiting *)
    if getElapsedTimeInCurrentGprsState (ms_elapsed o) (fst s)
         >? Config.GPRS_ATTACH_TIMEOUT_MS
    then
      let s1 := on_mgr (fun g => set_attachFailCount (u8 (_gprsAttachFailCount g + 1)) g) s in
      if _gprsAttachFailCount (fst s1) >? Config.GPRS_MAX_ATTACH_FAILURES
      then transitionToState GPRS_STATE_ERROR_RESTART_MODEM (ms_trans o) s1
      else on_mgr (set_lastTransition (ms_mark o)) s1
    else s
  else if gprsConnect o then
    transitionToState GPRS_STATE_OPERATIONAL (ms_trans o)
      (on_mgr (set_attachFailCount 0) s)
  else
    let s1 := on_mgr (fun g => set_attachFailCount (u8 (_gprsAttachFailCount g + 1)) g) s in
    if _gprsAttachFailCount (fst s1) >=? Config.GPRS_MAX_ATTACH_FAILURES
    then transitionToState GPRS_STATE_ERROR_RESTART_MODEM (ms_trans o) s1
    else on_mgr (set_lastTransition (ms_mark o)) s1.

Definition handleGprsOperational (o : ModemObs) (s : St) : St :=
  if getElapsedTimeInCurrentGprsState (ms_elapsed o) (fst s)
       >? Config.GPRS_CONNECTION_CHECK_INTERVAL_MS
  then
    let s1 := on_mgr (set_lastTransition (ms_mark o)) s in
    if negb (isGprsConnected_modem o)
    then transitionToState GPRS_STATE_CONNECTION_LOST (ms_trans o) s1
    else if negb (isNetworkConnected o)
    then transitionToState GPRS_STATE_CONNECTION_LOST (ms_trans o) s1
    else s1
  else s.

Definition handleGprsConnectionLost (o : ModemObs) (s : St) : St :=
  transitionToState GPRS_STATE_RECONNECTING (ms_trans o)
    (on_mgr (set_reconnectAttempt 0) s).

Definition handleGprsReconnecting (o : ModemObs) (s : St) : St :=
  if _gprsReconnectAttempt (fst s) <? Config.GPRS_MAX_RECONNECT_ATTEMPTS then
    if getElapsedTimeInCurrentGprsState (ms_elapsed o) (fst s)
         >? Config.GPRS_RECONNECT_DELAY_INITIAL_MS
    then transitionToState GPRS_STATE_INIT_ATTACH_GPRS (ms_trans o)
           (on_mgr (fun g => set_reconnectAttempt (u8 (_gprsReconnectAttempt g + 1)) g) s)
    else s
  else transitionToState GPRS_STATE_ERROR_RESTART_MODEM (ms_trans o) s.

Definition handleGprsErrorRestartModem (o : ModemObs) (s : St) : St :=
  if getElapsedTimeInCurrentGprsState (ms_elapsed o) (fst s)
       <? Config.GPRS_MODEM_ERROR_RESTART_DELAY_MS
  then s
  else transitionToState GPRS_STATE_INIT_RESET_MODEM (ms_trans o) s.

Definition handleGprsErrorModemFail (o : ModemObs) (s : St) : St :=
  if getElapsedTimeInCurrentGprsState (ms_elapsed o) (fst s)
       >? Config.GPRS_MODEM_FAIL_RECOVERY_TIMEOUT_MS
  then transitionToState GPRS_STATE_DISABLED (ms_trans o) s
  else s.

(** [GPRSManager::updateFSM]: one poll of the connection FSM. *)
Definition updateFSM (o : ModemObs) (s : St) : St :=
  let s0 := if _deviceState (fst s)
            then (fst s, ds_set_gprs_status (getSignalQuality o) (isConnected (fst s)) (snd s))
            else s in
  match _currentGprsState (fst s0) with
  | GPRS_STATE_DISABLED => s0
  | GPRS_STATE_INIT_START => handleGprsInitStart o s0
  | GPRS_STATE_INIT_WAIT_SERIAL => handleGprsInitWaitSerial o s0
  | GPRS_STATE_INIT_RESET_MODEM => handleGprsInitResetModem o s0
  | GPRS_STATE_INIT_ATTACH_GPRS => handleGprsInitAttachGprs o s0
  | GPRS_STATE_OPERATIONAL => handleGprsOperational o s0
  | GPRS_STATE_CONNECTION_LOST => handleGprsConnectionLost o s0
  | GPRS_STATE_RECONNECTING => handleGprsReconnecting o s0
  | GPRS_STATE_ERROR_RESTART_MODEM => handleGprsErrorRestartModem o s0
  | GPRS_STATE_ERROR_MODEM_FAIL => handleGprsErrorModemFail o s0
  end.

(** A run of polls, oldest first. *)
Fixpoint run (os : list ModemObs) (s : St) : St :=
  match os with
  | [] => s
  | o :: os' => run os' (updateFSM o s)
  end.

(** The calls that reach the connection FSM from outside the manager:
    [connect()], [disconnect()] and the [updateFSM()] of the main loop. *)
Inductive Call : Type :=
| CallConnect (ms : Z)
| CallDisconnect
| CallUpdateFSM (o : ModemObs).

Definition call (c : Call) (s : St) : St :=
  match c with
  | CallConnect ms => snd (connect ms s)
  | CallDisconnect => fst (disconnect s)
  | CallUpdateFSM o => updateFSM o s
  end.

(** A sequence of such calls, oldest first. *)
Fixpoint calls (cs : list Call) (s : St) : St :=
  match cs with
  | [] => s
  | c :: cs' => calls cs' (call c s)
  end.

(** *** Kinds of polls in InitAttach *)

(** The modem is not registered and the state's time-out has passed. *)
Definition registration_timeout (o : ModemObs) (g : GPRSManager) : bool :=
  negb (isNetworkConnected o && isGprsConnected_modem o)
  && negb (isNetworkConnectedAgain o)
  && negb (reg_ok (getRegistrationStatus o))
  && (getElapsedTimeInCurrentGprsState (ms_elapsed o) g >? Config.GPRS_ATTACH_TIMEOUT_MS).

(** The modem is registered but refuses the packet-data attach. *)
Definition attach_refused (o : ModemObs) : bool :=
  negb (isNetworkConnected o && isGprsConnected_modem o)
  && (isNetworkConnectedAgain o || reg_ok (getRegistrationStatus o))
  && negb (gprsConnect o).

(** Every poll of a run is a registration time-out (an attach refusal)
    in the state the run has reached by then. *)
Fixpoint all_registration_timeouts (os : list ModemObs) (s : St) : bool :=
  match os with
  | [] => true
  | o :: os' =>
      registration_timeout o (fst s) && all_registration_timeouts os' (updateFSM o s)
  end.

Definition all_attach_refusals (os : list ModemObs) : bool :=
  forallb attach_refused os.

(** The outcome of the reset that [handleGprsInitResetModem] tries: soft
    on the first attempt, hard afterwards. *)
Definition reset_succeeds (o : ModemObs) (g : GPRSManager) : bool :=
  if _modemResetCount g =? 0 then performModemSoftReset o else performModemHardReset o.

(** The members of the connection FSM, taken together. *)
Definition conn_of (g : GPRSManager) : GPRSState * Z * Z * Z * Z :=
  (_currentGprsState g, _lastGprsStateTransitionTime g, _gprsReconnectAttempt g,
   _modemResetCount g, _gprsAttachFailCount g).

(** *** The HTTP FSM *)

Definition with_ctrl (st : GPRSHttpState) (start : Z) (active : bool) (retries : Z)
  (h : HttpVars) : HttpVars :=
  {| _currentHttpState := st;
     _asyncUrl := _asyncUrl h; _asyncMethod := _asyncMethod h;
     _asyncApiType := _asyncApiType h; _asyncPayload := _asyncPayload h;
     _asyncCb := _asyncCb h; _asyncNeedsAuth := _asyncNeedsAuth h;
     _asyncRequestStartTime := start;
     _asyncOperationActive := active;
     _httpRetries := retries;
     _gprsHost := _gprsHost h; _gprsPath := _gprsPath h; _gprsPort := _gprsPort h;
     _gprsResponseBuffer := _gprsResponseBuffer h;
     _gprsHttpStatusCode := _gprsHttpStatusCode h;
     _gprsContentLength := _gprsContentLength h;
     _gprsChunkedEncoding := _gprsChunkedEncoding h;
     _gprsBodyBytesRead := _gprsBodyBytesRead h;
     _jsonDoc := _jsonDoc h |}.

Definition with_response (buf : string) (status len : Z) (chunked : bool)
  (read : Z) (doc : option JsonDocument) (h : HttpVars) : HttpVars :=
  {| _currentHttpState := _currentHttpState h;
     _asyncUrl := _asyncUrl h; _asyncMethod := _asyncMethod h;
     _asyncApiType := _asyncApiType h; _asyncPayload := _asyncPayload h;
     _asyncCb := _asyncCb h; _asyncNeedsAuth := _asyncNeedsAuth h;
     _asyncRequestStartTime := _asyncRequestStartTime h;
     _asyncOperationActive := _asyncOperationActive h;
     _httpRetries := _httpRetries h;
     _gprsHost := _gprsHost h; _gprsPath := _gprsPath h; _gprsPort := _gprsPort h;
     _gprsResponseBuffer := buf;
     _gprsHttpStatusCode := status;
     _gprsContentLength := len;
     _gprsChunkedEncoding := chunked;
     _gprsBodyBytesRead := read;
     _jsonDoc := doc |}.

Definition with_target (host path : string) (port : Z) (h : HttpVars) : HttpVars :=
  {| _currentHttpState := _currentHttpState h;
     _asyncUrl := _asyncUrl h; _asyncMethod := _asyncMethod h;
     _asyncApiType := _asyncApiType h; _asyncPayload := _asyncPayload h;
     _asyncCb := _asyncCb h; _asyncNeedsAuth := _asyncNeedsAuth h;
     _asyncRequestStartTime := _asyncRequestStartTime h;
     _asyncOperationActive := _asyncOperationActive h;
     _httpRetries := _httpRetries h;
     _gprsHost := host; _gprsPath := path; _gprsPort := port;
     _gprsResponseBuffer := _gprsResponseBuffer h;
     _gprsHttpStatusCode := _gprsHttpStatusCode h;
     _gprsContentLength := _gprsContentLength h;
     _gprsChunkedEncoding := _gprsChunkedEncoding h;
     _gprsBodyBytesRead := _gprsBodyBytesRead h;
     _jsonDoc := _jsonDoc h |}.

Definition set_httpState (st : GPRSHttpState) (h : HttpVars) : HttpVars :=
  with_ctrl st (_asyncRequestStartTime h) (_asyncOperationActive h) (_httpRetries h) h.

Definition set_startTime (t : Z) (h : HttpVars) : HttpVars :=
  with_ctrl (_currentHttpState h) t (_asyncOperationActive h) (_httpRetries h) h.

Definition set_active (b : bool) (h : HttpVars) : HttpVars :=
  with_ctrl (_currentHttpState h) (_asyncRequestStartTime h) b (_httpRetries h) h.

Definition set_retries (n : Z) (h : HttpVars) : HttpVars :=
  with_ctrl (_currentHttpState h) (_asyncRequestStartTime h) (_asyncOperationActive h) n h.

Definition set_jsonDoc (d : option JsonDocument) (h : HttpVars) : HttpVars :=
  with_response (_gprsResponseBuffer h) (_gprsHttpStatusCode h) (_gprsContentLength h)
    (_gprsChunkedEncoding h) (_gprsBodyBytesRead h) d h.

Definition clear_response (h : HttpVars) : HttpVars :=
  with_response EmptyString 0 0 false 0 None h.

Definition set_http (h : HttpVars) (g : GPRSManager) : GPRSManager :=
  {| _apn := _apn g; _gprsUser := _gprsUser g; _gprsPass := _gprsPass g;
     _simPin := _simPin g; _authToken := _authToken g; _deviceState := _deviceState g;
     _currentGprsState := _currentGprsState g;
     _lastGprsStateTransitionTime := _lastGprsStateTransitionTime g;
     _gprsReconnectAttempt := _gprsReconnectAttempt g;
     _modemResetCount := _modemResetCount g;
     _gprsAttachFailCount := _gprsAttachFailCount g;
     http := h |}.

Definition on_http (f : HttpVars -> HttpVars) (g : GPRSManager) : GPRSManager :=
  set_http (f (http g)) g.

(** [GPRSManager::isRetryableError]. *)
Definition isRetryableError (httpStatusCode : Z) : bool :=
  if httpStatusCode <=? 0 then true
  else if httpStatusCode =? 408 then true
  else if httpStatusCode =? 429 then true
  else if (httpStatusCode >=? 500) && (httpStatusCode <=? 599) then true
  else false.

(** [GPRSManager::startAsyncHttpRequest]; [ms] is what [millis()] returns.
    The URL is split into host, path and port; a rejected path leaves the
    host already written. *)
Definition startAsyncHttpRequest (ms : Z) (r : Request) (g : GPRSManager)
  : bool * GPRSManager :=
  if _asyncOperationActive (http g) then (false, g)
  else if negb (isConnected g) then (false, g)
  else
    match String.index 0 "://" (url r) with
    | None => (false, g)
    | Some protocol_end =>
        let host_start := string_from (protocol_end + 3) (url r) in
        let path_start_ptr := String.index 0 "/" host_start in
        let port_colon_ptr := String.index 0 ":" host_start in
        let host_end0 := match path_start_ptr with
                         | Some p => p
                         | None => String.length host_start
                         end in
        let host_end := match port_colon_ptr with
                        | Some c => if (c <? host_end0)%nat then c else host_end0
                        | None => host_end0
                        end in
        let host_len := host_end in
        if (Config.GPRS_MAX_HOST_LEN <=? host_len)%nat then (false, g)
        else
          let host := String.substring 0 host_len host_start in
          let g_host := on_http (fun h => with_target host (_gprsPath h) (_gprsPort h) h) g in
          let path_result :=
            match path_start_ptr with
            | Some p =>
                let actual_path_start := string_from p host_start in
                if (Config.GPRS_MAX_PATH_LEN <=? String.length actual_path_start)%nat
                then None
                else Some actual_path_start
            | None => Some "/"%string
            end in
          match path_result with
          | None => (false, g_host)
          | Some path =>
              let port_before_path :=
                match port_colon_ptr, path_start_ptr with
                | Some c, None => Some c
                | Some c, Some p => if (c <? p)%nat then Some c else None
                | None, _ => None
                end in
              let port :=
                match port_before_path with
                | Some c => atoi (string_from (c + 1) host_start)
                | None => if String.prefix "https" (url r) then 443 else 80
                end in
              (true,
               set_http
                 {| _currentHttpState := CLIENT_CONNECT;
                    _asyncUrl := url r;
                    _asyncMethod := method r;
                    _asyncApiType := apiType r;
                    _asyncPayload := match payload r with
                                     | Some p => p
                                     | None => EmptyString
                                     end;
                    _asyncCb := cb r;
                    _asyncNeedsAuth := needsAuth r;
                    _asyncRequestStartTime := ms;
                    _asyncOperationActive := true;
                    _httpRetries := 0;
                    _gprsHost := host; _gprsPath := path; _gprsPort := port;
                    _gprsResponseBuffer := EmptyString;
                    _gprsHttpStatusCode := 0;
                    _gprsContentLength := 0;
                    _gprsChunkedEncoding := false;
                    _gprsBodyBytesRead := 0;
                    _jsonDoc := None |} g)
          end
    end.

(** The answers of the socket and of [millis()] during one call of
    [updateHttpOperations].  [_gprsClient.stop()] writes no member; the
    [connected()] that only guards it is not listed. *)
Record HttpObs : Type := mkHttpObs {
  ms_now : Z;          (* currentTime = millis() at the top of the poll *)
  ms_check : Z;        (* millis() compared with the start time in RETRY_WAIT *)
  ms_set : Z;          (* millis() assigned to (or added into) the start time *)
  ms_transition : Z;   (* millis() inside transitionToState() *)
  client_connect : bool; (* _gprsClient.connect(_gprsHost, _gprsPort) *)
  client_write : Z;    (* _gprsClient.write(requestBuffer, offset) *)
  connected_first : bool; (* _gprsClient.connected() at the top of
                             HEADERS_RECEIVING and of BODY_RECEIVING *)
  incoming : string;   (* what the loop gets from _gprsClient.read() for as
                          long as available() is not zero, without the
                          characters its test c == -1 skips *)
  connected_body : bool;  (* _gprsClient.connected() where BODY_RECEIVING
                             decides whether the body is complete *)
  connected_last : bool   (* _gprsClient.connected() in the closing test of
                             HEADERS_RECEIVING and of BODY_RECEIVING *)
}.

Definition http_in_flight (st : GPRSHttpState) : bool :=
  match st with
  | IDLE | COMPLETE | ERROR => false
  | _ => true
  end.

Definition set_responseBuffer (buf : string) (h : HttpVars) : HttpVars :=
  with_response buf (_gprsHttpStatusCode h) (_gprsContentLength h)
    (_gprsChunkedEncoding h) (_gprsBodyBytesRead h) (_jsonDoc h) h.

Definition set_statusCode (status : Z) (h : HttpVars) : HttpVars :=
  with_response (_gprsResponseBuffer h) status (_gprsContentLength h)
    (_gprsChunkedEncoding h) (_gprsBodyBytesRead h) (_jsonDoc h) h.

Definition status_2xx (h : HttpVars) : bool :=
  (_gprsHttpStatusCode h >=? 200) && (_gprsHttpStatusCode h <? 300).

(** **** SENDING_REQUEST *)

(** The request line and the header lines that the [snprintf] calls
    format into [requestBuffer]; [offset] is the sum of what they return,
    the length of this text whether or not it fits.  (When it does not
    fit, the later calls are handed a size that has wrapped around; the
    model follows the test the code makes after them.) *)
Definition requestHead (g : GPRSManager) : string :=
  let h := http g in
  ((_asyncMethod h ++ " " ++ _gprsPath h ++ " HTTP/1.1" ++ CRLF)
   ++ ("Host: " ++ _gprsHost h ++ CRLF)
   ++ (if _asyncNeedsAuth h && (0 <? String.length (_authToken g))%nat
       then "Authorization: Bearer " ++ _authToken g ++ CRLF
       else EmptyString)
   ++ ("User-Agent: " ++ Config.FW_NAME ++ "/" ++ Config.FW_VERSION ++ CRLF)
   ++ (if (0 <? String.length (_asyncPayload h))%nat
       then "Content-Type: application/json" ++ CRLF
            ++ "Content-Length: " ++ decimal_text (String.length (_asyncPayload h)) ++ CRLF
       else EmptyString)
   ++ "Connection: close" ++ CRLF ++ CRLF)%string.

(** The body of [case GPRSHttpState::SENDING_REQUEST]. *)
Definition sendingRequest (o : HttpObs) (s : St) : St :=
  let (g, ds) := s in
  if u32 (ms_now o - _asyncRequestStartTime (http g)) >? Config.HTTP_RESPONSE_TIMEOUT_MS
  then (on_http (set_httpState ERROR) g, ds)
  else
    let offset := WString.length (requestHead g) in
    let payload_len := WString.length (_asyncPayload (http g)) in
    if offset >=? Config.GPRS_REQUEST_BUFFER_SIZE
    then (on_http (set_httpState ERROR) g, ds)
    else if (payload_len >? 0)
            && negb (offset + payload_len <? Config.GPRS_REQUEST_BUFFER_SIZE)
    then (on_http (set_httpState ERROR) g, ds)
    else
      let offset := if payload_len >? 0 then offset + payload_len else offset in
      if negb (client_write o =? offset)
      then
        let s1 := if GPRSState_eqb (_currentGprsState g) GPRS_STATE_OPERATIONAL
                  then transitionToState GPRS_STATE_CONNECTION_LOST
                         (ms_transition o) (g, ds)
                  else (g, ds) in
        on_mgr (on_http (set_httpState ERROR)) s1
      else
        (on_http (fun h => set_httpState HEADERS_RECEIVING
                             (set_startTime (ms_set o)
                                (set_responseBuffer EmptyString h))) g, ds).

(** **** HEADERS_RECEIVING *)

(** What is done once the buffer ends with the blank line: the status
    line and the two headers of interest are read and the buffer is cut
    down to what follows the blank line. *)
Definition parseHeaders (o : HttpObs) (h : HttpVars) : HttpVars :=
  let buf := _gprsResponseBuffer h in
  let firstSpace := WString.indexOf " " 0 buf in
  let secondSpace := if negb (firstSpace =? -1)
                     then WString.indexOf " " (firstSpace + 1) buf
                     else -1 in
  if negb (secondSpace =? -1) && negb (firstSpace =? -1) && (secondSpace >? firstSpace)
  then
    let status := WString.toInt (WString.substring (firstSpace + 1) secondSpace buf) in
    let tempHeaders := WString.toLowerCase buf in
    let clPos := WString.indexOf "content-length:" 0 tempHeaders in
    let contentLength :=
      if negb (clPos =? -1) then
        let clValStart := clPos + 15 in
        let clEnd := WString.indexOf CRLF clValStart buf in
        if negb (clEnd =? -1)
        then u32 (WString.toInt (WString.substring clValStart clEnd buf))
        else 0
      else 0 in
    let chunked := negb (WString.indexOf "transfer-encoding: chunked" 0 tempHeaders =? -1) in
    let contentLength := if chunked then 0 else contentLength in
    let bodyStartIndex := WString.indexOf (CRLF ++ CRLF) 0 buf in
    let initialBodyChunk := if negb (bodyStartIndex =? -1)
                            then WString.substring_from (bodyStartIndex + 4) buf
                            else EmptyString in
    let h1 := with_response initialBodyChunk status contentLength chunked
                (WString.length initialBodyChunk) (_jsonDoc h) h in
    if (status >=? 200) && (status <? 300) then
      if negb chunked && (contentLength =? 0) && (WString.length initialBodyChunk =? 0)
      then set_httpState PROCESSING_RESPONSE h1
      else set_startTime (ms_set o) (set_httpState BODY_RECEIVING h1)
    else if status =? 0 then h1
    else set_startTime (ms_set o) (set_httpState BODY_RECEIVING h1)
  else set_httpState ERROR (set_statusCode 0 h).

(** The loop [while (_gprsClient.available())] of the state, which a
    [goto] leaves as soon as the headers are too long or complete. *)
Fixpoint receiveHeaders (o : HttpObs) (bytes : string) (h : HttpVars) : HttpVars :=
  match bytes with
  | EmptyString => h
  | String c rest =>
      let h1 := set_responseBuffer (WString.concat (_gprsResponseBuffer h) c) h in
      if WString.length (_gprsResponseBuffer h1) >=? Config.GPRS_MAX_HEADER_SIZE
      then set_httpState ERROR h1
      else if WString.endsWith (CRLF ++ CRLF) (_gprsResponseBuffer h1)
      then parseHeaders o h1
      else receiveHeaders o rest h1
  end.

(** The body of [case GPRSHttpState::HEADERS_RECEIVING]. *)
Definition headersReceiving (o : HttpObs) (h : HttpVars) : HttpVars :=
  if negb (connected_first o) then set_httpState ERROR h
  else
    let h1 := receiveHeaders o (incoming o) h in
    match _currentHttpState h1 with
    | HEADERS_RECEIVING =>
        if u32 (ms_now o - _asyncRequestStartTime h1) >? Config.GPRS_HTTP_HEADER_TIMEOUT_MS
        then set_httpState ERROR h1
        else if negb (connected_last o) then set_httpState ERROR h1
        else h1
    | _ => h1
    end.

(** **** BODY_RECEIVING *)

(** The reading loop: a character is kept while the buffer has room;
    once it is full the rest is read and thrown away. *)
Fixpoint receiveBody (bytes : string) (h : HttpVars) : HttpVars :=
  match bytes with
  | EmptyString => h
  | String c rest =>
      if WString.length (_gprsResponseBuffer h) <? Config.GPRS_BODY_BUFFER_SIZE - 1
      then receiveBody rest
             (with_response (WString.concat (_gprsResponseBuffer h) c)
                (_gprsHttpStatusCode h) (_gprsContentLength h) (_gprsChunkedEncoding h)
                (u32 (_gprsBodyBytesRead h + 1)) (_jsonDoc h) h)
      else h
  end.

(** One round of the loop [while (true)] that takes the chunks out of a
    body in chunked encoding: the loop is left, with [bodyComplete] and
    [unchunkedBody], or goes round again from a new position.  The sum
    of an [int] and a [long] is compared with a length, and passed as a
    position, as an unsigned number. *)
Definition chunkRound (buf : string) (currentPos : Z) (unchunkedBody : string)
  : (bool * string) + (Z * string) :=
  let chunkSizeHexEnd := WString.indexOf CRLF currentPos buf in
  if chunkSizeHexEnd =? -1 then inl (false, unchunkedBody)
  else
    let chunkSizeHex := WString.substring currentPos chunkSizeHexEnd buf in
    let chunkSize := strtol16 chunkSizeHex in
    if chunkSize =? 0 then inl (true, unchunkedBody)
    else
      let chunkDataStart := chunkSizeHexEnd + 2 in
      if u32 (chunkDataStart + chunkSize) >? WString.length buf
      then inl (false, unchunkedBody)
      else
        let unchunkedBody :=
          (unchunkedBody
           ++ WString.substring chunkDataStart (chunkDataStart + chunkSize) buf)%string in
        let currentPos := s32 (chunkDataStart + chunkSize + 2) in
        if u32 currentPos >=? u32 (WString.length buf - 1)
        then inl (false, unchunkedBody)
        else inr (currentPos, unchunkedBody).

(** The loop.  It goes round again only from a position inside the
    buffer, so that more rounds than the buffer has characters mean that
    it never ends: [None]. *)
Fixpoint unchunk (rounds : nat) (buf : string) (currentPos : Z) (unchunkedBody : string)
  : option (bool * string) :=
  match rounds with
  | O => None
  | S rounds' =>
      match chunkRound buf currentPos unchunkedBody with
      | inl result => Some result
      | inr (currentPos', unchunkedBody') => unchunk rounds' buf currentPos' unchunkedBody'
      end
  end.

(** The position from which the loop starts its round number [n],
    counting from 0, if it gets that far. *)
Fixpoint chunkPosition (n : nat) (buf : string) (currentPos : Z) : option Z :=
  match n with
  | O => Some currentPos
  | S n' =>
      match chunkRound buf currentPos EmptyString with
      | inl _ => None
      | inr (currentPos', _) => chunkPosition n' buf currentPos'
      end
  end.

(** The request is in BODY_RECEIVING and its body is in chunked
    encoding: the one situation in which the chunk loop is entered. *)
Definition reads_chunked_body (h : HttpVars) : bool :=
  match _currentHttpState h with
  | BODY_RECEIVING => _gprsChunkedEncoding h
  | _ => false
  end.

(** Is the body complete?  [None] when the chunk loop does not end. *)
Definition bodyComplete (o : HttpObs) (h : HttpVars) : option (bool * HttpVars) :=
  if _gprsChunkedEncoding h then
    if negb (WString.indexOf (CRLF ++ "0" ++ CRLF ++ CRLF) 0 (_gprsResponseBuffer h) =? -1)
    then
      match unchunk (S (String.length (_gprsResponseBuffer h)))
              (_gprsResponseBuffer h) 0 EmptyString with
      | None => None
      | Some (true, unchunkedBody) => Some (true, set_responseBuffer unchunkedBody h)
      | Some (false, _) => Some (false, h)
      end
    else if negb (connected_body o) && (_gprsBodyBytesRead h >? 0) then Some (true, h)
    else Some (false, h)
  else
    if (_gprsContentLength h >? 0) && (_gprsBodyBytesRead h >=? _gprsContentLength h)
    then Some (true, h)
    else if (_gprsContentLength h =? 0) && negb (connected_body o) then Some (true, h)
    else Some (false, h).

(** The body of [case GPRSHttpState::BODY_RECEIVING]. *)
Definition bodyReceiving (o : HttpObs) (h : HttpVars) : option HttpVars :=
  if negb (connected_first o) && negb (_gprsChunkedEncoding h)
     && ((_gprsContentLength h =? 0) || (_gprsBodyBytesRead h <? _gprsContentLength h))
  then
    Some (set_httpState
            (if (_gprsBodyBytesRead h >? 0) || (status_2xx h && (_gprsContentLength h =? 0))
             then PROCESSING_RESPONSE else ERROR) h)
  else
    match bodyComplete o (receiveBody (incoming o) h) with
    | None => None
    | Some (true, h1) => Some (set_httpState PROCESSING_RESPONSE h1)
    | Some (false, h1) =>
        if u32 (ms_now o - _asyncRequestStartTime h1) >? Config.GPRS_HTTP_BODY_TIMEOUT_MS
        then
          Some (set_httpState
                  (if (_gprsBodyBytesRead h1 >? 0) && status_2xx h1
                   then PROCESSING_RESPONSE else ERROR) h1)
        else if negb (connected_last o)
        then
          Some (set_httpState
                  (if (_gprsBodyBytesRead h1 >? 0)
                      || (status_2xx h1 && (_gprsContentLength h1 =? 0))
                   then PROCESSING_RESPONSE else ERROR) h1)
        else Some h1
    end.

Section HttpMachine.

(** [deserializeJson] of ArduinoJson; [None] is a [DeserializationError]. *)
Variable deserializeJson : string -> option JsonDocument.

(** The body of [case GPRSHttpState::PROCESSING_RESPONSE]. *)
Definition processingResponse (g : GPRSManager) : GPRSManager * list Event :=
  let h := http g in
  let status := _gprsHttpStatusCode h in
  let '(cbOk, doc, evs) :=
    if (status >=? 200) && (status <? 300) then
      match _asyncCb h with
      | Some f =>
          match deserializeJson (_gprsResponseBuffer h) with
          | None => (false, None, [])
          | Some d => let r := f d in (r, Some d, [EvCallback d r])
          end
      | None => (true, _jsonDoc h, [])
      end
    else
      match _asyncCb h with
      | Some f =>
          if negb (status =? 0) then
            match deserializeJson (_gprsResponseBuffer h) with
            | Some d => (false, Some d, [EvCallback d (f d)])
            | None => (false, None, [])
            end
          else (false, _jsonDoc h, [])
      | None => (false, _jsonDoc h, [])
      end in
  (on_http (fun h => set_httpState (if cbOk then COMPLETE else ERROR)
                       (set_jsonDoc doc h)) g, evs).

(** The body of [case GPRSHttpState::ERROR]. *)
Definition errorStep (o : HttpObs) (g : GPRSManager) : GPRSManager :=
  let h := http g in
  if isRetryableError (_gprsHttpStatusCode h)
     && (_httpRetries h <? Config.MAX_HTTP_RETRIES)
  then on_http (fun h => set_httpState RETRY_WAIT
                           (set_startTime (u32 (ms_set o + Config.HTTP_RETRY_DELAY_MS))
                              (set_retries (u8 (_httpRetries h + 1)) h))) g
  else on_http (fun h => set_httpState IDLE (set_active false h)) g.

(** [GPRSManager::updateHttpOperations]: one poll of the HTTP FSM.  The
    result is [None] for the one poll that does not return: the chunk
    loop of [BODY_RECEIVING] going round for ever. *)
Definition updateHttpOperations (o : HttpObs) (s : St) : option (St * list Event) :=
  let (g, ds) := s in
  if negb (_asyncOperationActive (http g)) then Some (s, [])
  else if negb (GPRSState_eqb (_currentGprsState g) GPRS_STATE_OPERATIONAL) then
    if http_in_flight (_currentHttpState (http g))
    then Some ((on_http (set_httpState ERROR) g, ds), [])
    else Some (s, [])
  else
    let currentTime := ms_now o in
    let g0 :=
      if http_in_flight (_currentHttpState (http g))
         && (u32 (currentTime - _asyncRequestStartTime (http g))
               >? Config.GPRS_HTTP_TOTAL_TIMEOUT_MS)
      then on_http (set_httpState ERROR) g
      else g in
    match _currentHttpState (http g0) with
    | IDLE => Some ((on_http (set_active false) g0, ds), [])
    | CLIENT_CONNECT =>
        if u32 (currentTime - _asyncRequestStartTime (http g0))
             >? Config.GPRS_HTTP_CONNECT_TIMEOUT_MS
        then Some ((on_http (set_httpState ERROR) g0, ds), [])
        else if client_connect o
        then Some ((on_http (fun h => set_startTime (ms_set o)
                                         (set_httpState SENDING_REQUEST h)) g0, ds), [])
        else
          let s1 := if GPRSState_eqb (_currentGprsState g0) GPRS_STATE_OPERATIONAL
                    then transitionToState GPRS_STATE_CONNECTION_LOST
                           (ms_transition o) (g0, ds)
                    else (g0, ds) in
          Some (on_mgr (on_http (set_httpState ERROR)) s1, [])
    | SENDING_REQUEST => Some (sendingRequest o (g0, ds), [])
    | HEADERS_RECEIVING => Some ((on_http (headersReceiving o) g0, ds), [])
    | BODY_RECEIVING =>
        match bodyReceiving o (http g0) with
        | Some h => Some ((set_http h g0, ds), [])
        | None => None
        end
    | PROCESSING_RESPONSE =>
        let (g1, evs) := processingResponse g0 in Some ((g1, ds), evs)
    | COMPLETE =>
        Some ((on_http (fun h => set_httpState IDLE (set_active false h)) g0, ds), [])
    | ERROR => Some ((errorStep o g0, ds), [])
    | RETRY_WAIT =>
        if ms_check o >=? _asyncRequestStartTime (http g0)
        then Some ((on_http (fun h => set_httpState CLIENT_CONNECT
                                         (set_startTime (ms_set o) (clear_response h))) g0,
                    ds), [])
        else Some ((g0, ds), [])
    end.

End HttpMachine.

End GPRS.

(** ** WiFiManager.cpp: the local-network transport *)

Module WiFi.

Inductive WiFiHttpState : Type :=
| IDLE
| BEGIN_REQUEST
| SENDING_REQUEST
| PROCESSING_RESPONSE
| RETRY_WAIT
| COMPLETE
| ERROR.

(** The members of [WiFiManager].  [sta_connected] stands for the global
    station object: it is [WiFi.status() == WL_CONNECTED], changed by
    [WiFi.begin] and [WiFi.disconnect]. *)
Record WiFiManager : Type := mkWiFiManager {
  _ssid : string;
  _password : string;
  _authToken : string;
  sta_connected : bool;
  _currentHttpState : WiFiHttpState;
  _asyncUrl : string;
  _asyncMethod : string;
  _asyncApiType : string;
  _asyncPayload : string;
  _asyncCb : Callback;
  _asyncNeedsAuth : bool;
  _asyncRequestStartTime : Z;
  _asyncOperationActive : bool;
  _httpStatusCode : Z;
  _httpRetries : Z;
  _jsonDoc : option JsonDocument
}.

(** The constructor; [sta] is the station status at that moment.  Members
    it leaves uninitialised (the request descriptor, its start time, the
    retry counter) are given empty, zero or false values. *)
Definition init (ssid password authToken : string) (sta : bool) : WiFiManager :=
  {| _ssid := ssid; _password := password; _authToken := authToken;
     sta_connected := sta;
     _currentHttpState := IDLE;
     _asyncUrl := EmptyString; _asyncMethod := EmptyString;
     _asyncApiType := EmptyString; _asyncPayload := EmptyString;
     _asyncCb := None; _asyncNeedsAuth := false; _asyncRequestStartTime := 0;
     _asyncOperationActive := false; _httpStatusCode := 0; _httpRetries := 0;
     _jsonDoc := None |}.

Definition set_sta (b : bool) (w : WiFiManager) : WiFiManager :=
  {| _ssid := _ssid w; _password := _password w; _authToken := _authToken w;
     sta_connected := b;
     _currentHttpState := _currentHttpState w;
     _asyncUrl := _asyncUrl w; _asyncMethod := _asyncMethod w;
     _asyncApiType := _asyncApiType w; _asyncPayload := _asyncPayload w;
     _asyncCb := _asyncCb w; _asyncNeedsAuth := _asyncNeedsAuth w;
     _asyncRequestStartTime := _asyncRequestStartTime w;
     _asyncOperationActive := _asyncOperationActive w;
     _httpStatusCode := _httpStatusCode w; _httpRetries := _httpRetries w;
     _jsonDoc := _jsonDoc w |}.

(** Assignment to the members that drive the HTTP FSM. *)
Definition with_ctrl (st : WiFiHttpState) (start : Z) (active : bool)
  (status retries : Z) (doc : option JsonDocument) (w : WiFiManager) : WiFiManager :=
  {| _ssid := _ssid w; _password := _password w; _authToken := _authToken w;
     sta_connected := sta_connected w;
     _currentHttpState := st;
     _asyncUrl := _asyncUrl w; _asyncMethod := _asyncMethod w;
     _asyncApiType := _asyncApiType w; _asyncPayload := _asyncPayload w;
     _asyncCb := _asyncCb w; _asyncNeedsAuth := _asyncNeedsAuth w;
     _asyncRequestStartTime := start;
     _asyncOperationActive := active;
     _httpStatusCode := status; _httpRetries := retries;
     _jsonDoc := doc |}.

Definition set_httpState (st : WiFiHttpState) (w : WiFiManager) : WiFiManager :=
  with_ctrl st (_asyncRequestStartTime w) (_asyncOperationActive w)
    (_httpStatusCode w) (_httpRetries w) (_jsonDoc w) w.

Definition set_startTime (t : Z) (w : WiFiManager) : WiFiManager :=
  with_ctrl (_currentHttpState w) t (_asyncOperationActive w)
    (_httpStatusCode w) (_httpRetries w) (_jsonDoc w) w.

Definition set_active (b : bool) (w : WiFiManager) : WiFiManager :=
  with_ctrl (_currentHttpState w) (_asyncRequestStartTime w) b
    (_httpStatusCode w) (_httpRetries w) (_jsonDoc w) w.

Definition set_status (c : Z) (w : WiFiManager) : WiFiManager :=
  with_ctrl (_currentHttpState w) (_asyncRequestStartTime w) (_asyncOperationActive w)
    c (_httpRetries w) (_jsonDoc w) w.

Definition set_retries (n : Z) (w : WiFiManager) : WiFiManager :=
  with_ctrl (_currentHttpState w) (_asyncRequestStartTime w) (_asyncOperationActive w)
    (_httpStatusCode w) n (_jsonDoc w) w.

Definition set_jsonDoc (d : option JsonDocument) (w : WiFiManager) : WiFiManager :=
  with_ctrl (_currentHttpState w) (_asyncRequestStartTime w) (_asyncOperationActive w)
    (_httpStatusCode w) (_httpRetries w) d w.

(** *** Connection *)

Definition MAX_CONNECT_RETRIES : nat := 2.

(** The attempts of [connectWiFi]: [link k] tells whether the station
    reported [WL_CONNECTED] within the time-out of attempt [k].  Every
    attempt first drops the current link; a failed one drops it again. *)
Fixpoint connect_attempts (left : nat) (attempt : nat) (link : nat -> bool)
  (w : WiFiManager) : bool * WiFiManager :=
  match left with
  | O => (false, w)
  | S left' =>
      if link attempt then (true, set_sta true w)
      else connect_attempts left' (S attempt) link (set_sta false w)
  end.

(** [WiFiManager::connectWiFi]. *)
Definition connectWiFi (link : nat -> bool) (w : WiFiManager) : bool * WiFiManager :=
  if (String.length (_ssid w) =? 0)%nat then (false, w)
  else connect_attempts (S MAX_CONNECT_RETRIES) 0 link w.

(** [WiFiManager::connect]. *)
Definition connect (link : nat -> bool) (w : WiFiManager) : bool * WiFiManager :=
  connectWiFi link w.

(** [WiFiManager::disconnect]. *)
Definition disconnect (w : WiFiManager) : WiFiManager := set_sta false w.

(** [WiFiManager::isConnected]. *)
Definition isConnected (w : WiFiManager) : bool := sta_connected w.

(** *** The HTTP FSM *)

(** [WiFiManager::isRetryableError]. *)
Definition isRetryableError (httpStatusCode : Z) : bool :=
  if httpStatusCode <=? 0 then true
  else if httpStatusCode =? 408 then true
  else if httpStatusCode =? 429 then true
  else if (httpStatusCode >=? 500) && (httpStatusCode <=? 599) then true
  else false.

(** [WiFiManager::startAsyncHttpRequest]; [ms] is what [millis()] returns. *)
Definition startAsyncHttpRequest (ms : Z) (r : Request) (w : WiFiManager)
  : bool * WiFiManager :=
  if _asyncOperationActive w then (false, w)
  else if negb (isConnected w) then (false, w)
  else
    (true,
     {| _ssid := _ssid w; _password := _password w; _authToken := _authToken w;
        sta_connected := sta_connected w;
        _currentHttpState := BEGIN_REQUEST;
        _asyncUrl := url r;
        _asyncMethod := method r;
        _asyncApiType := apiType r;
        _asyncPayload := match payload r with
                         | Some p => p
                         | None => EmptyString
                         end;
        _asyncCb := cb r;
        _asyncNeedsAuth := needsAuth r;
        _asyncRequestStartTime := ms;
        _asyncOperationActive := true;
        _httpStatusCode := 0;
        _httpRetries := 0;
        _jsonDoc := None |}).

(** The answers of the HTTP client and of [millis()] during one call of
    [updateHttpOperations]. *)
Record HttpObs : Type := mkHttpObs {
  ms_now : Z;          (* millis() in the overall time-out test *)
  ms_check : Z;        (* millis() compared with the start time in RETRY_WAIT *)
  ms_set : Z;          (* millis() assigned to (or added into) the start time *)
  http_begin : bool;   (* _httpClient.begin(client, url) *)
  send_result : Z;     (* _httpClient.GET() or _httpClient.POST(payload) *)
  getString : string   (* _httpClient.getString() *)
}.

(** Poll [b] comes after poll [a], before the retry delay that [a] armed
    has elapsed. *)
Definition polled_within_delay (a b : HttpObs) : bool :=
  (0 <=? ms_set a) && (ms_set a + Config.HTTP_RETRY_DELAY_MS <? 2 ^ 32)
  && (ms_set a <=? ms_now b) && (ms_now b <? ms_set a + Config.HTTP_RETRY_DELAY_MS).

(** The request flag is set exactly when the FSM has left Idle, and
    while it is set the retry counter lies between zero and its ceiling.
    (The counter has no defined value before the first request.) *)
Definition http_wf (w : WiFiManager) : bool :=
  Bool.eqb (_asyncOperationActive w)
    (match _currentHttpState w with IDLE => false | _ => true end)
  && (negb (_asyncOperationActive w)
      || ((0 <=? _httpRetries w) && (_httpRetries w <=? Config.MAX_HTTP_RETRIES))).

Section HttpMachine.

(** [deserializeJson] of ArduinoJson; [None] is a [DeserializationError]. *)
Variable deserializeJson : string -> option JsonDocument.

(** The body of [case WiFiHttpState::PROCESSING_RESPONSE]. *)
Definition processingResponse (o : HttpObs) (w : WiFiManager)
  : WiFiManager * list Event :=
  let status := _httpStatusCode w in
  let '(cbOk, doc, evs) :=
    if (status >=? 200) && (status <? 300) then
      match _asyncCb w with
      | Some f =>
          match deserializeJson (getString o) with
          | None => (false, None, [])
          | Some d => let r := f d in (r, Some d, [EvCallback d r])
          end
      | None => (true, _jsonDoc w, [])
      end
    else (false, _jsonDoc w, []) in
  (set_httpState (if cbOk then COMPLETE else ERROR) (set_jsonDoc doc w), evs).

(** The body of [case WiFiHttpState::ERROR]. *)
Definition errorStep (o : HttpObs) (w : WiFiManager) : WiFiManager :=
  if isRetryableError (_httpStatusCode w)
     && (_httpRetries w <? Config.MAX_HTTP_RETRIES)
  then set_httpState RETRY_WAIT
         (set_startTime (u32 (ms_set o + Config.HTTP_RETRY_DELAY_MS))
            (set_retries (u8 (_httpRetries w + 1)) w))
  else set_httpState IDLE (set_active false w).

(** [WiFiManager::updateHttpOperations]: one poll of the HTTP FSM. *)
Definition updateHttpOperations (o : HttpObs) (w : WiFiManager)
  : WiFiManager * list Event :=
  if negb (_asyncOperationActive w) then (w, [])
  else
    let w0 := if u32 (ms_now o - _asyncRequestStartTime w) >? 30000
              then set_httpState ERROR w
              else w in
    match _currentHttpState w0 with
    | IDLE => (set_active false w0, [])
    | BEGIN_REQUEST =>
        if http_begin o then (set_httpState SENDING_REQUEST w0, [])
        else (set_httpState ERROR w0, [])
    | SENDING_REQUEST =>
        if String.eqb (_asyncMethod w0) "GET" || String.eqb (_asyncMethod w0) "POST" then
          let w1 := set_status (send_result o) w0 in
          if _httpStatusCode w1 >? 0 then (set_httpState PROCESSING_RESPONSE w1, [])
          else if _httpStatusCode w1 <? 0 then (set_httpState ERROR w1, [])
          else (w1, [])
        else (set_httpState ERROR w0, [])
    | PROCESSING_RESPONSE => processingResponse o w0
    | RETRY_WAIT =>
        if ms_check o >=? _asyncRequestStartTime w0
        then (set_httpState BEGIN_REQUEST
                (set_startTime (ms_set o) (set_jsonDoc None (set_status 0 w0))), [])
        else (w0, [])
    | COMPLETE => (set_httpState IDLE (set_active false w0), [])
    | ERROR => (errorStep o w0, [])
    end.

(** The calls that reach the manager from outside: [connect()],
    [disconnect()], [startAsyncHttpRequest(...)] (its result is dropped)
    and the [updateHttpOperations()] of the main loop. *)
Inductive Call : Type :=
| CallConnect (link : nat -> bool)
| CallDisconnect
| CallStart (ms : Z) (r : Request)
| CallUpdateHttp (o : HttpObs).

Definition call (c : Call) (w : WiFiManager) : WiFiManager * list Event :=
  match c with
  | CallConnect link => (snd (connect link w), [])
  | CallDisconnect => (disconnect w, [])
  | CallStart ms r => (snd (startAsyncHttpRequest ms r w), [])
  | CallUpdateHttp o => updateHttpOperations o w
  end.

(** A sequence of such calls, oldest first, with the callbacks invoked. *)
Fixpoint calls (cs : list Call) (w : WiFiManager) : WiFiManager * list Event :=
  match cs with
  | [] => (w, [])
  | c :: cs' =>
      let (w1, ev1) := call c w in
      let (w2, ev2) := calls cs' w1 in
      (w2, ev1 ++ ev2)
  end.

End HttpMachine.

End WiFi.


(** ** NetworkFacade.cpp: the connectivity facade *)

Module Facade.

Inductive NetworkPreference : Type :=
| WIFI_ONLY | GPRS_ONLY | WIFI_PREFERRED | GPRS_PREFERRED.

(** The manager a non-null [NetworkInterface*] of the facade points to. *)
Inductive Iface : Type := IfWiFi | IfGPRS.

Definition Iface_eqb (a b : Iface) : bool :=
  match a, b with
  | IfWiFi, IfWiFi | IfGPRS, IfGPRS => true
  | _, _ => false
  end.

(** The members of [NetworkFacade].  A manager pointer is [None] when
    null and holds the manager it points to otherwise (owned or not);
    [_activeInterface] is null or one of the two manager pointers. *)
Record NetworkFacade : Type := mkNetworkFacade {
  _preference : NetworkPreference;
  _wifiManagerRaw : option WiFi.WiFiManager;
  _gprsManagerRaw : option GPRS.GPRSManager;
  _deviceState : bool;
  _activeInterface : option Iface
}.

(** The facade together with the shared [DeviceState]. *)
Definition St : Type := (NetworkFacade * DeviceState)%type.

Definition set_wifi (wm : option WiFi.WiFiManager) (f : NetworkFacade) : NetworkFacade :=
  {| _preference := _preference f; _wifiManagerRaw := wm;
     _gprsManagerRaw := _gprsManagerRaw f; _deviceState := _deviceState f;
     _activeInterface := _activeInterface f |}.

Definition set_gprs (gm : option GPRS.GPRSManager) (f : NetworkFacade) : NetworkFacade :=
  {| _preference := _preference f; _wifiManagerRaw := _wifiManagerRaw f;
     _gprsManagerRaw := gm; _deviceState := _deviceState f;
     _activeInterface := _activeInterface f |}.

Definition set_active (a : option Iface) (f : NetworkFacade) : NetworkFacade :=
  {| _preference := _preference f; _wifiManagerRaw := _wifiManagerRaw f;
     _gprsManagerRaw := _gprsManagerRaw f; _deviceState := _deviceState f;
     _activeInterface := a |}.

Definition set_preference (p : NetworkPreference) (f : NetworkFacade) : NetworkFacade :=
  {| _preference := p; _wifiManagerRaw := _wifiManagerRaw f;
     _gprsManagerRaw := _gprsManagerRaw f; _deviceState := _deviceState f;
     _activeInterface := _activeInterface f |}.

Definition getWiFiManager (f : NetworkFacade) : option WiFi.WiFiManager :=
  _wifiManagerRaw f.

Definition getGPRSManager (f : NetworkFacade) : option GPRS.GPRSManager :=
  _gprsManagerRaw f.

Definition getCurrentInterface (f : NetworkFacade) : option Iface :=
  _activeInterface f.

Definition getPreference (f : NetworkFacade) : NetworkPreference :=
  _preference f.

Definition present {A : Type} (p : option A) : bool :=
  match p with Some _ => true | None => false end.

(** [wm && wm->isConnected()] and [gm && gm->isConnected()]. *)
Definition wifiConnected (f : NetworkFacade) : bool :=
  match getWiFiManager f with
  | Some w => WiFi.isConnected w
  | None => false
  end.

Definition gprsConnected (f : NetworkFacade) : bool :=
  match getGPRSManager f with
  | Some g => GPRS.isConnected g
  | None => false
  end.

(** [NetworkFacade::determineActiveInterface]. *)
Definition determineActiveInterface (f : NetworkFacade) : NetworkFacade :=
  let wm := present (getWiFiManager f) in
  let gm := present (getGPRSManager f) in
  let active :=
    match _preference f with
    | WIFI_ONLY => if wm then Some IfWiFi else None
    | GPRS_ONLY => if gm then Some IfGPRS else None
    | WIFI_PREFERRED =>
        if wm && wifiConnected f then Some IfWiFi
        else if gm && gprsConnected f then Some IfGPRS
        else if wm then Some IfWiFi
        else if gm then Some IfGPRS
        else None
    | GPRS_PREFERRED =>
        if gm && gprsConnected f then Some IfGPRS
        else if wm && wifiConnected f then Some IfWiFi
        else if gm then Some IfGPRS
        else if wm then Some IfWiFi
        else None
    end in
  set_active active f.

(** The constructors: members as given, then the initial determination. *)
Definition init (preference : NetworkPreference)
  (wifiManager : option WiFi.WiFiManager) (gprsManager : option GPRS.GPRSManager)
  (deviceState : bool) : NetworkFacade :=
  determineActiveInterface
    {| _preference := preference; _wifiManagerRaw := wifiManager;
       _gprsManagerRaw := gprsManager; _deviceState := deviceState;
       _activeInterface := None |}.

(** What the hardware answers during one facade call that connects:
    the WiFi attempts and the [millis()] of a GPRS state transition. *)
Record ConnObs : Type := mkConnObs {
  wifi_link : nat -> bool;
  gprs_ms : Z
}.

(** [wm->connect()] on a facade whose WiFi manager is [w]. *)
Definition wifi_connect (o : ConnObs) (w : WiFi.WiFiManager) (s : St)
  : bool * St * list Event :=
  let (ok, w') := WiFi.connect (wifi_link o) w in
  (ok, (set_wifi (Some w') (fst s), snd s), [EvWiFiConnect ok]).

(** [gm->connect()] on a facade whose GPRS manager is [g]. *)
Definition gprs_connect (o : ConnObs) (g : GPRS.GPRSManager) (s : St)
  : bool * St * list Event :=
  let '(ok, (g', ds')) := GPRS.connect (gprs_ms o) (g, snd s) in
  (ok, (set_gprs (Some g') (fst s), ds'), [EvGprsConnect ok]).

(** [if (wm && wm->isConnected()) wm->disconnect();] *)
Definition wifi_disconnect_if_connected (s : St) : St * list Event :=
  match getWiFiManager (fst s) with
  | Some w =>
      if WiFi.isConnected w
      then ((set_wifi (Some (WiFi.disconnect w)) (fst s), snd s), [EvWiFiDisconnect])
      else (s, [])
  | None => (s, [])
  end.

(** [if (gm && gm->isConnected()) gm->disconnect();] *)
Definition gprs_disconnect_if_connected (s : St) : St * list Event :=
  match getGPRSManager (fst s) with
  | Some g =>
      if GPRS.isConnected g
      then let '((g', ds'), evs) := GPRS.disconnect (g, snd s) in
           ((set_gprs (Some g') (fst s), ds'), evs)
      else (s, [])
  | None => (s, [])
  end.

(** The attempts of [connect()] before the active interface is re-derived. *)
Definition connect_attempt (o : ConnObs) (s : St) : bool * St * list Event :=
  match _preference (fst s) with
  | WIFI_ONLY =>
      match getWiFiManager (fst s) with
      | Some w => wifi_connect o w s
      | None => (false, s, [])
      end
  | GPRS_ONLY =>
      match getGPRSManager (fst s) with
      | Some g => gprs_connect o g s
      | None => (false, s, [])
      end
  | WIFI_PREFERRED =>
      let '(ok, s1, ev1) :=
        match getWiFiManager (fst s) with
        | Some w => wifi_connect o w s
        | None => (false, s, [])
        end in
      if ok then (true, s1, ev1)
      else
        match getGPRSManager (fst s1) with
        | Some g =>
            let (s2, ev2) := wifi_disconnect_if_connected s1 in
            let '(ok3, s3, ev3) := gprs_connect o g s2 in
            (ok3, s3, ev1 ++ ev2 ++ ev3)
        | None => (false, s1, ev1)
        end
  | GPRS_PREFERRED =>
      let '(ok, s1, ev1) :=
        match getGPRSManager (fst s) with
        | Some g => gprs_connect o g s
        | None => (false, s, [])
        end in
      if ok then (true, s1, ev1)
      else
        match getWiFiManager (fst s1) with
        | Some w =>
            let (s2, ev2) := gprs_disconnect_if_connected s1 in
            let '(ok3, s3, ev3) := wifi_connect o w s2 in
            (ok3, s3, ev1 ++ ev2 ++ ev3)
        | None => (false, s1, ev1)
        end
  end.

(** [NetworkFacade::connect]. *)
Definition connect (o : ConnObs) (s : St) : bool * St * list Event :=
  let '(success, s1, evs) := connect_attempt o s in
  (success, (determineActiveInterface (fst s1), snd s1), evs).

(** [NetworkFacade::disconnect]. *)
Definition disconnect (s : St) : St * list Event :=
  let (s1, ev1) := wifi_disconnect_if_connected s in
  let (s2, ev2) := gprs_disconnect_if_connected s1 in
  ((set_active None (fst s2), snd s2), ev1 ++ ev2).

(** [NetworkFacade::isConnected].  An active pointer always equals one of
    the manager pointers; the case of a missing manager cannot arise and
    is given [false]. *)
Definition isConnected (f : NetworkFacade) : bool :=
  match _activeInterface f with
  | Some IfWiFi => wifiConnected f
  | Some IfGPRS => gprsConnected f
  | None =>
      if wifiConnected f then true
      else if gprsConnected f then true
      else false
  end.

(** [NetworkFacade::switchToWiFi]. *)
Definition switchToWiFi (o : ConnObs) (s : St) : bool * St * list Event :=
  match getWiFiManager (fst s) with
  | None => (false, s, [])
  | Some w =>
      let '(ok, s1, ev1) := wifi_connect o w s in
      if ok then
        let (s2, ev2) := gprs_disconnect_if_connected s1 in
        (true, (determineActiveInterface (fst s2), snd s2), ev1 ++ ev2)
      else
        (false, (determineActiveInterface (fst s1), snd s1), ev1)
  end.

(** [NetworkFacade::switchToGPRS]. *)
Definition switchToGPRS (o : ConnObs) (s : St) : bool * St * list Event :=
  match getGPRSManager (fst s) with
  | None => (false, s, [])
  | Some g =>
      let '(ok, s1, ev1) := gprs_connect o g s in
      if ok then
        let (s2, ev2) := wifi_disconnect_if_connected s1 in
        (true, (determineActiveInterface (fst s2), snd s2), ev1 ++ ev2)
      else
        (false, (determineActiveInterface (fst s1), snd s1), ev1)
  end.

(** [NetworkFacade::setPreference]. *)
Definition setPreference (preference : NetworkPreference) (f : NetworkFacade)
  : NetworkFacade :=
  determineActiveInterface (set_preference preference f).

(** [NetworkFacade::isSafeModeActive]. *)
Definition isSafeModeActive (s : St) : bool :=
  if _deviceState (fst s) then isInFailSafeMode (snd s) else false.

(** *** Requests through the facade *)

(** [_activeInterface && _activeInterface->isConnected()]. *)
Definition activeConnected (f : NetworkFacade) : bool :=
  match _activeInterface f with
  | Some IfWiFi => wifiConnected f
  | Some IfGPRS => gprsConnected f
  | None => false
  end.

(** [_activeInterface->startAsyncHttpRequest(...)]; [ms] is what
    [millis()] returns inside the manager. *)
Definition active_startAsyncHttpRequest (ms : Z) (r : Request) (s : St) : bool * St :=
  match _activeInterface (fst s) with
  | Some IfWiFi =>
      match getWiFiManager (fst s) with
      | Some w =>
          let (ok, w') := WiFi.startAsyncHttpRequest ms r w in
          (ok, (set_wifi (Some w') (fst s), snd s))
      | None => (false, s)
      end
  | Some IfGPRS =>
      match getGPRSManager (fst s) with
      | Some g =>
          let (ok, g') := GPRS.startAsyncHttpRequest ms r g in
          (ok, (set_gprs (Some g') (fst s), snd s))
      | None => (false, s)
      end
  | None => (false, s)
  end.

(** [NetworkFacade::startAsyncHttpRequest]: connects first when the
    facade is not connected, then hands the request to the active
    interface if that one is connected. *)
Definition startAsyncHttpRequest (o : ConnObs) (ms : Z) (r : Request) (s : St)
  : bool * St * list Event :=
  let '(connected, s1, evs) :=
    if negb (isConnected (fst s)) then connect o s else (true, s, []) in
  if negb connected then (false, s1, evs)
  else if activeConnected (fst s1)
  then let (ok, s2) := active_startAsyncHttpRequest ms r s1 in (ok, s2, evs)
  else (false, s1, evs).

Section HttpDelegation.

(** [deserializeJson] of ArduinoJson, as in the managers. *)
Variable deserializeJson : string -> option JsonDocument.

(** [NetworkFacade::updateHttpOperations]: only the active interface is
    polled.  [None] where the poll of the GPRS manager does not return. *)
Definition updateHttpOperations (ow : WiFi.HttpObs) (og : GPRS.HttpObs) (s : St)
  : option (St * list Event) :=
  match _activeInterface (fst s) with
  | Some IfWiFi =>
      match getWiFiManager (fst s) with
      | Some w =>
          let (w', evs) := WiFi.updateHttpOperations deserializeJson ow w in
          Some ((set_wifi (Some w') (fst s), snd s), evs)
      | None => Some (s, [])
      end
  | Some IfGPRS =>
      match getGPRSManager (fst s) with
      | Some g =>
          match GPRS.updateHttpOperations deserializeJson og (g, snd s) with
          | Some ((g', ds'), evs) => Some ((set_gprs (Some g') (fst s), ds'), evs)
          | None => None
          end
      | None => Some (s, [])
      end
  | None => Some (s, [])
  end.

End HttpDelegation.

(** The active pointer is null or names a manager the facade has. *)
Definition active_present (f : NetworkFacade) : bool :=
  match _activeInterface f with
  | Some IfWiFi => present (getWiFiManager f)
  | Some IfGPRS => present (getGPRSManager f)
  | None => true
  end.

(** The active interface is the cellular manager, and its request is
    receiving a body in chunked encoding. *)
Definition active_reads_chunked_body (f : NetworkFacade) : bool :=
  match _activeInterface f, getGPRSManager f with
  | Some IfGPRS, Some g => GPRS.reads_chunked_body (GPRS.http g)
  | _, _ => false
  end.

(** *** Section 4.1 of the specification, in its own words

    "select that Transport if present, else none"; "select Primary if
    connected; else Secondary if connected; else Primary if present;
    else Secondary".  A transport that is not there cannot be selected:
    the last alternative yields the secondary handle, which is null when
    the facade has no such manager. *)
Definition handle (is_present : bool) (i : Iface) : option Iface :=
  if is_present then Some i else None.

Definition preferred_table (primary secondary : Iface)
  (primaryPresent primaryConnected secondaryPresent secondaryConnected : bool)
  : option Iface :=
  if primaryConnected then Some primary
  else if secondaryConnected then Some secondary
  else if primaryPresent then Some primary
  else handle secondaryPresent secondary.

Definition table_4_1 (p : NetworkPreference)
  (wifiPresent wifiConn gprsPresent gprsConn : bool) : option Iface :=
  match p with
  | WIFI_ONLY => handle wifiPresent IfWiFi
  | GPRS_ONLY => handle gprsPresent IfGPRS
  | WIFI_PREFERRED =>
      preferred_table IfWiFi IfGPRS wifiPresent wifiConn gprsPresent gprsConn
  | GPRS_PREFERRED =>
      preferred_table IfGPRS IfWiFi gprsPresent gprsConn wifiPresent wifiConn
  end.

End Facade.

(** ** ESP32GreenhouseController.ino: reconnecting from the main loop *)

Module Sketch.

(** The globals [networkFacade] (a pointer, null before [setup]) and
    [deviceState]. *)
Record Globals : Type := mkGlobals {
  networkFacade : option Facade.NetworkFacade;
  deviceState : DeviceState
}.

(** What the hardware answers during one call of
    [handleNetworkConnection]: once for the reconnect, once for the
    switch back to WiFi. *)
Record LoopObs : Type := mkLoopObs {
  reconnect_obs : Facade.ConnObs;
  switch_obs : Facade.ConnObs
}.

(** The attempts made by one call, with their results. *)
Inductive Attempt : Type :=
| Reconnect (ok : bool)      (* networkFacade->connect() *)
| SwitchBack (ok : bool).    (* networkFacade->switchToWiFi() *)

(** [delay *= 2; if (delay > ceiling) delay = ceiling;] on an
    [unsigned long]. *)
Definition double_capped (ceiling delay : Z) : Z :=
  let d := u32 (delay * 2) in
  if d >? ceiling then ceiling else d.

(** [getCurrentInterface() == getGPRSManager()], a comparison of pointers:
    two null pointers are equal. *)
Definition current_is_gprs (f : Facade.NetworkFacade) : bool :=
  match Facade.getCurrentInterface f, Facade.getGPRSManager f with
  | Some Facade.IfGPRS, Some _ => true
  | None, None => true
  | _, _ => false
  end.

(** The first statement of [handleNetworkConnection]: the general
    reconnect with its backoff.  The clock check of [rtc_mgr] after a
    successful attempt touches neither the facade nor these members. *)
Definition reconnect_step (now : Z) (o : LoopObs) (s : Globals)
  : Globals * list Attempt :=
  match networkFacade s with
  | None => (s, [])
  | Some f =>
      let ds := deviceState s in
      if negb (Facade.isConnected f)
         && (u32 (now - lastConnectionRetryTime ds) >=? currentConnectionRetryDelayMs ds)
      then
        let ds1 := ds_set_reconnect now (currentConnectionRetryDelayMs ds) ds in
        let '(ok, (f', ds2), _) := Facade.connect (reconnect_obs o) (f, ds1) in
        let delay' := if ok then Config.INITIAL_RETRY_DELAY_MS
                      else double_capped Config.MAX_RETRY_DELAY_MS
                             (currentConnectionRetryDelayMs ds2) in
        ({| networkFacade := Some f';
            deviceState := ds_set_reconnect (lastConnectionRetryTime ds2) delay' ds2 |},
         [Reconnect ok])
      else (s, [])
  end.

(** The second statement: the switch back to WiFi with its own backoff. *)
Definition switchback_step (now : Z) (o : LoopObs) (s : Globals)
  : Globals * list Attempt :=
  match networkFacade s with
  | None => (s, [])
  | Some f =>
      let ds := deviceState s in
      if match Facade.getPreference f with Facade.WIFI_PREFERRED => true | _ => false end
         && Facade.present (Facade.getWiFiManager f)
         && current_is_gprs f
         && Facade.isConnected f
         && (u32 (now - lastWiFiRetryWhenGprsTime ds) >=? currentWiFiSwitchBackoffDelayMs ds)
      then
        let ds1 := ds_set_switchback now (currentWiFiSwitchBackoffDelayMs ds) ds in
        let '(ok, (f', ds2), _) := Facade.switchToWiFi (switch_obs o) (f, ds1) in
        let delay' := if ok then Config.WIFI_RETRY_WHEN_GPRS_MS
                      else double_capped Config.MAX_WIFI_RETRY_WHEN_GPRS_MS
                             (currentWiFiSwitchBackoffDelayMs ds2) in
        ({| networkFacade := Some f';
            deviceState := ds_set_switchback (lastWiFiRetryWhenGprsTime ds2) delay' ds2 |},
         [SwitchBack ok])
      else (s, [])
  end.

(** [handleNetworkConnection(now)]. *)
Definition handleNetworkConnection (now : Z) (o : LoopObs) (s : Globals)
  : Globals * list Attempt :=
  let (s1, a1) := reconnect_step now o s in
  let (s2, a2) := switchback_step now o s1 in
  (s2, a1 ++ a2).

(** Successive calls from the main loop, oldest first. *)
Fixpoint polls (ps : list (Z * LoopObs)) (s : Globals) : Globals * list Attempt :=
  match ps with
  | [] => (s, [])
  | (now, o) :: ps' =>
      let (s1, a1) := handleNetworkConnection now o s in
      let (s2, a2) := polls ps' s1 in
      (s2, a1 ++ a2)
  end.

(** *** Section 4.4 of the specification, in its own words

    A backoff delay "doubles on each failed attempt, capped at a
    ceiling; resets to the floor on success".  [outcomes] are the results
    of the successive attempts, oldest first. *)
Fixpoint backoff (floor ceiling : Z) (outcomes : list bool) (delay : Z) : Z :=
  match outcomes with
  | [] => delay
  | true :: rest => backoff floor ceiling rest floor
  | false :: rest => backoff floor ceiling rest (Z.min (delay * 2) ceiling)
  end.

Definition reconnect_outcomes (l : list Attempt) : list bool :=
  flat_map (fun a => match a with Reconnect ok => [ok] | SwitchBack _ => [] end) l.

Definition switchback_outcomes (l : list Attempt) : list bool :=
  flat_map (fun a => match a with SwitchBack ok => [ok] | Reconnect _ => [] end) l.

(** The two backoff delays of the shared state. *)
Definition general_delay (s : Globals) : Z :=
  currentConnectionRetryDelayMs (deviceState s).

Definition switch_delay (s : Globals) : Z :=
  currentWiFiSwitchBackoffDelayMs (deviceState s).

End Sketch.


(** ** Concrete configurations used in examples *)

Module Samples.

Definition wifi_down : WiFi.WiFiManager :=
  WiFi.init "greenhouse" "secret" "token" false.

Definition wifi_up : WiFi.WiFiManager :=
  WiFi.init "greenhouse" "secret" "token" true.

Definition gprs_disabled : GPRS.GPRSManager :=
  GPRS.init "internet" EmptyString EmptyString EmptyString "token" true.

Definition gprs_in (st : GPRSState) : GPRS.GPRSManager :=
  GPRS.set_state st gprs_disabled.

Definition gprs_operational : GPRS.GPRSManager := gprs_in GPRS_STATE_OPERATIONAL.

(** No WiFi attempt ever sees the link come up. *)
Definition link_never : nat -> bool := fun _ => false.

Definition link_first : nat -> bool := fun _ => true.

Definition conn_obs (link : nat -> bool) (ms : Z) : Facade.ConnObs :=
  {| Facade.wifi_link := link; Facade.gprs_ms := ms |}.

(** A modem that answers nothing useful at clock readings [t]. *)
Definition silent_modem (t : Z) : ModemObs :=
  {| testAT := false; restart := false;
     simStatusFirst := SIM_ERROR; simUnlock := false; simStatusCheck := SIM_ERROR;
     isNetworkConnected := false; isGprsConnected_modem := false;
     isNetworkConnectedAgain := false;
     getRegistrationStatus := REG_SEARCHING;
     gprsConnect := false; getSignalQuality := 99;
     ms_elapsed := t; ms_mark := t; ms_trans := t |}.

(** A registered modem whose packet-data attach is refused. *)
Definition refusing_modem (t : Z) : ModemObs :=
  {| testAT := true; restart := true;
     simStatusFirst := SIM_READY; simUnlock := true; simStatusCheck := SIM_READY;
     isNetworkConnected := true; isGprsConnected_modem := false;
     isNetworkConnectedAgain := true;
     getRegistrationStatus := REG_OK_HOME;
     gprsConnect := false; getSignalQuality := 20;
     ms_elapsed := t; ms_mark := t; ms_trans := t |}.

(** A healthy modem: resets succeed, the SIM is ready, the network is
    there. *)
Definition healthy_modem (t : Z) : ModemObs :=
  {| testAT := true; restart := true;
     simStatusFirst := SIM_READY; simUnlock := true; simStatusCheck := SIM_READY;
     isNetworkConnected := true; isGprsConnected_modem := true;
     isNetworkConnectedAgain := true;
     getRegistrationStatus := REG_OK_HOME;
     gprsConnect := true; getSignalQuality := 20;
     ms_elapsed := t; ms_mark := t; ms_trans := t |}.

Definition get_request (c : Callback) : Request :=
  {| url := "http://api.example.com/data"; method := "GET"; apiType := "TH";
     payload := None; cb := c; needsAuth := true |}.

(** A parser that accepts every body as the JSON value [null], and one
    that rejects every body. *)
Definition parse_any : string -> option JsonDocument := fun _ => Some JNull.
Definition parse_none : string -> option JsonDocument := fun _ => None.

Definition accept : Callback := Some (fun _ => true).

(** The facade of the sketch running on its GPRS fallback: WiFi is
    preferred but down, GPRS is operational and therefore active. *)
Definition facade_on_gprs : Facade.NetworkFacade :=
  Facade.init Facade.WIFI_PREFERRED (Some wifi_down) (Some gprs_operational) true.

(** The same facade after the cellular FSM noticed, during a poll, that
    the packet-data context is gone: the FSM is in ConnectionLost while
    the facade still points at the GPRS manager. *)
Definition facade_gprs_lost : Facade.NetworkFacade :=
  Facade.set_gprs
    (Some (fst (GPRS.updateFSM (silent_modem 40000) (gprs_operational, DeviceState_init))))
    facade_on_gprs.

(** A facade restricted to GPRS whose manager has not been started. *)
Definition facade_gprs_only : Facade.NetworkFacade :=
  Facade.init Facade.GPRS_ONLY None (Some gprs_disabled) true.

(** A facade whose only transport is a WiFi manager that is down. *)
Definition facade_wifi_only : Facade.NetworkFacade :=
  Facade.init Facade.WIFI_ONLY (Some wifi_down) None true.

(** The answers of a socket that connects and stays connected, with
    nothing written and nothing to read, and of a healthy HTTP client,
    at clock reading [t]. *)
Definition gprs_http_obs (t : Z) : GPRS.HttpObs :=
  {| GPRS.ms_now := t; GPRS.ms_check := t; GPRS.ms_set := t;
     GPRS.ms_transition := t; GPRS.client_connect := true;
     GPRS.client_write := 0; GPRS.connected_first := true;
     GPRS.incoming := EmptyString;
     GPRS.connected_body := true; GPRS.connected_last := true |}.

Definition wifi_http_obs (t : Z) (status : Z) (body : string) : WiFi.HttpObs :=
  {| WiFi.ms_now := t; WiFi.ms_check := t; WiFi.ms_set := t;
     WiFi.http_begin := true; WiFi.send_result := status; WiFi.getString := body |}.

(** A manager of each kind whose request, started at time 0 with
    callback [c], has reached ProcessingResponse with the given status
    and body. *)
Definition gprs_processing (status : Z) (body : string) (c : Callback)
  : GPRS.GPRSManager :=
  GPRS.on_http
    (fun h => GPRS.set_httpState GPRS.PROCESSING_RESPONSE
                (GPRS.with_response body status 0 false
                   (Z.of_nat (String.length body)) None h))
    (snd (GPRS.startAsyncHttpRequest 0 (get_request c) gprs_operational)).

Definition wifi_processing (status : Z) (c : Callback) : WiFi.WiFiManager :=
  WiFi.set_httpState WiFi.PROCESSING_RESPONSE
    (WiFi.set_status status
       (snd (WiFi.startAsyncHttpRequest 0 (get_request c) wifi_up))).

(** [n] polls of a modem that never registers, each one just past the
    attach time-out of the state entered or re-armed by the previous one. *)
Definition registration_timeouts (n : nat) : list ModemObs :=
  map (fun k => silent_modem (60001 * Z.of_nat (S k))) (seq 0 n).

(** [n] polls of a registered modem that refuses the attach. *)
Definition attach_refusals (n : nat) : list ModemObs :=
  map (fun k => refusing_modem (1000 * Z.of_nat (S k))) (seq 0 n).

Definition gprs_attaching : GPRS.St :=
  (gprs_in GPRS_STATE_INIT_ATTACH_GPRS, DeviceState_init).


(** The sketch right after [setup()], with the given facade. *)
Definition sketch_with (f : Facade.NetworkFacade) : Sketch.Globals :=
  {| Sketch.networkFacade := Some f; Sketch.deviceState := DeviceState_init |}.

Definition loop_obs (link : nat -> bool) (ms : Z) : Sketch.LoopObs :=
  {| Sketch.reconnect_obs := conn_obs link ms; Sketch.switch_obs := conn_obs link ms |}.

(** Calls of [handleNetworkConnection] every 400 seconds, starting at
    [now = 400000], during which WiFi never comes up. *)
Definition failing_polls (n : nat) : list (Z * Sketch.LoopObs) :=
  map (fun k => (400000 * Z.of_nat (S k), loop_obs link_never (400000 * Z.of_nat (S k))))
    (seq 0 n).

(** A GPRS-preferring facade whose cellular manager has not been started,
    and the WiFi-preferring facade of the sketch with WiFi up. *)
Definition facade_gprs_preferred : Facade.NetworkFacade :=
  Facade.init Facade.GPRS_PREFERRED (Some wifi_down) (Some gprs_disabled) true.

Definition facade_wifi_up : Facade.NetworkFacade :=
  Facade.init Facade.WIFI_PREFERRED (Some wifi_up) (Some gprs_operational) true.

(** The facade after a failed [connect()] that started the cellular FSM,
    once that FSM has become operational in the main loop: the active
    pointer still names the WiFi manager. *)
Definition facade_before_fallback : Facade.NetworkFacade :=
  Facade.set_gprs (Some gprs_operational)
    (Facade.init Facade.WIFI_PREFERRED (Some wifi_down) (Some gprs_disabled) true).

(** A request with a method the WiFi manager cannot send. *)
Definition put_request : Request :=
  {| url := "http://api.example.com/data"; method := "PUT"; apiType := "ST";
     payload := Some "{}"%string; cb := accept; needsAuth := true |}.

Definition port_request : Request :=
  {| url := "http://10.0.0.7:8080/v1/th"; method := "GET"; apiType := "TH";
     payload := None; cb := accept; needsAuth := false |}.

(** A WiFi request answered with status 503, before and after the first
    poll of its Error state at time 1000. *)
Definition wifi_failed : WiFi.WiFiManager :=
  WiFi.set_httpState WiFi.ERROR
    (WiFi.set_status 503 (snd (WiFi.startAsyncHttpRequest 0 (get_request accept) wifi_up))).

Definition wifi_waiting : WiFi.WiFiManager :=
  fst (WiFi.updateHttpOperations parse_any (wifi_http_obs 1000 503 EmptyString) wifi_failed).

(** The same on the cellular transport. *)
Definition gprs_requesting : GPRS.GPRSManager :=
  snd (GPRS.startAsyncHttpRequest 0 (get_request accept) gprs_operational).

Definition gprs_waiting : GPRS.GPRSManager :=
  GPRS.errorStep (gprs_http_obs 1000)
    (GPRS.on_http
       (fun h => GPRS.set_httpState GPRS.ERROR
                   (GPRS.with_response EmptyString 503 0 false 0 None h))
       gprs_requesting).

(** The answers of a socket that stays connected, takes [written]
    characters and delivers [bytes], at clock reading [t]. *)
Definition socket_obs (t written : Z) (bytes : string) : GPRS.HttpObs :=
  {| GPRS.ms_now := t; GPRS.ms_check := t; GPRS.ms_set := t;
     GPRS.ms_transition := t; GPRS.client_connect := true;
     GPRS.client_write := written; GPRS.connected_first := true;
     GPRS.incoming := bytes;
     GPRS.connected_body := true; GPRS.connected_last := true |}.


Definition gprs_reading_chunks : GPRS.GPRSManager :=
  GPRS.on_http
    (fun h => GPRS.set_httpState GPRS.BODY_RECEIVING
                (GPRS.with_response EmptyString 200 0 true 0 None h))
    gprs_requesting.

(** A body in chunked encoding whose second chunk gives its size as -6. *)
Definition looping_chunks : string :=
  ("2" ++ CRLF ++ "ab" ++ CRLF ++ "-6" ++ CRLF ++ "0" ++ CRLF ++ CRLF)%string.

(** A socket that refuses the connection at clock reading [t]. *)
Definition refused_socket (t : Z) : GPRS.HttpObs :=
  {| GPRS.ms_now := t; GPRS.ms_check := t; GPRS.ms_set := t;
     GPRS.ms_transition := t; GPRS.client_connect := false;
     GPRS.client_write := 0; GPRS.connected_first := false;
     GPRS.incoming := EmptyString;
     GPRS.connected_body := false; GPRS.connected_last := false |}.

End Samples.


(** * Properties *)

(** ** Machine integers and state tags *)

Lemma u32_small x : 0 <= x < 2 ^ 32 -> u32 x = x.
Proof. intros H. unfold u32. apply Z.mod_small. exact H. Qed.

Lemma u8_small x : 0 <= x < 2 ^ 8 -> u8 x = x.
Proof. intros H. unfold u8. apply Z.mod_small. exact H. Qed.

Lemma GPRSState_eqb_eq a b : GPRSState_eqb a b = true <-> a = b.
Proof.
  unfold GPRSState_eqb. destruct (GPRSState_eq_dec a b); split; congruence.
Qed.

Lemma GPRSState_eqb_neq a b : GPRSState_eqb a b = false <-> a <> b.
Proof.
  unfold GPRSState_eqb. destruct (GPRSState_eq_dec a b); split; congruence.
Qed.


(** ** Interface selection *)

Section Selection.

Import Facade.

Lemma wifiConnected_present f : wifiConnected f = true -> present (getWiFiManager f) = true.
Proof. unfold wifiConnected. destruct (getWiFiManager f); [reflexivity | discriminate]. Qed.

Lemma gprsConnected_present f : gprsConnected f = true -> present (getGPRSManager f) = true.
Proof. unfold gprsConnected. destruct (getGPRSManager f); [reflexivity | discriminate]. Qed.

Lemma determineActiveInterface_frame f :
  _preference (determineActiveInterface f) = _preference f
  /\ _wifiManagerRaw (determineActiveInterface f) = _wifiManagerRaw f
  /\ _gprsManagerRaw (determineActiveInterface f) = _gprsManagerRaw f.
Proof. repeat split. Qed.

Lemma determineActiveInterface_selects (f : NetworkFacade) :
  _activeInterface (determineActiveInterface f)
  = table_4_1 (_preference f)
      (present (getWiFiManager f)) (wifiConnected f)
      (present (getGPRSManager f)) (gprsConnected f).
Proof.
  unfold determineActiveInterface, table_4_1, preferred_table, handle; cbn.
  pose proof (wifiConnected_present f) as Hw.
  pose proof (gprsConnected_present f) as Hg.
  destruct (_preference f);
    destruct (wifiConnected f), (gprsConnected f);
    destruct (present (getWiFiManager f)), (present (getGPRSManager f));
    cbn; try reflexivity;
    try (specialize (Hw eq_refl); discriminate);
    try (specialize (Hg eq_refl); discriminate).
Qed.

(** C1.  For every preference and every availability and connection
    status of the two managers, [determineActiveInterface] selects the
    interface of the table of section 4.1: for the ONLY preferences that
    manager if present, else none; for WIFI_PREFERRED WiFi if connected,
    else GPRS if connected, else WiFi if present, else GPRS (none when the
    facade has no GPRS manager); GPRS_PREFERRED symmetrically. *)
Theorem determineActiveInterface_table (f : NetworkFacade) :
  _activeInterface (determineActiveInterface f)
  = table_4_1 (_preference f)
      (present (getWiFiManager f)) (wifiConnected f)
      (present (getGPRSManager f)) (gprsConnected f).
Proof. exact (determineActiveInterface_selects f). Qed.

End Selection.

(** ** Retry classification *)

Lemma WiFi_isRetryableError_iff status :
  WiFi.isRetryableError status = true
  <-> status <= 0 \/ status = 408 \/ status = 429 \/ 500 <= status <= 599.
Proof.
  unfold WiFi.isRetryableError.
  destruct (Z.leb_spec status 0); [intuition lia|].
  destruct (Z.eqb_spec status 408); [intuition lia|].
  destruct (Z.eqb_spec status 429); [intuition lia|].
  destruct (Z.geb_spec status 500), (Z.leb_spec status 599); cbn;
    split; intros; try discriminate; try reflexivity; lia.
Qed.

Lemma isRetryableError_same status :
  WiFi.isRetryableError status = GPRS.isRetryableError status.
Proof. reflexivity. Qed.

(** C5.  For every integer status code, [isRetryableError] of either
    transport is true exactly when the status is at most 0, or is 408 or
    429, or lies in 500..599; 200, 400, 401, 403 and 404 are not
    retryable; and the two classification functions agree everywhere. *)
Theorem isRetryableError_classification :
  (forall status : Z,
     (WiFi.isRetryableError status = true
      <-> status <= 0 \/ status = 408 \/ status = 429 \/ 500 <= status <= 599)
     /\ (GPRS.isRetryableError status = true
      <-> status <= 0 \/ status = 408 \/ status = 429 \/ 500 <= status <= 599)
     /\ WiFi.isRetryableError status = GPRS.isRetryableError status)
  /\ map WiFi.isRetryableError [200; 400; 401; 403; 404]
     = [false; false; false; false; false]
  /\ map GPRS.isRetryableError [200; 400; 401; 403; 404]
     = [false; false; false; false; false].
Proof.
  split; [| split; reflexivity].
  intros status. split; [| split].
  - apply WiFi_isRetryableError_iff.
  - rewrite <- isRetryableError_same. apply WiFi_isRetryableError_iff.
  - apply isRetryableError_same.
Qed.

(** ** One request in flight per transport *)

(** C8.  On either transport, while [_asyncOperationActive] is set
    [startAsyncHttpRequest] returns false and leaves the whole manager
    (URL, method, payload, callback, retry counter, HTTP state and every
    other member) as it was; hence a request is accepted only when none
    is in flight, and accepting one sets the flag. *)
Theorem startAsyncHttpRequest_rejects_while_active
  (ms : Z) (r : Request) (w : WiFi.WiFiManager) (g : GPRS.GPRSManager) :
  (WiFi._asyncOperationActive w = true ->
   WiFi.startAsyncHttpRequest ms r w = (false, w))
  /\ (GPRS._asyncOperationActive (GPRS.http g) = true ->
      GPRS.startAsyncHttpRequest ms r g = (false, g))
  /\ (fst (WiFi.startAsyncHttpRequest ms r w) = true ->
      WiFi._asyncOperationActive w = false
      /\ WiFi._asyncOperationActive (snd (WiFi.startAsyncHttpRequest ms r w)) = true)
  /\ (fst (GPRS.startAsyncHttpRequest ms r g) = true ->
      GPRS._asyncOperationActive (GPRS.http g) = false
      /\ GPRS._asyncOperationActive
           (GPRS.http (snd (GPRS.startAsyncHttpRequest ms r g))) = true).
Proof.
  repeat split.
  - intros H. unfold WiFi.startAsyncHttpRequest. rewrite H. reflexivity.
  - intros H. unfold GPRS.startAsyncHttpRequest. rewrite H. reflexivity.
  - revert H. unfold WiFi.startAsyncHttpRequest.
    destruct (WiFi._asyncOperationActive w); [discriminate | reflexivity].
  - revert H. unfold WiFi.startAsyncHttpRequest.
    destruct (WiFi._asyncOperationActive w); [discriminate |].
    destruct (negb (WiFi.isConnected w)); [discriminate | reflexivity].
  - revert H. unfold GPRS.startAsyncHttpRequest.
    destruct (GPRS._asyncOperationActive (GPRS.http g)); [discriminate | reflexivity].
  - revert H. unfold GPRS.startAsyncHttpRequest.
    destruct (GPRS._asyncOperationActive (GPRS.http g)); [discriminate |].
    destruct (negb (GPRS.isConnected g)); [discriminate |].
    destruct (index 0 "://" (url r)); [| discriminate].
    match goal with |- context [if ?c then (false, g) else _] => destruct c end;
      [discriminate |].
    destruct (index 0 "/" _) as [p |].
    + match goal with |- context [if ?c then None else _] => destruct c end;
        [discriminate | reflexivity].
    + reflexivity.
Qed.

(** The theorem at work: a busy manager of each kind refuses a second
    request, an idle connected one accepts the first. *)
Lemma startAsyncHttpRequest_rejects_while_active_witness :
  let w := snd (WiFi.startAsyncHttpRequest 10 (Samples.get_request None) Samples.wifi_up) in
  let g := snd (GPRS.startAsyncHttpRequest 10 (Samples.get_request None)
                  Samples.gprs_operational) in
  WiFi.startAsyncHttpRequest 20 (Samples.get_request Samples.accept) w = (false, w)
  /\ GPRS.startAsyncHttpRequest 20 (Samples.get_request Samples.accept) g = (false, g)
  /\ WiFi._asyncOperationActive Samples.wifi_up = false
  /\ GPRS._asyncOperationActive (GPRS.http Samples.gprs_operational) = false.
Proof.
  cbv zeta.
  split; [| split; [| split]].
  - apply (startAsyncHttpRequest_rejects_while_active 20 (Samples.get_request Samples.accept)
             _ Samples.gprs_disabled). reflexivity.
  - apply (startAsyncHttpRequest_rejects_while_active 20 (Samples.get_request Samples.accept)
             Samples.wifi_up _). reflexivity.
  - apply (startAsyncHttpRequest_rejects_while_active 10 (Samples.get_request None)
             Samples.wifi_up Samples.gprs_operational). reflexivity.
  - apply (startAsyncHttpRequest_rejects_while_active 10 (Samples.get_request None)
             Samples.wifi_up Samples.gprs_operational). reflexivity.
Defined.

(** ** Disconnecting the cellular transport *)

Lemma GPRS_isConnected_iff g :
  GPRS.isConnected g = true <-> GPRS._currentGprsState g = GPRS_STATE_OPERATIONAL.
Proof. unfold GPRS.isConnected. apply GPRSState_eqb_eq. Qed.

(** C10.  [GPRSManager::disconnect] issues its modem command and leaves
    the FSM state as it was; so a manager that was Operational still
    answers [isConnected() = true] right afterwards, and the facade,
    whose [disconnect] delegates to it, keeps the manager as it was,
    clears the active interface and reports itself connected through the
    fallback path of [isConnected] immediately after an explicit
    [disconnect]. *)
Theorem disconnect_keeps_operational
  (f : Facade.NetworkFacade) (ds : DeviceState) (g : GPRS.GPRSManager)
  (Hgm : Facade.getGPRSManager f = Some g)
  (Hop : GPRS._currentGprsState g = GPRS_STATE_OPERATIONAL) :
  GPRS.disconnect (g, ds) = ((g, ds), [EvGprsDisconnect])
  /\ GPRS.isConnected (fst (fst (GPRS.disconnect (g, ds)))) = true
  /\ In EvGprsDisconnect (snd (Facade.disconnect (f, ds)))
  /\ Facade.getGPRSManager (fst (fst (Facade.disconnect (f, ds)))) = Some g
  /\ Facade._activeInterface (fst (fst (Facade.disconnect (f, ds)))) = None
  /\ Facade.isConnected (fst (fst (Facade.disconnect (f, ds)))) = true.
Proof.
  assert (Hc : GPRS.isConnected g = true) by (apply GPRS_isConnected_iff; exact Hop).
  split; [reflexivity |]. split; [exact Hc |].
  unfold Facade.disconnect, Facade.wifi_disconnect_if_connected,
    Facade.gprs_disconnect_if_connected, Facade.getWiFiManager in *.
  unfold Facade.getGPRSManager in Hgm.
  destruct f as [p wm gm dsp act]; cbn in *. subst gm.
  destruct wm as [w |]; cbn.
  - destruct (WiFi.isConnected w) eqn:Hw; cbn; rewrite Hc; cbn;
      unfold Facade.isConnected, Facade.wifiConnected, Facade.gprsConnected; cbn;
      rewrite ?Hw, Hc; auto 6.
  - rewrite Hc; cbn.
    unfold Facade.isConnected, Facade.wifiConnected, Facade.gprsConnected; cbn;
      rewrite Hc; auto 6.
Qed.

(** The theorem at work on the facade of the sketch while it runs on its
    GPRS fallback. *)
Lemma disconnect_keeps_operational_witness :
  Facade.isConnected
    (fst (fst (Facade.disconnect (Samples.facade_on_gprs, DeviceState_init)))) = true.
Proof.
  apply (disconnect_keeps_operational Samples.facade_on_gprs DeviceState_init
           Samples.gprs_operational); reflexivity.
Defined.

(** ** What [connect()] reports *)

(** Membership in a concrete list of events. *)
Ltac in_events :=
  cbn [In app];
  split;
  [ let H := fresh in intros H; try discriminate H; auto
  | let H := fresh in
    intros H; repeat (destruct H as [H | H]); try discriminate H; try contradiction; auto ].

Section ConnectResult.

Import Facade.

Lemma WiFi_connect_attempts_ok link w n k :
  fst (WiFi.connect_attempts n k link w) = true ->
  WiFi.isConnected (snd (WiFi.connect_attempts n k link w)) = true.
Proof.
  revert k w. induction n as [| n IH]; intros k w; cbn.
  - discriminate.
  - destruct (link k); cbn; [reflexivity | apply IH].
Qed.

Lemma WiFi_connect_ok link w :
  fst (WiFi.connect link w) = true ->
  WiFi.isConnected (snd (WiFi.connect link w)) = true.
Proof.
  unfold WiFi.connect, WiFi.connectWiFi.
  destruct (String.length (WiFi._ssid w) =? 0)%nat.
  - cbn. discriminate.
  - apply WiFi_connect_attempts_ok.
Qed.

Lemma GPRS_connect_true ms s : fst (GPRS.connect ms s) = true.
Proof.
  unfold GPRS.connect.
  destruct (GPRSState_eqb _ _); reflexivity.
Qed.

Lemma GPRS_connect_started ms s :
  GPRS._currentGprsState (fst (snd (GPRS.connect ms s))) <> GPRS_STATE_DISABLED.
Proof.
  unfold GPRS.connect. destruct s as [g ds]; cbn.
  destruct (GPRSState_eqb (GPRS._currentGprsState g) GPRS_STATE_DISABLED) eqn:E; cbn.
  - apply GPRSState_eqb_eq in E. rewrite E. cbn. discriminate.
  - apply GPRSState_eqb_neq in E. exact E.
Qed.

(** What one manager call of the facade does to the facade. *)
Lemma wifi_connect_spec o w s :
  wifi_connect o w s
  = (fst (WiFi.connect (wifi_link o) w),
     (set_wifi (Some (snd (WiFi.connect (wifi_link o) w))) (fst s), snd s),
     [EvWiFiConnect (fst (WiFi.connect (wifi_link o) w))]).
Proof. unfold wifi_connect. destruct (WiFi.connect (wifi_link o) w). reflexivity. Qed.

Lemma gprs_connect_spec o g s :
  gprs_connect o g s
  = (true,
     (set_gprs (Some (fst (snd (GPRS.connect (gprs_ms o) (g, snd s))))) (fst s),
      snd (snd (GPRS.connect (gprs_ms o) (g, snd s)))),
     [EvGprsConnect true]).
Proof.
  unfold gprs_connect.
  pose proof (GPRS_connect_true (gprs_ms o) (g, snd s)) as H.
  destruct (GPRS.connect (gprs_ms o) (g, snd s)) as [ok [g' ds']].
  cbn in H. subst ok. reflexivity.
Qed.

Lemma wifi_disconnect_if_connected_gprs s :
  getGPRSManager (fst (fst (wifi_disconnect_if_connected s))) = getGPRSManager (fst s)
  /\ _preference (fst (fst (wifi_disconnect_if_connected s))) = _preference (fst s)
  /\ snd (fst (wifi_disconnect_if_connected s)) = snd s.
Proof.
  unfold wifi_disconnect_if_connected.
  destruct (getWiFiManager (fst s)) as [w |]; [destruct (WiFi.isConnected w) |];
    repeat split.
Qed.

End ConnectResult.

Section ConnectTheorem.

Import Facade.

#[local] Arguments WiFi.connect : simpl never.
#[local] Arguments GPRS.connect : simpl never.

(** C2, as the specification has it, fails: under GPRS_ONLY with a
    manager that has not been started, [connect()] returns true (the
    cellular FSM has merely been kicked off) while neither transport
    reports connected. *)
Lemma connect_true_while_disconnected :
  let r := connect (Samples.conn_obs Samples.link_never 1000)
             (Samples.facade_gprs_only, DeviceState_init) in
  fst (fst r) = true
  /\ ~ (wifiConnected (fst (snd (fst r))) = true \/ gprsConnected (fst (snd (fst r))) = true).
Proof.
  cbv zeta. split; [reflexivity |].
  intros [H | H]; vm_compute in H; discriminate H.
Qed.

(** C2, amended.  [connect()] returns true exactly when a manager's
    [connect()] called by it returned true.  For WiFi that means WiFi is
    connected on return.  [GPRSManager::connect()] returns true on every
    call: it only starts the cellular FSM, which has then left Disabled
    but need not be Operational, so [connect()] may return true while
    both transports still report disconnected.  The stored preference is
    untouched. *)
Theorem connect_reports_manager_result (o : ConnObs) (s : St) :
  (fst (fst (connect o s)) = true
   <-> In (EvWiFiConnect true) (snd (connect o s))
       \/ In (EvGprsConnect true) (snd (connect o s)))
  /\ (In (EvWiFiConnect true) (snd (connect o s)) ->
      wifiConnected (fst (snd (fst (connect o s)))) = true)
  /\ (In (EvGprsConnect true) (snd (connect o s)) ->
      exists g', getGPRSManager (fst (snd (fst (connect o s)))) = Some g'
                 /\ GPRS._currentGprsState g' <> GPRS_STATE_DISABLED)
  /\ _preference (fst (snd (fst (connect o s)))) = _preference (fst s).
Proof.
  destruct s as [f ds]. destruct f as [p wm gm dsp act].
  pose proof (GPRS_connect_started (gprs_ms o)) as Hst.
  unfold connect, connect_attempt, wifi_disconnect_if_connected,
    gprs_disconnect_if_connected.
  destruct p, wm as [w |], gm as [g |]; cbn;
    rewrite ?wifi_connect_spec, ?gprs_connect_spec; cbn.
  all: try (pose proof (WiFi_connect_ok (wifi_link o) w) as Hok;
            destruct (fst (WiFi.connect (wifi_link o) w)) eqn:Hc; cbn;
            rewrite ?wifi_connect_spec, ?gprs_connect_spec; cbn).
  all: try (destruct (WiFi.isConnected (snd (WiFi.connect (wifi_link o) w))) eqn:Hwc; cbn;
            rewrite ?wifi_connect_spec, ?gprs_connect_spec; cbn).
  all: split; [solve [in_events] |].
  all: split; [| split; [| reflexivity]].
  all: let H := fresh in
       intros H; repeat (destruct H as [H | H]); try discriminate H; try contradiction.
  all: try reflexivity.
  all: try (eexists; split; [reflexivity | apply Hst]).
  all: try (apply Hok; reflexivity).
Qed.

(** The theorem at work: the first WiFi attempt of a WiFi-only facade
    succeeds, so WiFi is connected when [connect()] returns. *)
Lemma connect_reports_manager_result_witness :
  wifiConnected
    (fst (snd (fst (connect (Samples.conn_obs Samples.link_first 0)
                      (Samples.facade_wifi_only, DeviceState_init))))) = true.
Proof.
  apply (connect_reports_manager_result (Samples.conn_obs Samples.link_first 0)
           (Samples.facade_wifi_only, DeviceState_init)).
  cbn. left. reflexivity.
Defined.

End ConnectTheorem.

(** ** Explicit switches *)

Section Switches.

Import Facade.

#[local] Arguments WiFi.connect : simpl never.
#[local] Arguments GPRS.connect : simpl never.

Ltac by_selection :=
  match goal with
  | |- _activeInterface (determineActiveInterface ?X) = _ =>
      exact (determineActiveInterface_selects X)
  end.

Ltac open_switch :=
  unfold switchToWiFi, switchToGPRS, gprs_disconnect_if_connected,
    wifi_disconnect_if_connected;
  cbn [fst snd getWiFiManager getGPRSManager _wifiManagerRaw _gprsManagerRaw].

Ltac step_switch :=
  rewrite ?wifi_connect_spec, ?gprs_connect_spec;
  cbn [fst snd getWiFiManager getGPRSManager _wifiManagerRaw _gprsManagerRaw
         set_wifi set_gprs GPRS.disconnect app].

Lemma switchToWiFi_absent o s :
  getWiFiManager (fst s) = None -> switchToWiFi o s = (false, s, []).
Proof. intros H. unfold switchToWiFi. rewrite H. reflexivity. Qed.

Lemma switchToGPRS_absent o s :
  getGPRSManager (fst s) = None -> switchToGPRS o s = (false, s, []).
Proof. intros H. unfold switchToGPRS. rewrite H. reflexivity. Qed.

Lemma switchToWiFi_preference o s :
  _preference (fst (snd (fst (switchToWiFi o s)))) = _preference (fst s).
Proof.
  destruct s as [f ds]. destruct f as [p wm gm dsp act]. open_switch.
  destruct wm as [w |]; [| reflexivity]. step_switch.
  destruct (fst (WiFi.connect (wifi_link o) w)); [| reflexivity].
  destruct gm as [g |]; [destruct (GPRS.isConnected g) |]; reflexivity.
Qed.

Lemma switchToGPRS_preference o s :
  _preference (fst (snd (fst (switchToGPRS o s)))) = _preference (fst s).
Proof.
  destruct s as [f ds]. destruct f as [p wm gm dsp act]. open_switch.
  destruct gm as [g |]; [| reflexivity]. step_switch.
  destruct wm as [w |]; [destruct (WiFi.isConnected w) |]; reflexivity.
Qed.

Lemma switchToWiFi_present o s :
  getWiFiManager (fst s) <> None ->
  (snd (switchToWiFi o s) = [EvWiFiConnect (fst (fst (switchToWiFi o s)))]
   \/ (fst (fst (switchToWiFi o s)) = true
       /\ snd (switchToWiFi o s) = [EvWiFiConnect true; EvGprsDisconnect]))
  /\ _activeInterface (fst (snd (fst (switchToWiFi o s))))
     = table_4_1 (_preference (fst s))
         (present (getWiFiManager (fst (snd (fst (switchToWiFi o s))))))
         (wifiConnected (fst (snd (fst (switchToWiFi o s)))))
         (present (getGPRSManager (fst (snd (fst (switchToWiFi o s))))))
         (gprsConnected (fst (snd (fst (switchToWiFi o s))))).
Proof.
  destruct s as [f ds]. destruct f as [p wm gm dsp act]. open_switch.
  destruct wm as [w |]; [| congruence]. intros _. step_switch.
  destruct (fst (WiFi.connect (wifi_link o) w)) eqn:Hc.
  - destruct gm as [g |]; [destruct (GPRS.isConnected g) eqn:Hg |]; step_switch.
    + split; [right; split; reflexivity | by_selection].
    + split; [left; reflexivity | by_selection].
    + split; [left; reflexivity | by_selection].
  - step_switch. split; [left; reflexivity | by_selection].
Qed.

Lemma switchToWiFi_failure o s :
  fst (fst (switchToWiFi o s)) = false ->
  ~ In EvGprsDisconnect (snd (switchToWiFi o s))
  /\ getGPRSManager (fst (snd (fst (switchToWiFi o s)))) = getGPRSManager (fst s)
  /\ snd (snd (fst (switchToWiFi o s))) = snd s.
Proof.
  destruct s as [f ds]. destruct f as [p wm gm dsp act]. open_switch.
  destruct wm as [w |].
  - step_switch.
    destruct (fst (WiFi.connect (wifi_link o) w)) eqn:Hc.
    + destruct gm as [g |]; [destruct (GPRS.isConnected g) |]; discriminate.
    + intros _. step_switch.
      split; [intros [H | []]; discriminate H |].
      split; reflexivity.
  - intros _. cbn. split; [auto |]. split; reflexivity.
Qed.

Lemma switchToWiFi_failure_active o s :
  getWiFiManager (fst s) <> None ->
  fst (fst (switchToWiFi o s)) = false ->
  gprsConnected (fst s) = true ->
  wifiConnected (fst (snd (fst (switchToWiFi o s)))) = false ->
  _preference (fst s) <> WIFI_ONLY ->
  _activeInterface (fst (snd (fst (switchToWiFi o s)))) = Some IfGPRS.
Proof.
  destruct s as [f ds]. destruct f as [p wm gm dsp act]. open_switch.
  destruct wm as [w |]; [| congruence]. intros _. step_switch.
  destruct (fst (WiFi.connect (wifi_link o) w)) eqn:Hc.
  - destruct gm as [g |]; [destruct (GPRS.isConnected g) |]; discriminate.
  - intros _. step_switch.
    unfold determineActiveInterface, wifiConnected, gprsConnected. cbn.
    intros Hg Hw Hp. rewrite Hg, Hw.
    destruct gm; [| discriminate].
    destruct p; cbn; try reflexivity; contradiction.
Qed.

Lemma switchToGPRS_present o s :
  getGPRSManager (fst s) <> None ->
  fst (fst (switchToGPRS o s)) = true
  /\ (snd (switchToGPRS o s) = [EvGprsConnect true]
      \/ snd (switchToGPRS o s) = [EvGprsConnect true; EvWiFiDisconnect]).
Proof.
  destruct s as [f ds]. destruct f as [p wm gm dsp act]. open_switch.
  destruct gm as [g |]; [| congruence]. intros _. step_switch.
  destruct wm as [w |]; [destruct (WiFi.isConnected w) |]; step_switch; auto.
Qed.

Lemma switchToGPRS_failure o s :
  fst (fst (switchToGPRS o s)) = false -> switchToGPRS o s = (false, s, []).
Proof.
  intros H. destruct (getGPRSManager (fst s)) eqn:Hg.
  - assert (Hne : getGPRSManager (fst s) <> None) by congruence.
    destruct (switchToGPRS_present o s Hne) as [Ht _]. congruence.
  - apply switchToGPRS_absent. exact Hg.
Qed.

(** C7, as the specification has it, fails for [switchToWiFi]: the
    facade points at the GPRS manager, whose FSM has meanwhile noticed
    the loss of its connection; the WiFi attempt fails; the active
    interface is re-derived and moves to WiFi instead of staying on
    GPRS. *)
Lemma switchToWiFi_failure_moves_active :
  let r := switchToWiFi (Samples.conn_obs Samples.link_never 50000)
             (Samples.facade_gprs_lost, DeviceState_init) in
  fst (fst r) = false
  /\ _activeInterface Samples.facade_gprs_lost = Some IfGPRS
  /\ _activeInterface (fst (snd (fst r))) = Some IfWiFi.
Proof. cbv zeta. repeat split. Qed.

(** C7, amended.  [switchToWiFi] and [switchToGPRS] call the target's
    [connect()] first and disconnect the other transport only after it
    returned true; the stored preference never changes.  With the target
    manager absent nothing changes at all.  When the target's
    [connect()] fails (only WiFi's can: [GPRSManager::connect()] always
    returns true) the other transport is not disconnected, its manager
    and the shared state are untouched, and the active interface is not
    kept but re-derived by [determineActiveInterface]: it is the other
    transport whenever that one is connected, the target is not, and the
    preference is not the target-only one. *)
Theorem switch_connects_before_disconnecting (o : ConnObs) (s : St) :
  (* switchToWiFi *)
  (_preference (fst (snd (fst (switchToWiFi o s)))) = _preference (fst s)
   /\ (getWiFiManager (fst s) = None -> switchToWiFi o s = (false, s, []))
   /\ (getWiFiManager (fst s) <> None ->
       (snd (switchToWiFi o s) = [EvWiFiConnect (fst (fst (switchToWiFi o s)))]
        \/ (fst (fst (switchToWiFi o s)) = true
            /\ snd (switchToWiFi o s) = [EvWiFiConnect true; EvGprsDisconnect]))
       /\ _activeInterface (fst (snd (fst (switchToWiFi o s))))
          = table_4_1 (_preference (fst s))
              (present (getWiFiManager (fst (snd (fst (switchToWiFi o s))))))
              (wifiConnected (fst (snd (fst (switchToWiFi o s)))))
              (present (getGPRSManager (fst (snd (fst (switchToWiFi o s))))))
              (gprsConnected (fst (snd (fst (switchToWiFi o s)))))
       /\ (fst (fst (switchToWiFi o s)) = false ->
           gprsConnected (fst s) = true ->
           wifiConnected (fst (snd (fst (switchToWiFi o s)))) = false ->
           _preference (fst s) <> WIFI_ONLY ->
           _activeInterface (fst (snd (fst (switchToWiFi o s)))) = Some IfGPRS))
   /\ (fst (fst (switchToWiFi o s)) = false ->
       ~ In EvGprsDisconnect (snd (switchToWiFi o s))
       /\ getGPRSManager (fst (snd (fst (switchToWiFi o s)))) = getGPRSManager (fst s)
       /\ snd (snd (fst (switchToWiFi o s))) = snd s))
  (* switchToGPRS *)
  /\ (_preference (fst (snd (fst (switchToGPRS o s)))) = _preference (fst s)
      /\ (getGPRSManager (fst s) = None -> switchToGPRS o s = (false, s, []))
      /\ (getGPRSManager (fst s) <> None ->
          fst (fst (switchToGPRS o s)) = true
          /\ (snd (switchToGPRS o s) = [EvGprsConnect true]
              \/ snd (switchToGPRS o s) = [EvGprsConnect true; EvWiFiDisconnect]))
      /\ (fst (fst (switchToGPRS o s)) = false ->
          switchToGPRS o s = (false, s, []))).
Proof.
  split; [split; [| split; [| split]] | split; [| split; [| split]]].
  - apply switchToWiFi_preference.
  - apply switchToWiFi_absent.
  - intros H. destruct (switchToWiFi_present o s H) as [He Ha].
    split; [exact He |]. split; [exact Ha |].
    apply switchToWiFi_failure_active. exact H.
  - apply switchToWiFi_failure.
  - apply switchToGPRS_preference.
  - apply switchToGPRS_absent.
  - apply switchToGPRS_present.
  - apply switchToGPRS_failure.
Qed.

(** The theorem at work on the sketch's facade running on its GPRS
    fallback: the WiFi attempt fails, GPRS is not disconnected and stays
    the active interface. *)
Lemma switch_connects_before_disconnecting_witness :
  let r := switchToWiFi (Samples.conn_obs Samples.link_never 50000)
             (Samples.facade_on_gprs, DeviceState_init) in
  ~ In EvGprsDisconnect (snd r)
  /\ _activeInterface (fst (snd (fst r))) = Some IfGPRS.
Proof.
  cbv zeta.
  pose proof (switch_connects_before_disconnecting
                (Samples.conn_obs Samples.link_never 50000)
                (Samples.facade_on_gprs, DeviceState_init)) as [[_ [_ [Hp Hf]]] _].
  split.
  - apply Hf. reflexivity.
  - apply Hp; [discriminate | reflexivity | reflexivity | reflexivity | discriminate].
Defined.

End Switches.

(** ** Processing a response *)

Lemma range_2xx status :
  (status >=? 200) && (status <? 300) = true <-> 200 <= status < 300.
Proof.
  rewrite andb_true_iff, Z.geb_le, Z.ltb_lt. tauto.
Qed.

(** C4, as the specification has it, fails on the cellular transport: a
    404 whose body parses as JSON is handed to the callback. *)
Lemma gprs_error_status_invokes_callback :
  option_map snd
    (GPRS.updateHttpOperations Samples.parse_any (Samples.gprs_http_obs 100)
       (Samples.gprs_processing 404 "{}" Samples.accept, DeviceState_init))
  = Some [EvCallback JNull true].
Proof. reflexivity. Qed.

(** C4, amended.  A poll that dispatches to ProcessingResponse (a
    request is active, the time-out has not struck and, on the cellular
    side, the transport is Operational) does the following on either
    transport.  With a status in 200..299: without a callback the
    request completes; with one the body is parsed, a parse failure is a
    failure without any callback, a parse success invokes the callback
    once and completes exactly when it returns true.  With any other
    status the FSM goes to Error with the status member unchanged, and
    the next Error step retries exactly when [isRetryableError] accepts
    that status and retries are left.  On WiFi the callback is then never
    invoked; on the cellular transport it is invoked once, its result
    ignored, when a callback is set, the status is not 0 and the body
    parses as JSON, and not otherwise. *)
Theorem processing_response_step
  (deserializeJson : string -> option JsonDocument)
  (ow ow' : WiFi.HttpObs) (w : WiFi.WiFiManager)
  (og og' : GPRS.HttpObs) (g : GPRS.GPRSManager) (ds : DeviceState) :
  (WiFi._asyncOperationActive w = true ->
   WiFi._currentHttpState w = WiFi.PROCESSING_RESPONSE ->
   u32 (WiFi.ms_now ow - WiFi._asyncRequestStartTime w) <= 30000 ->
   let status := WiFi._httpStatusCode w in
   let r := WiFi.updateHttpOperations deserializeJson ow w in
   WiFi._httpStatusCode (fst r) = status
   /\ (if (status >=? 200) && (status <? 300) then
         match WiFi._asyncCb w with
         | None => snd r = [] /\ WiFi._currentHttpState (fst r) = WiFi.COMPLETE
         | Some f =>
             match deserializeJson (WiFi.getString ow) with
             | None => snd r = [] /\ WiFi._currentHttpState (fst r) = WiFi.ERROR
             | Some d =>
                 snd r = [EvCallback d (f d)]
                 /\ WiFi._currentHttpState (fst r)
                    = (if f d then WiFi.COMPLETE else WiFi.ERROR)
             end
         end
       else
         snd r = []
         /\ WiFi._currentHttpState (fst r) = WiFi.ERROR
         /\ WiFi._currentHttpState (WiFi.errorStep ow' (fst r))
            = (if WiFi.isRetryableError status
                  && (WiFi._httpRetries w <? Config.MAX_HTTP_RETRIES)
               then WiFi.RETRY_WAIT else WiFi.IDLE)))
  /\
  (GPRS._asyncOperationActive (GPRS.http g) = true ->
   GPRS._currentHttpState (GPRS.http g) = GPRS.PROCESSING_RESPONSE ->
   GPRS._currentGprsState g = GPRS_STATE_OPERATIONAL ->
   u32 (GPRS.ms_now og - GPRS._asyncRequestStartTime (GPRS.http g))
     <= Config.GPRS_HTTP_TOTAL_TIMEOUT_MS ->
   let status := GPRS._gprsHttpStatusCode (GPRS.http g) in
   exists g' evs,
     GPRS.updateHttpOperations deserializeJson og (g, ds) = Some ((g', ds), evs)
     /\ GPRS._gprsHttpStatusCode (GPRS.http g') = status
     /\ (if (status >=? 200) && (status <? 300) then
           match GPRS._asyncCb (GPRS.http g) with
           | None => evs = [] /\ GPRS._currentHttpState (GPRS.http g') = GPRS.COMPLETE
           | Some f =>
               match deserializeJson (GPRS._gprsResponseBuffer (GPRS.http g)) with
               | None => evs = [] /\ GPRS._currentHttpState (GPRS.http g') = GPRS.ERROR
               | Some d =>
                   evs = [EvCallback d (f d)]
                   /\ GPRS._currentHttpState (GPRS.http g')
                      = (if f d then GPRS.COMPLETE else GPRS.ERROR)
               end
           end
         else
           evs = match GPRS._asyncCb (GPRS.http g),
                       deserializeJson (GPRS._gprsResponseBuffer (GPRS.http g)) with
                 | Some f, Some d => if status =? 0 then [] else [EvCallback d (f d)]
                 | _, _ => []
                 end
           /\ GPRS._currentHttpState (GPRS.http g') = GPRS.ERROR
           /\ GPRS._currentHttpState (GPRS.http (GPRS.errorStep og' g'))
              = (if GPRS.isRetryableError status
                    && (GPRS._httpRetries (GPRS.http g) <? Config.MAX_HTTP_RETRIES)
                 then GPRS.RETRY_WAIT else GPRS.IDLE))).
Proof.
  split.
  - intros Ha Hs Ht. cbv zeta.
    unfold WiFi.updateHttpOperations. rewrite Ha. cbn [negb].
    destruct (Z.gtb_spec (u32 (WiFi.ms_now ow - WiFi._asyncRequestStartTime w)) 30000);
      [lia |].
    rewrite Hs. unfold WiFi.processingResponse.
    destruct ((WiFi._httpStatusCode w >=? 200) && (WiFi._httpStatusCode w <? 300)) eqn:H2.
    + destruct (WiFi._asyncCb w) as [f |].
      * destruct (deserializeJson (WiFi.getString ow)) as [d |]; cbn.
        -- split; [reflexivity |]. split; [reflexivity |]. destruct (f d); reflexivity.
        -- repeat split.
      * cbn. repeat split.
    + cbn. split; [reflexivity |]. split; [reflexivity |]. split; [reflexivity |].
      unfold WiFi.errorStep. cbn.
      destruct (WiFi.isRetryableError (WiFi._httpStatusCode w)
                && (WiFi._httpRetries w <? Config.MAX_HTTP_RETRIES)); reflexivity.
  - intros Ha Hs Hop Ht. cbv zeta.
    unfold GPRS.updateHttpOperations. rewrite Ha. cbn [negb].
    rewrite Hop. cbn [GPRSState_eqb negb].
    replace (GPRSState_eqb GPRS_STATE_OPERATIONAL GPRS_STATE_OPERATIONAL) with true
      by reflexivity.
    cbn [negb].
    destruct (Z.gtb_spec
                (u32 (GPRS.ms_now og - GPRS._asyncRequestStartTime (GPRS.http g)))
                Config.GPRS_HTTP_TOTAL_TIMEOUT_MS); [lia |].
    rewrite andb_false_r. rewrite Hs. unfold GPRS.processingResponse.
    destruct ((GPRS._gprsHttpStatusCode (GPRS.http g) >=? 200)
              && (GPRS._gprsHttpStatusCode (GPRS.http g) <? 300)) eqn:H2.
    + destruct (GPRS._asyncCb (GPRS.http g)) as [f |].
      * destruct (deserializeJson (GPRS._gprsResponseBuffer (GPRS.http g))) as [d |].
        -- do 2 eexists. split; [reflexivity |]. cbn.
           split; [reflexivity |]. split; [reflexivity |]. destruct (f d); reflexivity.
        -- do 2 eexists. split; [reflexivity |]. cbn. repeat split.
      * do 2 eexists. split; [reflexivity |]. cbn. repeat split.
    + assert (Herr : forall g0,
                 GPRS._gprsHttpStatusCode (GPRS.http g0)
                 = GPRS._gprsHttpStatusCode (GPRS.http g) ->
                 GPRS._httpRetries (GPRS.http g0) = GPRS._httpRetries (GPRS.http g) ->
                 GPRS._currentHttpState (GPRS.http (GPRS.errorStep og' g0))
                 = (if GPRS.isRetryableError (GPRS._gprsHttpStatusCode (GPRS.http g))
                       && (GPRS._httpRetries (GPRS.http g) <? Config.MAX_HTTP_RETRIES)
                    then GPRS.RETRY_WAIT else GPRS.IDLE)).
      { intros g0 E1 E2. unfold GPRS.errorStep. rewrite E1, E2.
        destruct (GPRS.isRetryableError (GPRS._gprsHttpStatusCode (GPRS.http g))
                  && (GPRS._httpRetries (GPRS.http g) <? Config.MAX_HTTP_RETRIES));
          reflexivity. }
      destruct (GPRS._asyncCb (GPRS.http g)) as [f |].
      * destruct (GPRS._gprsHttpStatusCode (GPRS.http g) =? 0) eqn:H0; cbn [negb].
        -- do 2 eexists. split; [reflexivity |]. cbn [fst snd].
           split; [reflexivity |].
           split; [destruct (deserializeJson _); reflexivity |].
           split; [reflexivity |]. apply Herr; reflexivity.
        -- destruct (deserializeJson (GPRS._gprsResponseBuffer (GPRS.http g))) as [d |].
           ++ do 2 eexists. split; [reflexivity |]. cbn [fst snd].
              split; [reflexivity |]. split; [reflexivity |].
              split; [reflexivity |]. apply Herr; reflexivity.
           ++ do 2 eexists. split; [reflexivity |]. cbn [fst snd].
              split; [reflexivity |]. split; [reflexivity |].
              split; [reflexivity |]. apply Herr; reflexivity.
      * do 2 eexists. split; [reflexivity |]. cbn [fst snd].
        split; [reflexivity |]. split; [reflexivity |].
        split; [reflexivity |]. apply Herr; reflexivity.
Qed.

(** The theorem at work: on WiFi a 503 reaches Error without any
    callback; on the cellular transport a 200 with a body that parses
    invokes the callback once and completes. *)
Lemma processing_response_step_witness :
  snd (WiFi.updateHttpOperations Samples.parse_any (Samples.wifi_http_obs 100 503 "{}")
         (Samples.wifi_processing 503 Samples.accept)) = []
  /\ exists g' evs,
       GPRS.updateHttpOperations Samples.parse_any (Samples.gprs_http_obs 100)
         (Samples.gprs_processing 200 "{}" Samples.accept, DeviceState_init)
       = Some ((g', DeviceState_init), evs)
       /\ evs = [EvCallback JNull true]
       /\ GPRS._currentHttpState (GPRS.http g') = GPRS.COMPLETE.
Proof.
  pose proof (processing_response_step Samples.parse_any
                (Samples.wifi_http_obs 100 503 "{}") (Samples.wifi_http_obs 200 503 "{}")
                (Samples.wifi_processing 503 Samples.accept)
                (Samples.gprs_http_obs 100) (Samples.gprs_http_obs 200)
                (Samples.gprs_processing 200 "{}" Samples.accept)
                DeviceState_init) as [HW HG].
  split.
  - apply HW; [reflexivity | reflexivity | vm_compute; discriminate].
  - destruct HG as [g' [evs [Hrun [_ Hres]]]];
      [reflexivity | reflexivity | reflexivity | vm_compute; discriminate |].
    exists g', evs. split; [exact Hrun |]. exact Hres.
Defined.

(** ** Attach failures in InitAttach *)

Section AttachFailures.

Import GPRS.

#[local] Arguments u8 : simpl never.
#[local] Arguments u32 : simpl never.

Lemma updateFSM_mgr_attach o g ds :
  _currentGprsState g = GPRS_STATE_INIT_ATTACH_GPRS ->
  exists ds0, updateFSM o (g, ds) = handleGprsInitAttachGprs o (g, ds0).
Proof.
  intros H. unfold updateFSM. cbn [fst snd].
  destruct (_deviceState g); cbn [fst snd]; rewrite H; eexists; reflexivity.
Qed.

Lemma timeout_step o s c :
  _currentGprsState (fst s) = GPRS_STATE_INIT_ATTACH_GPRS ->
  _gprsAttachFailCount (fst s) = c -> 0 <= c < 255 ->
  registration_timeout o (fst s) = true ->
  (c + 1 <= Config.GPRS_MAX_ATTACH_FAILURES ->
   _currentGprsState (fst (updateFSM o s)) = GPRS_STATE_INIT_ATTACH_GPRS
   /\ _gprsAttachFailCount (fst (updateFSM o s)) = c + 1)
  /\ (Config.GPRS_MAX_ATTACH_FAILURES < c + 1 ->
      _currentGprsState (fst (updateFSM o s)) = GPRS_STATE_ERROR_RESTART_MODEM
      /\ _gprsAttachFailCount (fst (updateFSM o s)) = c + 1).
Proof.
  destruct s as [g ds]. cbn [fst]. intros Hst Hc Hr Ht.
  destruct (updateFSM_mgr_attach o g ds Hst) as [ds0 ->].
  unfold registration_timeout in Ht.
  repeat (apply andb_true_iff in Ht; destruct Ht as [Ht ?]).
  assert (Hu : u8 (c + 1) = c + 1) by (apply u8_small; change (2 ^ 8) with 256; lia).
  unfold handleGprsInitAttachGprs. cbn [fst snd on_mgr].
  apply negb_true_iff in Ht. rewrite Ht.
  rewrite H1, H0. cbn [negb andb]. rewrite H. cbn [fst snd on_mgr].
  cbn [_gprsAttachFailCount set_attachFailCount with_conn].
  rewrite Hc, Hu.
  split; intros Hle.
  - destruct (Z.gtb_spec (c + 1) Config.GPRS_MAX_ATTACH_FAILURES); [lia |].
    cbn. rewrite Hst, Hc, Hu. split; reflexivity.
  - destruct (Z.gtb_spec (c + 1) Config.GPRS_MAX_ATTACH_FAILURES); [| lia].
    unfold transitionToState. cbn. rewrite Hst. cbn.
    destruct (_deviceState g); cbn; rewrite Hc, Hu; split; reflexivity.
Qed.

Lemma refusal_step o s c :
  _currentGprsState (fst s) = GPRS_STATE_INIT_ATTACH_GPRS ->
  _gprsAttachFailCount (fst s) = c -> 0 <= c < 255 ->
  attach_refused o = true ->
  (c + 1 < Config.GPRS_MAX_ATTACH_FAILURES ->
   _currentGprsState (fst (updateFSM o s)) = GPRS_STATE_INIT_ATTACH_GPRS
   /\ _gprsAttachFailCount (fst (updateFSM o s)) = c + 1)
  /\ (Config.GPRS_MAX_ATTACH_FAILURES <= c + 1 ->
      _currentGprsState (fst (updateFSM o s)) = GPRS_STATE_ERROR_RESTART_MODEM
      /\ _gprsAttachFailCount (fst (updateFSM o s)) = c + 1).
Proof.
  destruct s as [g ds]. cbn [fst]. intros Hst Hc Hr Ht.
  destruct (updateFSM_mgr_attach o g ds Hst) as [ds0 ->].
  unfold attach_refused in Ht.
  repeat (apply andb_true_iff in Ht; destruct Ht as [Ht ?]).
  assert (Hu : u8 (c + 1) = c + 1) by (apply u8_small; change (2 ^ 8) with 256; lia).
  assert (Hreg : negb (isNetworkConnectedAgain o)
                 && negb (reg_ok (getRegistrationStatus o)) = false).
  { rewrite <- negb_orb. apply negb_false_iff. assumption. }
  unfold handleGprsInitAttachGprs. cbn [fst snd on_mgr].
  apply negb_true_iff in Ht. rewrite Ht. rewrite Hreg.
  apply negb_true_iff in H. rewrite H. cbn [fst snd on_mgr].
  cbn [_gprsAttachFailCount set_attachFailCount with_conn].
  rewrite Hc, Hu.
  split; intros Hle.
  - destruct (Z.geb_spec (c + 1) Config.GPRS_MAX_ATTACH_FAILURES); [lia |].
    cbn. rewrite Hst, Hc, Hu. split; reflexivity.
  - destruct (Z.geb_spec (c + 1) Config.GPRS_MAX_ATTACH_FAILURES); [| lia].
    unfold transitionToState. cbn. rewrite Hst. cbn.
    destruct (_deviceState g); cbn; rewrite Hc, Hu; split; reflexivity.
Qed.

Lemma timeouts_run os : forall s c,
  _currentGprsState (fst s) = GPRS_STATE_INIT_ATTACH_GPRS ->
  _gprsAttachFailCount (fst s) = c -> 0 <= c ->
  all_registration_timeouts os s = true ->
  (c + Z.of_nat (List.length os) <= Config.GPRS_MAX_ATTACH_FAILURES ->
   _currentGprsState (fst (run os s)) = GPRS_STATE_INIT_ATTACH_GPRS
   /\ _gprsAttachFailCount (fst (run os s)) = c + Z.of_nat (List.length os))
  /\ (os <> [] -> c + Z.of_nat (List.length os) = Config.GPRS_MAX_ATTACH_FAILURES + 1 ->
      _currentGprsState (fst (run os s)) = GPRS_STATE_ERROR_RESTART_MODEM).
Proof.
  induction os as [| o os IH]; intros s c Hst Hc Hc0 Hall.
  - cbn. split; [intros _; split; [exact Hst | lia] | congruence].
  - cbn [all_registration_timeouts] in Hall.
    apply andb_true_iff in Hall. destruct Hall as [Ho Hall].
    cbn [run List.length]. rewrite Nat2Z.inj_succ.
    unfold Config.GPRS_MAX_ATTACH_FAILURES in *.
    split.
    + intros Hle.
      destruct (timeout_step o s c Hst Hc ltac:(lia) Ho) as [Hstay _].
      destruct Hstay as [Hst1 Hc1]; [unfold Config.GPRS_MAX_ATTACH_FAILURES; lia |].
      destruct (IH (updateFSM o s) (c + 1) Hst1 Hc1 ltac:(lia) Hall) as [IH1 _].
      destruct IH1 as [Hs2 Hc2]; [lia |]. split; [exact Hs2 | lia].
    + intros _ Hlen.
      destruct os as [| o' os'].
      * cbn [run]. cbn [List.length] in Hlen.
        destruct (timeout_step o s c Hst Hc ltac:(lia) Ho) as [_ Hgo].
        apply Hgo. unfold Config.GPRS_MAX_ATTACH_FAILURES. lia.
      * destruct (timeout_step o s c Hst Hc ltac:(cbn [List.length] in Hlen; lia) Ho)
          as [Hstay _].
        destruct Hstay as [Hst1 Hc1];
          [unfold Config.GPRS_MAX_ATTACH_FAILURES; cbn [List.length] in Hlen; lia |].
        destruct (IH (updateFSM o s) (c + 1) Hst1 Hc1 ltac:(lia) Hall) as [_ IH2].
        apply IH2; [discriminate | lia].
Qed.

Lemma refusals_run os : forall s c,
  _currentGprsState (fst s) = GPRS_STATE_INIT_ATTACH_GPRS ->
  _gprsAttachFailCount (fst s) = c -> 0 <= c ->
  all_attach_refusals os = true ->
  os <> [] -> c + Z.of_nat (List.length os) = Config.GPRS_MAX_ATTACH_FAILURES ->
  _currentGprsState (fst (run os s)) = GPRS_STATE_ERROR_RESTART_MODEM.
Proof.
  induction os as [| o os IH]; intros s c Hst Hc Hc0 Hall Hne Hlen; [congruence |].
  unfold all_attach_refusals in Hall. cbn [forallb] in Hall.
  apply andb_true_iff in Hall. destruct Hall as [Ho Hall].
  cbn [run]. unfold Config.GPRS_MAX_ATTACH_FAILURES in *.
  destruct os as [| o' os'].
  - cbn [run]. cbn [List.length] in Hlen.
    destruct (refusal_step o s c Hst Hc ltac:(lia) Ho) as [_ Hgo].
    apply Hgo. unfold Config.GPRS_MAX_ATTACH_FAILURES. lia.
  - destruct (refusal_step o s c Hst Hc ltac:(cbn [List.length] in Hlen; lia) Ho)
      as [Hstay _].
    destruct Hstay as [Hst1 Hc1];
      [unfold Config.GPRS_MAX_ATTACH_FAILURES; cbn [List.length] in Hlen; lia |].
    apply (IH (updateFSM o s) (c + 1) Hst1 Hc1 ltac:(lia) Hall);
      [discriminate | cbn [List.length] in *; lia].
Qed.

(** C3.  What the code does with repeated failures in InitAttach, the
    counter starting at zero.  Registration time-outs and refused
    attaches increment the same counter, and below the ceiling the FSM
    stays in InitAttach.  GPRS_MAX_ATTACH_FAILURES refused attaches move
    the FSM to ErrorRestartModem; GPRS_MAX_ATTACH_FAILURES registration
    time-outs do not: the FSM is still in InitAttach with the counter at
    the ceiling, and only one more time-out moves it to
    ErrorRestartModem. *)
Theorem registration_timeouts_escalate_one_late
  (os os' : list ModemObs) (s : St)
  (Hst : _currentGprsState (fst s) = GPRS_STATE_INIT_ATTACH_GPRS)
  (Hcnt : _gprsAttachFailCount (fst s) = 0)
  (Hall : all_registration_timeouts os s = true)
  (Hall' : all_attach_refusals os' = true) :
  (Z.of_nat (List.length os) <= Config.GPRS_MAX_ATTACH_FAILURES ->
   _currentGprsState (fst (run os s)) = GPRS_STATE_INIT_ATTACH_GPRS
   /\ _gprsAttachFailCount (fst (run os s)) = Z.of_nat (List.length os))
  /\ (Z.of_nat (List.length os) = Config.GPRS_MAX_ATTACH_FAILURES + 1 ->
      _currentGprsState (fst (run os s)) = GPRS_STATE_ERROR_RESTART_MODEM)
  /\ (Z.of_nat (List.length os') = Config.GPRS_MAX_ATTACH_FAILURES ->
      _currentGprsState (fst (run os' s)) = GPRS_STATE_ERROR_RESTART_MODEM).
Proof.
  destruct (timeouts_run os s 0 Hst Hcnt ltac:(lia) Hall) as [H1 H2].
  split; [| split].
  - intros Hle. apply H1. lia.
  - intros Hlen. apply H2; [| lia].
    destruct os; [cbn in Hlen; unfold Config.GPRS_MAX_ATTACH_FAILURES in Hlen; lia
                 | discriminate].
  - intros Hlen. apply (refusals_run os' s 0 Hst Hcnt ltac:(lia) Hall'); [| lia].
    destruct os'; [cbn in Hlen; unfold Config.GPRS_MAX_ATTACH_FAILURES in Hlen; lia
                  | discriminate].
Qed.

(** The theorem at work: five time-outs leave the FSM in InitAttach, the
    sixth escalates; five refused attaches escalate. *)
Lemma registration_timeouts_escalate_one_late_witness :
  _currentGprsState (fst (run (Samples.registration_timeouts 5) Samples.gprs_attaching))
  = GPRS_STATE_INIT_ATTACH_GPRS
  /\ _currentGprsState (fst (run (Samples.registration_timeouts 6) Samples.gprs_attaching))
     = GPRS_STATE_ERROR_RESTART_MODEM
  /\ _currentGprsState (fst (run (Samples.attach_refusals 5) Samples.gprs_attaching))
     = GPRS_STATE_ERROR_RESTART_MODEM.
Proof.
  split; [| split].
  - apply (registration_timeouts_escalate_one_late
             (Samples.registration_timeouts 5) (Samples.attach_refusals 5)
             Samples.gprs_attaching);
      try reflexivity; try (vm_compute; discriminate).
  - apply (registration_timeouts_escalate_one_late
             (Samples.registration_timeouts 6) (Samples.attach_refusals 5)
             Samples.gprs_attaching); reflexivity.
  - apply (registration_timeouts_escalate_one_late
             (Samples.registration_timeouts 5) (Samples.attach_refusals 5)
             Samples.gprs_attaching); reflexivity.
Defined.

End AttachFailures.

(** ** The chunk loop of the cellular HTTP client *)

Section ChunkLoop.

Import GPRS.

#[local] Arguments u32 : simpl never.
#[local] Arguments s32 : simpl never.

Lemma s32_range (x : Z) : - 2 ^ 31 <= s32 x < 2 ^ 31.
Proof.
  unfold s32. change (2 ^ 31) with 2147483648. change (2 ^ 32) with 4294967296.
  pose proof (Z.mod_pos_bound (x + 2147483648) 4294967296). lia.
Qed.

Lemma u32_below_half (q : Z) :
  - 2 ^ 31 <= q < 2 ^ 31 -> u32 q < 2 ^ 31 -> u32 q = q.
Proof.
  unfold u32. change (2 ^ 31) with 2147483648. change (2 ^ 32) with 4294967296.
  intros Hq Hu. destruct (Z_lt_le_dec q 0) as [Hn | Hp].
  - exfalso. rewrite <- (Z_mod_plus_full q 1 4294967296) in Hu.
    rewrite Z.mod_small in Hu; lia.
  - apply Z.mod_small. lia.
Qed.

(** Whether the loop goes round again, and from where, does not depend
    on the body collected so far. *)
Lemma chunkRound_position (buf : string) (p : Z) (b b0 : string) :
  match chunkRound buf p b, chunkRound buf p b0 with
  | inl _, inl _ => True
  | inr (q, _), inr (q0, _) => q = q0
  | _, _ => False
  end.
Proof.
  unfold chunkRound.
  repeat match goal with
         | |- context [if ?c then _ else _] => destruct c
         end; auto.
Qed.

(** The loop goes round again only from a position inside the buffer. *)
Lemma chunkRound_inside (buf : string) (p q : Z) (b b' : string) :
  WString.length buf < 2 ^ 31 ->
  chunkRound buf p b = inr (q, b') ->
  0 <= q < WString.length buf.
Proof.
  intros Hlen. unfold chunkRound.
  destruct (WString.indexOf CRLF p buf =? -1) eqn:Ei; [discriminate |].
  assert (Hpos : 0 < WString.length buf).
  { unfold WString.indexOf in Ei.
    destruct (WString.length buf <=? u32 p) eqn:El; [discriminate Ei |].
    apply Z.leb_gt in El. unfold u32 in El.
    pose proof (Z.mod_pos_bound p (2 ^ 32) ltac:(lia)). lia. }
  destruct (strtol16 _ =? 0); [discriminate |].
  destruct (u32 _ >? WString.length buf); [discriminate |].
  match goal with
  | |- context [if ?c then _ else _] => destruct c eqn:Ec
  end; [discriminate |].
  intros E. injection E as <- _.
  rewrite Z.geb_leb in Ec. apply Z.leb_gt in Ec.
  assert (Hu : u32 (WString.length buf - 1) = WString.length buf - 1).
  { unfold u32. apply Z.mod_small. change (2 ^ 32) with 4294967296.
    change (2 ^ 31) with 2147483648 in Hlen. lia. }
  rewrite Hu in Ec.
  match goal with
  | |- 0 <= ?x < _ => pose proof (s32_range (WString.indexOf CRLF p buf + 2
                          + strtol16 (WString.substring p (WString.indexOf CRLF p buf) buf)
                          + 2)) as Hr;
                      rewrite <- (u32_below_half x Hr) by lia
  end.
  unfold u32 in *. pose proof (Z.mod_pos_bound
    (s32 (WString.indexOf CRLF p buf + 2
          + strtol16 (WString.substring p (WString.indexOf CRLF p buf) buf) + 2))
    (2 ^ 32) ltac:(lia)). lia.
Qed.

Lemma unchunk_None_iff (n : nat) (buf : string) : forall p b,
  unchunk n buf p b = None <-> chunkPosition n buf p <> None.
Proof.
  induction n as [| n IH]; intros p b; cbn [unchunk chunkPosition].
  - split; [discriminate | reflexivity].
  - pose proof (chunkRound_position buf p b EmptyString) as H.
    destruct (chunkRound buf p b) as [r | [q b']],
             (chunkRound buf p EmptyString) as [r0 | [q0 b0]];
      try contradiction.
    + split; [discriminate | intros H0; exfalso; apply H0; reflexivity].
    + subst q0. apply IH.
Qed.

Lemma chunkPosition_add (a c : nat) (buf : string) : forall p,
  chunkPosition (a + c) buf p
  = match chunkPosition a buf p with
    | Some q => chunkPosition c buf q
    | None => None
    end.
Proof.
  induction a as [| a IH]; intros p; cbn [Nat.add chunkPosition]; [reflexivity |].
  destruct (chunkRound buf p EmptyString) as [r | [q b]]; [reflexivity | apply IH].
Qed.

Lemma chunkPosition_prefix (a c : nat) (buf : string) (p : Z) :
  chunkPosition (a + c) buf p <> None -> chunkPosition a buf p <> None.
Proof.
  rewrite chunkPosition_add. destruct (chunkPosition a buf p); [discriminate | auto].
Qed.

Lemma chunkPosition_inside (n : nat) (buf : string) (p q : Z) :
  WString.length buf < 2 ^ 31 ->
  chunkPosition (S n) buf p = Some q ->
  0 <= q < WString.length buf.
Proof.
  intros Hlen. replace (S n) with (n + 1)%nat by lia. rewrite chunkPosition_add.
  destruct (chunkPosition n buf p) as [r |]; [| discriminate].
  cbn [chunkPosition].
  destruct (chunkRound buf r EmptyString) as [x | [q0 b0]] eqn:E; [discriminate |].
  intros H. injection H as <-. exact (chunkRound_inside buf r q0 _ _ Hlen E).
Qed.

(** A list longer than the range its members lie in has a member twice. *)
Lemma member_twice (l : list Z) :
  ~ NoDup l -> exists l1 x l2 l3, l = l1 ++ x :: l2 ++ x :: l3.
Proof.
  induction l as [| a l IH]; intros H.
  - exfalso. apply H. constructor.
  - destruct (in_dec Z.eq_dec a l) as [Hin | Hnin].
    + destruct (in_split a l Hin) as (l2 & l3 & ->).
      exists [], a, l2, l3. reflexivity.
    + destruct IH as (l1 & x & l2 & l3 & ->).
      { intros Hnd. apply H. constructor; assumption. }
      exists (a :: l1), x, l2, l3. reflexivity.
Qed.

Lemma crowded_list (N : nat) (l : list Z) :
  (forall x, In x l -> 0 <= x < Z.of_nat N) ->
  (N < List.length l)%nat ->
  exists l1 x l2 l3, l = l1 ++ x :: l2 ++ x :: l3.
Proof.
  intros Hr Hl. apply member_twice. intros Hnd.
  assert (Hi : incl l (map Z.of_nat (seq 0 N))).
  { intros x Hx. apply in_map_iff. exists (Z.to_nat x).
    pose proof (Hr x Hx). split; [lia | apply in_seq; lia]. }
  pose proof (NoDup_incl_length Hnd Hi) as Hle.
  rewrite length_map, length_seq in Hle. lia.
Qed.

(** A loop that has come back to a position goes on for ever. *)
Lemma chunkPosition_cycle (buf : string) (x : Z) (d : nat) :
  (0 < d)%nat ->
  chunkPosition d buf x = Some x ->
  forall m, chunkPosition m buf x <> None.
Proof.
  intros Hd Hc m. induction m as [m IH] using lt_wf_ind.
  destruct (Nat.lt_ge_cases m d) as [Hlt | Hge].
  - apply (chunkPosition_prefix m (d - m)). replace (m + (d - m))%nat with d by lia.
    rewrite Hc. discriminate.
  - replace m with (d + (m - d))%nat by lia. rewrite chunkPosition_add, Hc.
    apply IH. lia.
Qed.

(** The rounds allowed to [unchunk] are enough: when they are used up,
    no number of rounds ends the loop. *)
Lemma unchunk_never_ends (buf : string) :
  WString.length buf < 2 ^ 31 ->
  unchunk (S (String.length buf)) buf 0 EmptyString = None ->
  forall n, unchunk n buf 0 EmptyString = None.
Proof.
  intros Hlen H n. apply unchunk_None_iff. apply unchunk_None_iff in H.
  set (N := String.length buf) in *.
  set (f := fun k => match chunkPosition k buf 0 with Some q => q | None => 0 end).
  assert (Hdef : forall k, (k <= S N)%nat -> chunkPosition k buf 0 = Some (f k)).
  { intros k Hk. unfold f.
    pose proof (chunkPosition_prefix k (S N - k) buf 0) as Hp.
    replace (k + (S N - k))%nat with (S N) in Hp by lia. specialize (Hp H).
    destruct (chunkPosition k buf 0); [reflexivity | contradiction]. }
  destruct (crowded_list N (map f (seq 1 (S N)))) as (l1 & x & l2 & l3 & Hl).
  { intros y Hy. apply in_map_iff in Hy. destruct Hy as (k & <- & Hk).
    apply in_seq in Hk. destruct k as [| k]; [lia |].
    apply (chunkPosition_inside k buf 0 (f (S k)) Hlen). apply Hdef. lia. }
  { rewrite length_map, length_seq. lia. }
  assert (Hlenl : List.length (map f (seq 1 (S N))) = S N)
    by (rewrite length_map, length_seq; reflexivity).
  set (i := List.length l1).
  set (d := S (List.length l2)).
  assert (Hij : (i + d <= N)%nat).
  { rewrite Hl in Hlenl. rewrite length_app in Hlenl. cbn [List.length] in Hlenl.
    rewrite length_app in Hlenl. cbn [List.length] in Hlenl. subst i d. lia. }
  assert (Hi : f (S i) = x).
  { pose proof (f_equal (fun l => nth i l (f 0%nat)) Hl) as E. cbn beta in E.
    rewrite map_nth, seq_nth in E by lia.
    rewrite app_nth2 in E by (subst i; lia).
    replace (i - List.length l1)%nat with 0%nat in E by (subst i; lia).
    exact E. }
  assert (Hj : f (S (i + d)) = x).
  { pose proof (f_equal (fun l => nth (i + d) l (f 0%nat)) Hl) as E. cbn beta in E.
    rewrite map_nth, seq_nth in E by lia.
    rewrite app_nth2 in E by (subst i; lia).
    replace (i + d - List.length l1)%nat with (S (List.length l2)) in E by (subst i d; lia).
    cbn [nth] in E. rewrite app_nth2 in E by lia.
    replace (List.length l2 - List.length l2)%nat with 0%nat in E by lia.
    exact E. }
  assert (Hci : chunkPosition (S i) buf 0 = Some x) by (rewrite Hdef by lia; congruence).
  assert (Hcj : chunkPosition (S i + d) buf 0 = Some x)
    by (change (S i + d)%nat with (S (i + d)); rewrite Hdef by lia; congruence).
  rewrite chunkPosition_add, Hci in Hcj.
  pose proof (chunkPosition_cycle buf x d ltac:(subst d; lia) Hcj) as Hcyc.
  destruct (Nat.lt_ge_cases n (S i)) as [Hlt | Hge].
  - apply (chunkPosition_prefix n (S i - n)).
    replace (n + (S i - n))%nat with (S i) by lia. rewrite Hci. discriminate.
  - replace n with (S i + (n - S i))%nat by lia. rewrite chunkPosition_add, Hci.
    apply Hcyc.
Qed.

Lemma unchunk_more_rounds (n : nat) (buf : string) : forall p b r,
  unchunk n buf p b = Some r ->
  forall m, (n <= m)%nat -> unchunk m buf p b = Some r.
Proof.
  induction n as [| n IH]; intros p b r H m Hm; [discriminate H |].
  destruct m as [| m]; [lia |]. cbn [unchunk] in *.
  destruct (chunkRound buf p b) as [x | [q b']]; [exact H |].
  apply IH; [exact H | lia].
Qed.

(** Hence the result of [unchunk] is that of the loop of the code: more
    rounds never change it. *)
Lemma unchunk_rounds_enough (buf : string) (n : nat) :
  WString.length buf < 2 ^ 31 ->
  (S (String.length buf) <= n)%nat ->
  unchunk n buf 0 EmptyString = unchunk (S (String.length buf)) buf 0 EmptyString.
Proof.
  intros Hlen Hn.
  destruct (unchunk (S (String.length buf)) buf 0 EmptyString) as [r |] eqn:E.
  - apply (unchunk_more_rounds _ _ _ _ _ E _ Hn).
  - apply unchunk_never_ends; assumption.
Qed.

Lemma String_length_append_char (s : string) (c : ascii) :
  String.length (s ++ String c EmptyString) = S (String.length s).
Proof.
  induction s as [| a s IH]; cbn; [reflexivity | rewrite IH; reflexivity].
Qed.

Lemma receiveBody_length (bytes : string) : forall h,
  WString.length (_gprsResponseBuffer (receiveBody bytes h))
  <= Z.max (WString.length (_gprsResponseBuffer h)) (Config.GPRS_BODY_BUFFER_SIZE - 1).
Proof.
  induction bytes as [| c rest IH]; intros h; cbn [receiveBody]; [lia |].
  destruct (WString.length (_gprsResponseBuffer h) <? Config.GPRS_BODY_BUFFER_SIZE - 1)
    eqn:E; [| lia].
  apply Z.ltb_lt in E. etransitivity; [apply IH |].
  cbn [_gprsResponseBuffer with_response]. unfold WString.concat, WString.length in *.
  rewrite String_length_append_char. lia.
Qed.

(** A poll of the HTTP FSM has no result only when the chunk loop, on
    what has been received of the body, never ends. *)
Lemma poll_without_result (dj : string -> option JsonDocument) (o : HttpObs) (s : St) :
  updateHttpOperations dj o s = None ->
  WString.length (_gprsResponseBuffer (http (fst s))) < 2 ^ 31 ->
  forall n,
    unchunk n (_gprsResponseBuffer (receiveBody (incoming o) (http (fst s)))) 0 EmptyString
    = None.
Proof.
  destruct s as [g ds]. unfold updateHttpOperations. cbn [fst snd].
  destruct (negb (_asyncOperationActive (http g))); [discriminate |].
  destruct (negb (GPRSState_eqb (_currentGprsState g) GPRS_STATE_OPERATIONAL)).
  { destruct (http_in_flight (_currentHttpState (http g))); discriminate. }
  match goal with
  | |- context [match _currentHttpState (http ?G) with _ => _ end] =>
      set (g0 := G);
      assert (Hst : _currentHttpState (http g0) = BODY_RECEIVING -> http g0 = http g)
        by (subst g0; destruct (http_in_flight _ && _); [cbn; discriminate | auto])
  end.
  destruct (_currentHttpState (http g0)) eqn:Est; try discriminate.
  - destruct (u32 (ms_now o - _asyncRequestStartTime (http g0))
                >? Config.GPRS_HTTP_CONNECT_TIMEOUT_MS); [discriminate |].
    destruct (client_connect o); discriminate.
  - rewrite (Hst eq_refl).
    destruct (bodyReceiving o (http g)) as [h |] eqn:Eb; [discriminate |].
    intros _ Hlen. unfold bodyReceiving in Eb.
    destruct (negb (connected_first o) && negb (_gprsChunkedEncoding (http g))
              && ((_gprsContentLength (http g) =? 0)
                  || (_gprsBodyBytesRead (http g) <? _gprsContentLength (http g))));
      [discriminate Eb |].
    set (h1 := receiveBody (incoming o) (http g)) in *.
    assert (Hl1 : WString.length (_gprsResponseBuffer h1) < 2 ^ 31).
    { pose proof (receiveBody_length (incoming o) (http g)) as Hle. fold h1 in Hle.
      change (Config.GPRS_BODY_BUFFER_SIZE - 1) with 1023 in Hle.
      change (2 ^ 31) with 2147483648 in *. lia. }
    destruct (bodyComplete o h1) as [[[|] h2] |] eqn:Ec.
    + discriminate Eb.
    + destruct (u32 (ms_now o - _asyncRequestStartTime h2) >? Config.GPRS_HTTP_BODY_TIMEOUT_MS);
        [discriminate Eb |].
      destruct (negb (connected_last o)); discriminate Eb.
    + unfold bodyComplete in Ec.
      destruct (_gprsChunkedEncoding h1).
      * destruct (negb (WString.indexOf (CRLF ++ "0" ++ CRLF ++ CRLF) 0
                          (_gprsResponseBuffer h1) =? -1)).
        -- destruct (unchunk (S (String.length (_gprsResponseBuffer h1)))
                       (_gprsResponseBuffer h1) 0 EmptyString) as [[[|] body] |] eqn:Eu;
             try discriminate Ec.
           apply unchunk_never_ends; assumption.
        -- destruct (negb (connected_body o) && (_gprsBodyBytesRead h1 >? 0));
             discriminate Ec.
      * repeat match type of Ec with
               | (if ?c then _ else _) = None => destruct c
               end; discriminate Ec.
  - destruct (processingResponse dj g0) as [g1 ev1]. discriminate.
  - destruct (ms_check o >=? _asyncRequestStartTime (http g0)); discriminate.
Qed.

(** The loop does go on for ever on some bodies: a chunk with the size
    -6 sends it back to where it was, whatever follows. *)
Lemma chunk_loop_without_end (n : nat) :
  unchunk n Samples.looping_chunks 0 EmptyString = None
  /\ updateHttpOperations Samples.parse_any
       (Samples.socket_obs 40 0 Samples.looping_chunks)
       (Samples.gprs_reading_chunks, DeviceState_init)
     = None.
Proof.
  split; [| vm_compute; reflexivity].
  apply unchunk_never_ends; vm_compute; reflexivity.
Qed.

End ChunkLoop.

(** ** Timestamps and counters of the connection FSM *)

Section FsmBookkeeping.

Import GPRS.

#[local] Arguments u8 : simpl never.
#[local] Arguments u32 : simpl never.





Lemma conn_on_http f g : conn_of (on_http f g) = conn_of g.
Proof. reflexivity. Qed.

Lemma conn_processingResponse dj g : conn_of (fst (processingResponse dj g)) = conn_of g.
Proof.
  unfold processingResponse.
  destruct ((_gprsHttpStatusCode (http g) >=? 200) && (_gprsHttpStatusCode (http g) <? 300));
    destruct (_asyncCb (http g));
    try destruct (negb (_gprsHttpStatusCode (http g) =? 0));
    try destruct (dj (_gprsResponseBuffer (http g)));
    reflexivity.
Qed.

Lemma conn_errorStep o g : conn_of (errorStep o g) = conn_of g.
Proof.
  unfold errorStep.
  destruct (isRetryableError (_gprsHttpStatusCode (http g))
            && (_httpRetries (http g) <? Config.MAX_HTTP_RETRIES)); reflexivity.
Qed.

Lemma same_conn_facts g g' ms :
  conn_of g' = conn_of g ->
  _gprsAttachFailCount g' = _gprsAttachFailCount g
  /\ _modemResetCount g' = _modemResetCount g
  /\ (_currentGprsState g' <> _currentGprsState g ->
      _lastGprsStateTransitionTime g' = ms).
Proof.
  unfold conn_of. intros H. inversion H as [[H1 H2 H3 H4 H5]].
  repeat split; congruence.
Qed.

Lemma receiveBody_chunked (bytes : string) : forall h,
  _gprsChunkedEncoding (receiveBody bytes h) = _gprsChunkedEncoding h.
Proof.
  induction bytes as [| c rest IH]; intros h; cbn [receiveBody]; [reflexivity |].
  destruct (WString.length (_gprsResponseBuffer h) <? Config.GPRS_BODY_BUFFER_SIZE - 1);
    [| reflexivity].
  rewrite IH. reflexivity.
Qed.

Lemma bodyReceiving_hangs (o : HttpObs) (h : HttpVars) :
  bodyReceiving o h = None -> _gprsChunkedEncoding h = true.
Proof.
  unfold bodyReceiving.
  destruct (negb (connected_first o) && negb (_gprsChunkedEncoding h)
            && ((_gprsContentLength h =? 0) || (_gprsBodyBytesRead h <? _gprsContentLength h)));
    [discriminate |].
  destruct (bodyComplete o (receiveBody (incoming o) h)) as [[[|] h1] |] eqn:E.
  - discriminate.
  - destruct (u32 (ms_now o - _asyncRequestStartTime h1) >? Config.GPRS_HTTP_BODY_TIMEOUT_MS);
      [discriminate |].
    destruct (negb (connected_last o)); discriminate.
  - intros _. unfold bodyComplete in E. rewrite receiveBody_chunked in E.
    destruct (_gprsChunkedEncoding h); [reflexivity |].
    repeat match type of E with
           | (if ?c then _ else _) = None => destruct c
           end; discriminate E.
Qed.

Lemma conn_set_http h g : conn_of (set_http h g) = conn_of g.
Proof. reflexivity. Qed.

(** The one way in which a poll of the HTTP FSM touches the connection
    FSM: a socket that refuses the connection or takes less than the
    whole request sends it from Operational to ConnectionLost. *)
Lemma connection_lost_facts (ms : Z) (f : HttpVars -> HttpVars) (g : GPRSManager)
  (ds : DeviceState) :
  let s1 := if GPRSState_eqb (_currentGprsState g) GPRS_STATE_OPERATIONAL
            then transitionToState GPRS_STATE_CONNECTION_LOST ms (g, ds)
            else (g, ds) in
  let g' := fst (on_mgr (on_http f) s1) in
  _gprsAttachFailCount g' = _gprsAttachFailCount g
  /\ _modemResetCount g' = _modemResetCount g
  /\ (_currentGprsState g' <> _currentGprsState g ->
      _lastGprsStateTransitionTime g' = ms).
Proof.
  cbv zeta. destruct (GPRSState_eqb (_currentGprsState g) GPRS_STATE_OPERATIONAL) eqn:E.
  - apply GPRSState_eqb_eq in E. unfold transitionToState, on_mgr. rewrite E. cbn.
    destruct (_deviceState g); cbn; repeat split; auto.
  - cbn. repeat split; auto. intros H. exfalso. apply H. reflexivity.
Qed.

Lemma sendingRequest_conn (o : HttpObs) (g : GPRSManager) (ds : DeviceState) :
  let g' := fst (sendingRequest o (g, ds)) in
  _gprsAttachFailCount g' = _gprsAttachFailCount g
  /\ _modemResetCount g' = _modemResetCount g
  /\ (_currentGprsState g' <> _currentGprsState g ->
      _lastGprsStateTransitionTime g' = ms_transition o).
Proof.
  cbv zeta. unfold sendingRequest.
  repeat match goal with
         | |- context [if ?c then _ else _] =>
             lazymatch c with
             | GPRSState_eqb _ _ => fail
             | _ => destruct c
             end
         end.
  all: try (cbn [fst]; apply same_conn_facts; reflexivity).
  apply (connection_lost_facts (ms_transition o) (set_httpState ERROR) g ds).
Qed.

(** A poll of the HTTP FSM that returns leaves both counters alone and
    stamps the one change of state it can make; the poll that does not
    return is the one that takes the chunks out of a body. *)
Lemma http_poll_conn (dj : string -> option JsonDocument) (oh : HttpObs) (s : St) :
  match updateHttpOperations dj oh s with
  | Some (s', _) =>
      _gprsAttachFailCount (fst s') = _gprsAttachFailCount (fst s)
      /\ _modemResetCount (fst s') = _modemResetCount (fst s)
      /\ (_currentGprsState (fst s') <> _currentGprsState (fst s) ->
          _lastGprsStateTransitionTime (fst s') = ms_transition oh)
  | None =>
      _currentHttpState (http (fst s)) = BODY_RECEIVING
      /\ _gprsChunkedEncoding (http (fst s)) = true
  end.
Proof.
  destruct s as [g ds]. unfold updateHttpOperations. cbn [fst snd].
  destruct (negb (_asyncOperationActive (http g))).
  { apply same_conn_facts. reflexivity. }
  destruct (negb (GPRSState_eqb (_currentGprsState g) GPRS_STATE_OPERATIONAL)) eqn:Hop.
  { destruct (http_in_flight (_currentHttpState (http g)));
      apply same_conn_facts; reflexivity. }
  apply negb_false_iff, GPRSState_eqb_eq in Hop.
  match goal with
  | |- context [match _currentHttpState (http ?G) with _ => _ end] =>
      set (g0 := G);
      assert (Hg0 : conn_of g0 = conn_of g)
        by (subst g0; destruct (http_in_flight _ && _); reflexivity);
      assert (Hst : _currentHttpState (http g0) = BODY_RECEIVING ->
                    _currentHttpState (http g) = BODY_RECEIVING
                    /\ http g0 = http g)
        by (subst g0; destruct (http_in_flight _ && _);
            [cbn; discriminate | auto])
  end.
  assert (Hs0 : _currentGprsState g0 = GPRS_STATE_OPERATIONAL).
  { unfold conn_of in Hg0. inversion Hg0. congruence. }
  assert (Hc : forall g1, conn_of g1 = conn_of g0 ->
                 _gprsAttachFailCount g1 = _gprsAttachFailCount g
                 /\ _modemResetCount g1 = _modemResetCount g
                 /\ (_currentGprsState g1 <> _currentGprsState g ->
                     _lastGprsStateTransitionTime g1 = ms_transition oh)).
  { intros g1 H1. apply same_conn_facts. congruence. }
  assert (Hl : forall g1,
                 (_gprsAttachFailCount g1 = _gprsAttachFailCount g0
                  /\ _modemResetCount g1 = _modemResetCount g0
                  /\ (_currentGprsState g1 <> _currentGprsState g0 ->
                      _lastGprsStateTransitionTime g1 = ms_transition oh)) ->
                 _gprsAttachFailCount g1 = _gprsAttachFailCount g
                 /\ _modemResetCount g1 = _modemResetCount g
                 /\ (_currentGprsState g1 <> _currentGprsState g ->
                     _lastGprsStateTransitionTime g1 = ms_transition oh)).
  { unfold conn_of in Hg0. inversion Hg0 as [[H1 H2 H3 H4 H5]].
    intros g1. rewrite H1, H4, H5. auto. }
  destruct (_currentHttpState (http g0)) eqn:Est.
  - (* IDLE *) cbn [fst]. apply Hc. reflexivity.
  - (* CLIENT_CONNECT *)
    destruct (u32 (ms_now oh - _asyncRequestStartTime (http g0))
                >? Config.GPRS_HTTP_CONNECT_TIMEOUT_MS);
      [cbn [fst]; apply Hc; reflexivity |].
    destruct (client_connect oh); [cbn [fst]; apply Hc; reflexivity |].
    cbn [fst]. apply Hl.
    apply (connection_lost_facts (ms_transition oh) (set_httpState ERROR) g0 ds).
  - (* SENDING_REQUEST *)
    cbn [fst]. apply Hl. apply sendingRequest_conn.
  - (* HEADERS_RECEIVING *) cbn [fst]. apply Hc. reflexivity.
  - (* BODY_RECEIVING *)
    destruct (bodyReceiving oh (http g0)) as [h |] eqn:Eb.
    + cbn [fst]. apply Hc. reflexivity.
    + destruct (Hst eq_refl) as [H1 H2]. split; [exact H1 |].
      rewrite <- H2. apply (bodyReceiving_hangs oh (http g0) Eb).
  - (* PROCESSING_RESPONSE *)
    destruct (processingResponse dj g0) as [g1 ev1] eqn:Hp. cbn [fst].
    apply Hc. change g1 with (fst (g1, ev1)).
    rewrite <- Hp. apply conn_processingResponse.
  - (* COMPLETE *) cbn [fst]. apply Hc. reflexivity.
  - (* RETRY_WAIT *)
    destruct (ms_check oh >=? _asyncRequestStartTime (http g0));
      cbn [fst]; apply Hc; reflexivity.
  - (* ERROR *) cbn [fst]. apply Hc. apply conn_errorStep.
Qed.




End FsmBookkeeping.

(** ** Backoff of the main loop *)

Section Backoff.

Import Sketch.

#[local] Arguments WiFi.connect : simpl never.
#[local] Arguments GPRS.connect : simpl never.
#[local] Arguments u32 : simpl never.

Lemma double_capped_min ceiling d :
  0 <= d <= ceiling -> ceiling < 2 ^ 31 ->
  double_capped ceiling d = Z.min (d * 2) ceiling.
Proof.
  intros Hd Hc. unfold double_capped.
  rewrite u32_small by (change (2 ^ 32) with (2 * 2 ^ 31); lia).
  destruct (Z.gtb_spec (d * 2) ceiling); lia.
Qed.

Lemma backoff_app floor ceiling l1 : forall l2 d,
  backoff floor ceiling (l1 ++ l2) d = backoff floor ceiling l2 (backoff floor ceiling l1 d).
Proof.
  induction l1 as [| [|] l1 IH]; intros l2 d; cbn; [reflexivity | apply IH | apply IH].
Qed.

Lemma backoff_range floor ceiling l : forall d,
  0 <= floor <= ceiling -> 0 <= d <= ceiling ->
  0 <= backoff floor ceiling l d <= ceiling.
Proof.
  induction l as [| [|] l IH]; intros d Hf Hd; cbn; [exact Hd | apply IH | apply IH]; lia.
Qed.

Lemma backoff_failures floor ceiling l : forall d,
  0 <= d <= ceiling -> ~ In true l ->
  backoff floor ceiling l d = Z.min (d * 2 ^ Z.of_nat (List.length l)) ceiling.
Proof.
  induction l as [| b l IH]; intros d Hd Hn.
  - cbn. lia.
  - destruct b; [exfalso; apply Hn; left; reflexivity |].
    cbn [backoff List.length]. rewrite IH; [| lia | intros H; apply Hn; right; exact H].
    rewrite Nat2Z.inj_succ, Z.pow_succ_r by lia.
    assert (Hp : 0 < 2 ^ Z.of_nat (List.length l)) by (apply Z.pow_pos_nonneg; lia).
    destruct (Z.min_spec (d * 2) ceiling) as [[Hlt ->] | [Hge ->]].
    + f_equal. lia.
    + rewrite Z.min_r by nia. rewrite Z.min_r by nia. reflexivity.
Qed.

Lemma backoff_success floor ceiling l d :
  backoff floor ceiling (l ++ [true]) d = floor.
Proof. rewrite backoff_app. reflexivity. Qed.

Lemma GPRS_connect_loop_fields ms g ds :
  loop_fields (snd (snd (GPRS.connect ms (g, ds)))) = loop_fields ds.
Proof.
  unfold GPRS.connect, GPRS.transitionToState. cbn [fst snd].
  destruct (GPRSState_eqb (GPRS._currentGprsState g) GPRS_STATE_DISABLED) eqn:E;
    [| reflexivity].
  apply GPRSState_eqb_eq in E. cbn [fst snd]. rewrite E. cbn.
  destruct (GPRS._deviceState g); reflexivity.
Qed.

Lemma Facade_connect_loop_fields o s :
  loop_fields (snd (snd (fst (Facade.connect o s)))) = loop_fields (snd s).
Proof.
  destruct s as [f ds]. destruct f as [p wm gm dsp act].
  unfold Facade.connect, Facade.connect_attempt, Facade.wifi_disconnect_if_connected,
    Facade.gprs_disconnect_if_connected.
  destruct p, wm as [w |], gm as [g |]; cbn;
    rewrite ?wifi_connect_spec, ?gprs_connect_spec; cbn;
    try (destruct (fst (WiFi.connect (Facade.wifi_link o) w)); cbn;
         rewrite ?wifi_connect_spec, ?gprs_connect_spec; cbn);
    try (destruct (WiFi.isConnected (snd (WiFi.connect (Facade.wifi_link o) w))); cbn;
         rewrite ?wifi_connect_spec, ?gprs_connect_spec; cbn);
    try reflexivity; apply GPRS_connect_loop_fields.
Qed.

Lemma switchToWiFi_shared_state o s :
  snd (snd (fst (Facade.switchToWiFi o s))) = snd s.
Proof.
  destruct s as [f ds]. destruct f as [p wm gm dsp act].
  unfold Facade.switchToWiFi, Facade.gprs_disconnect_if_connected.
  destruct wm as [w |]; cbn; [| reflexivity].
  rewrite wifi_connect_spec; cbn.
  destruct (fst (WiFi.connect (Facade.wifi_link o) w)); cbn; [| reflexivity].
  destruct gm as [g |]; cbn; [destruct (GPRS.isConnected g) |]; reflexivity.
Qed.


Lemma reconnect_step_spec now o s :
  0 <= general_delay s <= Config.MAX_RETRY_DELAY_MS ->
  general_delay (fst (reconnect_step now o s))
  = backoff Config.INITIAL_RETRY_DELAY_MS Config.MAX_RETRY_DELAY_MS
      (reconnect_outcomes (snd (reconnect_step now o s))) (general_delay s)
  /\ switch_delay (fst (reconnect_step now o s)) = switch_delay s
  /\ switchback_outcomes (snd (reconnect_step now o s)) = [].
Proof.
  intros Hr. unfold reconnect_step, general_delay, switch_delay in *.
  destruct s as [nf ds]. cbn [networkFacade deviceState] in *.
  destruct nf as [f |]; [| repeat split].
  destruct (negb (Facade.isConnected f)
            && (u32 (now - lastConnectionRetryTime ds) >=? currentConnectionRetryDelayMs ds));
    [| repeat split].
  pose proof (Facade_connect_loop_fields (reconnect_obs o)
                (f, ds_set_reconnect now (currentConnectionRetryDelayMs ds) ds)) as Hl.
  destruct (Facade.connect (reconnect_obs o)
              (f, ds_set_reconnect now (currentConnectionRetryDelayMs ds) ds))
    as [[ok [f' ds2]] evs].
  cbn [fst snd] in Hl. unfold loop_fields in Hl. cbn in Hl.
  inversion Hl as [[H1 H2 H3 H4 H5]].
  cbn [fst snd deviceState networkFacade]. cbn.
  rewrite H4, H5. destruct ok; cbn.
  - repeat split.
  - rewrite double_capped_min; [repeat split | exact Hr | vm_compute; reflexivity].
Qed.

Lemma switchback_step_spec now o s :
  0 <= switch_delay s <= Config.MAX_WIFI_RETRY_WHEN_GPRS_MS ->
  switch_delay (fst (switchback_step now o s))
  = backoff Config.WIFI_RETRY_WHEN_GPRS_MS Config.MAX_WIFI_RETRY_WHEN_GPRS_MS
      (switchback_outcomes (snd (switchback_step now o s))) (switch_delay s)
  /\ general_delay (fst (switchback_step now o s)) = general_delay s
  /\ reconnect_outcomes (snd (switchback_step now o s)) = [].
Proof.
  intros Hr. unfold switchback_step, general_delay, switch_delay in *.
  destruct s as [nf ds]. cbn [networkFacade deviceState] in *.
  destruct nf as [f |]; [| repeat split].
  match goal with |- context [if ?c then _ else _] => destruct c end; [| repeat split].
  pose proof (switchToWiFi_shared_state (switch_obs o)
                (f, ds_set_switchback now (currentWiFiSwitchBackoffDelayMs ds) ds)) as Hl.
  destruct (Facade.switchToWiFi (switch_obs o)
              (f, ds_set_switchback now (currentWiFiSwitchBackoffDelayMs ds) ds))
    as [[ok [f' ds2]] evs].
  cbn [fst snd] in Hl. subst ds2.
  cbn [fst snd deviceState networkFacade]. cbn.
  destruct ok; cbn.
  - repeat split.
  - rewrite double_capped_min; [repeat split | exact Hr | vm_compute; reflexivity].
Qed.

Lemma reconnect_outcomes_app a b :
  reconnect_outcomes (a ++ b) = reconnect_outcomes a ++ reconnect_outcomes b.
Proof. apply flat_map_app. Qed.

Lemma switchback_outcomes_app a b :
  switchback_outcomes (a ++ b) = switchback_outcomes a ++ switchback_outcomes b.
Proof. apply flat_map_app. Qed.

Lemma handleNetworkConnection_spec now o s :
  0 <= general_delay s <= Config.MAX_RETRY_DELAY_MS ->
  0 <= switch_delay s <= Config.MAX_WIFI_RETRY_WHEN_GPRS_MS ->
  general_delay (fst (handleNetworkConnection now o s))
  = backoff Config.INITIAL_RETRY_DELAY_MS Config.MAX_RETRY_DELAY_MS
      (reconnect_outcomes (snd (handleNetworkConnection now o s))) (general_delay s)
  /\ switch_delay (fst (handleNetworkConnection now o s))
     = backoff Config.WIFI_RETRY_WHEN_GPRS_MS Config.MAX_WIFI_RETRY_WHEN_GPRS_MS
         (switchback_outcomes (snd (handleNetworkConnection now o s))) (switch_delay s).
Proof.
  intros Hg Hw. unfold handleNetworkConnection.
  destruct (reconnect_step_spec now o s Hg) as [G1 [W1 O1]].
  destruct (reconnect_step now o s) as [s1 a1]. cbn [fst snd] in *.
  assert (Hw1 : 0 <= switch_delay s1 <= Config.MAX_WIFI_RETRY_WHEN_GPRS_MS)
    by (rewrite W1; exact Hw).
  destruct (switchback_step_spec now o s1 Hw1) as [W2 [G2 O2]].
  destruct (switchback_step now o s1) as [s2 a2]. cbn [fst snd] in *.
  rewrite reconnect_outcomes_app, switchback_outcomes_app, O1, O2, app_nil_r.
  cbn [app]. split; congruence.
Qed.

Lemma polls_spec ps : forall s,
  0 <= general_delay s <= Config.MAX_RETRY_DELAY_MS ->
  0 <= switch_delay s <= Config.MAX_WIFI_RETRY_WHEN_GPRS_MS ->
  general_delay (fst (polls ps s))
  = backoff Config.INITIAL_RETRY_DELAY_MS Config.MAX_RETRY_DELAY_MS
      (reconnect_outcomes (snd (polls ps s))) (general_delay s)
  /\ switch_delay (fst (polls ps s))
     = backoff Config.WIFI_RETRY_WHEN_GPRS_MS Config.MAX_WIFI_RETRY_WHEN_GPRS_MS
         (switchback_outcomes (snd (polls ps s))) (switch_delay s).
Proof.
  induction ps as [| [now o] ps IH]; intros s Hg Hw.
  - cbn. split; reflexivity.
  - cbn [polls].
    destruct (handleNetworkConnection_spec now o s Hg Hw) as [G1 W1].
    destruct (handleNetworkConnection now o s) as [s1 a1]. cbn [fst snd] in *.
    assert (Hg1 : 0 <= general_delay s1 <= Config.MAX_RETRY_DELAY_MS).
    { rewrite G1. apply backoff_range; [vm_compute; split; discriminate | exact Hg]. }
    assert (Hw1 : 0 <= switch_delay s1 <= Config.MAX_WIFI_RETRY_WHEN_GPRS_MS).
    { rewrite W1. apply backoff_range; [vm_compute; split; discriminate | exact Hw]. }
    destruct (IH s1 Hg1 Hw1) as [G2 W2].
    destruct (polls ps s1) as [s2 a2]. cbn [fst snd] in *.
    rewrite reconnect_outcomes_app, switchback_outcomes_app, !backoff_app.
    split; congruence.
Qed.

Lemma Facade_connect_result o f ds ds' :
  fst (fst (Facade.connect o (f, ds))) = fst (fst (Facade.connect o (f, ds'))).
Proof.
  destruct f as [p wm gm dsp act].
  unfold Facade.connect, Facade.connect_attempt, Facade.wifi_disconnect_if_connected,
    Facade.gprs_disconnect_if_connected.
  destruct p, wm as [w |], gm as [g |]; cbn;
    rewrite ?wifi_connect_spec, ?gprs_connect_spec; cbn;
    try (destruct (fst (WiFi.connect (Facade.wifi_link o) w)); cbn;
         rewrite ?wifi_connect_spec, ?gprs_connect_spec; cbn);
    try (destruct (WiFi.isConnected (snd (WiFi.connect (Facade.wifi_link o) w))); cbn;
         rewrite ?wifi_connect_spec, ?gprs_connect_spec; cbn);
    reflexivity.
Qed.

Lemma switchToWiFi_result o f ds ds' :
  fst (fst (Facade.switchToWiFi o (f, ds))) = fst (fst (Facade.switchToWiFi o (f, ds'))).
Proof.
  destruct f as [p wm gm dsp act].
  unfold Facade.switchToWiFi, Facade.gprs_disconnect_if_connected.
  destruct wm as [w |]; cbn; [| reflexivity].
  rewrite !wifi_connect_spec; cbn.
  destruct (fst (WiFi.connect (Facade.wifi_link o) w)); cbn; [| reflexivity].
  destruct gm as [g |]; cbn; [destruct (GPRS.isConnected g) |]; reflexivity.
Qed.

(** The first statement of [handleNetworkConnection], call by call: an
    attempt is made exactly when its guard holds, its outcome is what
    [connect()] of the facade returns, and the delay is doubled or reset
    accordingly. *)
Lemma reconnect_step_attempts now o s f :
  0 <= general_delay s <= Config.MAX_RETRY_DELAY_MS ->
  networkFacade s = Some f ->
  let due := negb (Facade.isConnected f)
             && (u32 (now - lastConnectionRetryTime (deviceState s)) >=? general_delay s) in
  let ok := fst (fst (Facade.connect (reconnect_obs o) (f, deviceState s))) in
  snd (reconnect_step now o s) = (if due then [Reconnect ok] else [])
  /\ general_delay (fst (reconnect_step now o s))
     = (if due
        then if ok then Config.INITIAL_RETRY_DELAY_MS
             else Z.min (general_delay s * 2) Config.MAX_RETRY_DELAY_MS
        else general_delay s)
  /\ switch_delay (fst (reconnect_step now o s)) = switch_delay s
  /\ lastWiFiRetryWhenGprsTime (deviceState (fst (reconnect_step now o s)))
     = lastWiFiRetryWhenGprsTime (deviceState s).
Proof.
  intros Hr Hf. cbv zeta. unfold reconnect_step, general_delay, switch_delay in *.
  destruct s as [nf ds]. cbn [networkFacade deviceState] in *. subst nf.
  destruct (negb (Facade.isConnected f)
            && (u32 (now - lastConnectionRetryTime ds) >=? currentConnectionRetryDelayMs ds));
    [| repeat split].
  pose proof (Facade_connect_loop_fields (reconnect_obs o)
                (f, ds_set_reconnect now (currentConnectionRetryDelayMs ds) ds)) as Hl.
  pose proof (Facade_connect_result (reconnect_obs o) f
                (ds_set_reconnect now (currentConnectionRetryDelayMs ds) ds) ds) as Hres.
  destruct (Facade.connect (reconnect_obs o)
              (f, ds_set_reconnect now (currentConnectionRetryDelayMs ds) ds))
    as [[ok [f' ds2]] evs].
  cbn [fst snd] in Hl, Hres. unfold loop_fields in Hl. cbn in Hl.
  inversion Hl as [[H1 H2 H3 H4 H5]]. rewrite <- Hres.
  cbn [fst snd deviceState networkFacade]. cbn.
  rewrite H4, H5, H2. destruct ok; cbn.
  - repeat split.
  - rewrite double_capped_min; [repeat split | exact Hr | vm_compute; reflexivity].
Qed.

(** The second statement, call by call: the guard, the outcome (what
    [switchToWiFi()] of the facade returns) and the delay. *)
Lemma switchback_step_attempts now o s f :
  0 <= switch_delay s <= Config.MAX_WIFI_RETRY_WHEN_GPRS_MS ->
  networkFacade s = Some f ->
  let due := match Facade.getPreference f with
             | Facade.WIFI_PREFERRED => true
             | _ => false
             end
             && Facade.present (Facade.getWiFiManager f)
             && current_is_gprs f
             && Facade.isConnected f
             && (u32 (now - lastWiFiRetryWhenGprsTime (deviceState s)) >=? switch_delay s) in
  let ok := fst (fst (Facade.switchToWiFi (switch_obs o) (f, deviceState s))) in
  snd (switchback_step now o s) = (if due then [SwitchBack ok] else [])
  /\ switch_delay (fst (switchback_step now o s))
     = (if due
        then if ok then Config.WIFI_RETRY_WHEN_GPRS_MS
             else Z.min (switch_delay s * 2) Config.MAX_WIFI_RETRY_WHEN_GPRS_MS
        else switch_delay s)
  /\ general_delay (fst (switchback_step now o s)) = general_delay s.
Proof.
  intros Hr Hf. cbv zeta. unfold switchback_step, general_delay, switch_delay in *.
  destruct s as [nf ds]. cbn [networkFacade deviceState] in *. subst nf.
  match goal with |- context [if ?c then _ else _] => destruct c end; [| repeat split].
  pose proof (switchToWiFi_shared_state (switch_obs o)
                (f, ds_set_switchback now (currentWiFiSwitchBackoffDelayMs ds) ds)) as Hl.
  pose proof (switchToWiFi_result (switch_obs o) f
                (ds_set_switchback now (currentWiFiSwitchBackoffDelayMs ds) ds) ds) as Hres.
  destruct (Facade.switchToWiFi (switch_obs o)
              (f, ds_set_switchback now (currentWiFiSwitchBackoffDelayMs ds) ds))
    as [[ok [f' ds2]] evs].
  cbn [fst snd] in Hl, Hres. subst ds2. rewrite <- Hres.
  cbn [fst snd deviceState networkFacade]. cbn.
  destruct ok; cbn.
  - repeat split.
  - rewrite double_capped_min; [repeat split | exact Hr | vm_compute; reflexivity].
Qed.

Lemma steps_without_facade now o s :
  networkFacade s = None -> handleNetworkConnection now o s = (s, []).
Proof.
  intros H. unfold handleNetworkConnection, reconnect_step, switchback_step.
  rewrite H. cbn. rewrite H. reflexivity.
Qed.

(** C6.  Over any sequence of calls of [handleNetworkConnection], each
    of the two backoff delays of the shared state follows its own
    schedule over the attempts made: a failed attempt doubles the delay,
    capped at the ceiling, a successful one resets it to the floor, and a
    call without attempt leaves it alone.  Hence N consecutive failures
    from the floor give min(floor * 2^N, ceiling), one success gives the
    floor again, and the switch-back delay, driven by the switch-back
    attempts only, is never reset without a successful switch-back.
    The attempts are those of the code: in every call a reconnect is
    attempted exactly when the facade reports disconnected and the
    general delay has elapsed, with the result of the facade's
    [connect()] as its outcome; a switch back is attempted exactly when
    WiFi is preferred and present, the cellular manager is the current
    and connected interface and the switch-back delay has elapsed, with
    the result of [switchToWiFi()] as its outcome. *)
Theorem backoff_schedules (ps : list (Z * LoopObs)) (s : Globals)
  (Hg : 0 <= general_delay s <= Config.MAX_RETRY_DELAY_MS)
  (Hw : 0 <= switch_delay s <= Config.MAX_WIFI_RETRY_WHEN_GPRS_MS) :
  let reconnects := reconnect_outcomes (snd (polls ps s)) in
  let switches := switchback_outcomes (snd (polls ps s)) in
  general_delay (fst (polls ps s))
  = backoff Config.INITIAL_RETRY_DELAY_MS Config.MAX_RETRY_DELAY_MS
      reconnects (general_delay s)
  /\ switch_delay (fst (polls ps s))
     = backoff Config.WIFI_RETRY_WHEN_GPRS_MS Config.MAX_WIFI_RETRY_WHEN_GPRS_MS
         switches (switch_delay s)
  /\ (general_delay s = Config.INITIAL_RETRY_DELAY_MS ->
      ~ In true reconnects ->
      general_delay (fst (polls ps s))
      = Z.min (Config.INITIAL_RETRY_DELAY_MS * 2 ^ Z.of_nat (List.length reconnects))
          Config.MAX_RETRY_DELAY_MS)
  /\ (switch_delay s = Config.WIFI_RETRY_WHEN_GPRS_MS ->
      ~ In true switches ->
      switch_delay (fst (polls ps s))
      = Z.min (Config.WIFI_RETRY_WHEN_GPRS_MS * 2 ^ Z.of_nat (List.length switches))
          Config.MAX_WIFI_RETRY_WHEN_GPRS_MS)
  /\ (forall l, reconnects = l ++ [true] ->
      general_delay (fst (polls ps s)) = Config.INITIAL_RETRY_DELAY_MS)
  /\ (forall l, switches = l ++ [true] ->
      switch_delay (fst (polls ps s)) = Config.WIFI_RETRY_WHEN_GPRS_MS)
  /\ (~ In true switches ->
      switch_delay (fst (polls ps s))
      = Z.min (switch_delay s * 2 ^ Z.of_nat (List.length switches))
          Config.MAX_WIFI_RETRY_WHEN_GPRS_MS)
  (* both delays stay within their ceilings *)
  /\ (0 <= general_delay (fst (polls ps s)) <= Config.MAX_RETRY_DELAY_MS
      /\ 0 <= switch_delay (fst (polls ps s)) <= Config.MAX_WIFI_RETRY_WHEN_GPRS_MS)
  (* one call: the reconnect attempt *)
  /\ (forall now o f,
        networkFacade s = Some f ->
        let due := negb (Facade.isConnected f)
                   && (u32 (now - lastConnectionRetryTime (deviceState s))
                         >=? general_delay s) in
        let ok := fst (fst (Facade.connect (reconnect_obs o) (f, deviceState s))) in
        reconnect_outcomes (snd (handleNetworkConnection now o s))
        = (if due then [ok] else [])
        /\ general_delay (fst (handleNetworkConnection now o s))
           = (if due
              then if ok then Config.INITIAL_RETRY_DELAY_MS
                   else Z.min (general_delay s * 2) Config.MAX_RETRY_DELAY_MS
              else general_delay s))
  (* one call: the switch-back attempt, on the facade as the reconnect
     statement leaves it *)
  /\ (forall now o f1,
        networkFacade (fst (reconnect_step now o s)) = Some f1 ->
        let due := match Facade.getPreference f1 with
                   | Facade.WIFI_PREFERRED => true
                   | _ => false
                   end
                   && Facade.present (Facade.getWiFiManager f1)
                   && current_is_gprs f1
                   && Facade.isConnected f1
                   && (u32 (now - lastWiFiRetryWhenGprsTime (deviceState s))
                         >=? switch_delay s) in
        let ok := fst (fst (Facade.switchToWiFi (switch_obs o) (f1, deviceState s))) in
        switchback_outcomes (snd (handleNetworkConnection now o s))
        = (if due then [ok] else [])
        /\ switch_delay (fst (handleNetworkConnection now o s))
           = (if due
              then if ok then Config.WIFI_RETRY_WHEN_GPRS_MS
                   else Z.min (switch_delay s * 2) Config.MAX_WIFI_RETRY_WHEN_GPRS_MS
              else switch_delay s))
  (* one call before [setup()] has made the facade *)
  /\ (forall now o, networkFacade s = None -> handleNetworkConnection now o s = (s, [])).
Proof.
  cbv zeta. destruct (polls_spec ps s Hg Hw) as [G W].
  split; [exact G |]. split; [exact W |].
  split; [| split; [| split; [| split; [| split; [| split; [| split; [| split]]]]]]].
  - intros Hf Hn. rewrite G, Hf.
    apply backoff_failures; [vm_compute; split; discriminate | exact Hn].
  - intros Hf Hn. rewrite W, Hf.
    apply backoff_failures; [vm_compute; split; discriminate | exact Hn].
  - intros l Hl. rewrite G, Hl. apply backoff_success.
  - intros l Hl. rewrite W, Hl. apply backoff_success.
  - intros Hn. rewrite W. apply backoff_failures; [exact Hw | exact Hn].
  - rewrite G, W.
    split; (apply backoff_range; [vm_compute; split; discriminate | assumption]).
  - intros now o f Hf.
    destruct (reconnect_step_attempts now o s f Hg Hf) as (A1 & A2 & A3 & A4).
    cbv zeta in A1, A2. unfold handleNetworkConnection.
    destruct (reconnect_step now o s) as [s1 a1]. cbn [fst snd] in *.
    assert (Hw1 : 0 <= switch_delay s1 <= Config.MAX_WIFI_RETRY_WHEN_GPRS_MS)
      by (rewrite A3; exact Hw).
    destruct (switchback_step_spec now o s1 Hw1) as (_ & B2 & B3).
    destruct (switchback_step now o s1) as [s2 a2]. cbn [fst snd] in *.
    rewrite reconnect_outcomes_app, B3, app_nil_r, B2, A2, A1.
    split; [| reflexivity].
    destruct (negb (Facade.isConnected f) && _); reflexivity.
  - intros now o f1 Hf1.
    destruct (reconnect_step_spec now o s Hg) as (_ & A3 & A5).
    assert (A4 : lastWiFiRetryWhenGprsTime (deviceState (fst (reconnect_step now o s)))
                 = lastWiFiRetryWhenGprsTime (deviceState s)).
    { destruct (networkFacade s) as [f |] eqn:Hf.
      - apply (reconnect_step_attempts now o s f Hg Hf).
      - unfold reconnect_step. rewrite Hf. reflexivity. }
    unfold handleNetworkConnection.
    destruct (reconnect_step now o s) as [s1 a1]. cbn [fst snd] in *.
    assert (Hw1 : 0 <= switch_delay s1 <= Config.MAX_WIFI_RETRY_WHEN_GPRS_MS)
      by (rewrite A3; exact Hw).
    destruct (switchback_step_attempts now o s1 f1 Hw1 Hf1) as (B1 & B2 & _).
    cbv zeta in B1, B2.
    rewrite (switchToWiFi_result (switch_obs o) f1 (deviceState s1) (deviceState s))
      in B1, B2.
    rewrite A4, A3 in B1, B2.
    destruct (switchback_step now o s1) as [s2 a2]. cbn [fst snd] in *.
    rewrite switchback_outcomes_app, A5, B1, B2. cbn [app].
    split; [| reflexivity].
    match goal with |- context [if ?c then _ else _] => destruct c end; reflexivity.
  - intros now o. apply steps_without_facade.
Qed.

(** The theorem at work: three calls during which a WiFi-only facade
    fails to reconnect take the general delay from 15 s to 120 s, and
    two failed attempts to switch back from the cellular fallback take
    the switch-back delay from 15 minutes to its ceiling of one hour. *)
Lemma backoff_schedules_witness :
  general_delay
    (fst (polls (Samples.failing_polls 3) (Samples.sketch_with Samples.facade_wifi_only)))
  = 120000
  /\ switch_delay
       (fst (polls [(1000000, Samples.loop_obs Samples.link_never 1000000);
                    (3000000, Samples.loop_obs Samples.link_never 3000000)]
               (Samples.sketch_with Samples.facade_on_gprs)))
     = 3600000.
Proof.
  split.
  - pose proof (backoff_schedules (Samples.failing_polls 3)
                  (Samples.sketch_with Samples.facade_wifi_only)) as H.
    cbv zeta in H.
    destruct H as [_ [_ [H _]]];
      [vm_compute; split; discriminate | vm_compute; split; discriminate |].
    rewrite H; [reflexivity | reflexivity |].
    vm_compute. intros [E | [E | [E | []]]]; discriminate E.
  - pose proof (backoff_schedules
                  [(1000000, Samples.loop_obs Samples.link_never 1000000);
                   (3000000, Samples.loop_obs Samples.link_never 3000000)]
                  (Samples.sketch_with Samples.facade_on_gprs)) as H.
    cbv zeta in H.
    destruct H as [_ [_ [_ [H _]]]];
      [vm_compute; split; discriminate | vm_compute; split; discriminate |].
    rewrite H; [reflexivity | reflexivity |].
    vm_compute. intros [E | [E | []]]; discriminate E.
Defined.

End Backoff.

(** * Further properties of the code

    What the functions above guarantee beyond the statements of the
    specification: the shape of the cellular FSM, the life of a request
    on each transport, the splitting of URLs, and the bookkeeping of the
    facade and of the main loop. *)

Ltac bool_to_Z :=
  repeat match goal with
         | H : (_ >=? _) = true |- _ => rewrite Z.geb_leb in H; apply Z.leb_le in H
         | H : (_ >=? _) = false |- _ => rewrite Z.geb_leb in H; apply Z.leb_gt in H
         | H : (_ >? _) = true |- _ => rewrite Z.gtb_ltb in H; apply Z.ltb_lt in H
         | H : (_ >? _) = false |- _ => rewrite Z.gtb_ltb in H; apply Z.ltb_ge in H
         | H : (_ <? _) = true |- _ => apply Z.ltb_lt in H
         | H : (_ <? _) = false |- _ => apply Z.ltb_ge in H
         | H : (_ <=? _) = true |- _ => apply Z.leb_le in H
         | H : (_ <=? _) = false |- _ => apply Z.leb_gt in H
         | H : (_ =? _) = true |- _ => apply Z.eqb_eq in H
         | H : (_ =? _) = false |- _ => apply Z.eqb_neq in H
         end.

(** Closed facts about concrete configurations. *)
Ltac by_computation :=
  vm_compute; repeat split; first [reflexivity | discriminate].

Ltac case_ifs :=
  repeat match goal with
         | |- context [if ?b then _ else _] => destruct b eqn:?
         end.

Lemma u8_succ c : 0 <= c < 255 -> u8 (c + 1) = c + 1.
Proof. intros H. apply u8_small. change (2 ^ 8) with 256. lia. Qed.

(** A poll that comes before a start time lying at most the retry delay
    ahead sees an elapsed time that has wrapped around. *)
Lemma early_poll_wraps now start :
  0 <= now < start -> start < 2 ^ 32 -> start - now <= Config.HTTP_RETRY_DELAY_MS ->
  60000 < u32 (now - start).
Proof.
  intros H1 H2 H3. unfold u32, Config.HTTP_RETRY_DELAY_MS in *.
  change (2 ^ 32) with 4294967296 in *.
  replace (now - start) with ((now - start + 4294967296) + (-1) * 4294967296) by ring.
  rewrite Z.mod_add by lia. rewrite Z.mod_small by lia. lia.
Qed.

(** ** The cellular connection FSM *)

Section ConnectionFsm.

Import GPRS.

#[local] Arguments u8 : simpl never.
#[local] Arguments u32 : simpl never.

Ltac unfold_handlers :=
  unfold handleGprsInitStart, handleGprsInitWaitSerial, handleGprsInitResetModem,
         handleGprsInitAttachGprs, handleGprsOperational, handleGprsConnectionLost,
         handleGprsReconnecting, handleGprsErrorRestartModem, handleGprsErrorModemFail.

Ltac conn_fields :=
  cbn [fst snd on_mgr _modemResetCount _gprsReconnectAttempt _gprsAttachFailCount
       set_modemResetCount set_reconnectAttempt set_attachFailCount set_state
       set_lastTransition with_conn GPRSState_eqb GPRSState_eq_dec
       _simPin _currentGprsState _lastGprsStateTransitionTime _deviceState].

Lemma transitionToState_state n ms s :
  _currentGprsState (fst (transitionToState n ms s)) = n.
Proof.
  destruct s as [g ds]. unfold transitionToState.
  destruct (GPRSState_eqb (_currentGprsState g) n) eqn:E.
  - apply GPRSState_eqb_eq in E. exact E.
  - destruct (GPRSState_eqb n GPRS_STATE_RECONNECTING),
             (GPRSState_eqb n GPRS_STATE_INIT_START); reflexivity.
Qed.

(** X1.  The transition graph of the cellular FSM.  One poll leaves
    Disabled alone; takes InitStart to InitWaitSerial or InitResetModem;
    keeps InitWaitSerial or takes it to InitResetModem or
    ErrorRestartModem; takes InitResetModem to InitAttach,
    ErrorRestartModem or ErrorModemFail; keeps InitAttach or takes it to
    Operational or ErrorRestartModem; keeps Operational or takes it to
    ConnectionLost; takes ConnectionLost to Reconnecting; keeps
    Reconnecting or takes it to InitAttach or ErrorRestartModem; keeps
    ErrorRestartModem or takes it to InitResetModem; keeps ErrorModemFail
    or takes it to Disabled.  In particular Operational is entered from
    InitAttach only. *)
Theorem updateFSM_successors (o : ModemObs) (s : St) :
  let next := _currentGprsState (fst (updateFSM o s)) in
  match _currentGprsState (fst s) with
  | GPRS_STATE_DISABLED => next = GPRS_STATE_DISABLED
  | GPRS_STATE_INIT_START =>
      next = GPRS_STATE_INIT_WAIT_SERIAL \/ next = GPRS_STATE_INIT_RESET_MODEM
  | GPRS_STATE_INIT_WAIT_SERIAL =>
      next = GPRS_STATE_INIT_WAIT_SERIAL \/ next = GPRS_STATE_INIT_RESET_MODEM
      \/ next = GPRS_STATE_ERROR_RESTART_MODEM
  | GPRS_STATE_INIT_RESET_MODEM =>
      next = GPRS_STATE_INIT_ATTACH_GPRS \/ next = GPRS_STATE_ERROR_RESTART_MODEM
      \/ next = GPRS_STATE_ERROR_MODEM_FAIL
  | GPRS_STATE_INIT_ATTACH_GPRS =>
      next = GPRS_STATE_INIT_ATTACH_GPRS \/ next = GPRS_STATE_OPERATIONAL
      \/ next = GPRS_STATE_ERROR_RESTART_MODEM
  | GPRS_STATE_OPERATIONAL =>
      next = GPRS_STATE_OPERATIONAL \/ next = GPRS_STATE_CONNECTION_LOST
  | GPRS_STATE_CONNECTION_LOST => next = GPRS_STATE_RECONNECTING
  | GPRS_STATE_RECONNECTING =>
      next = GPRS_STATE_RECONNECTING \/ next = GPRS_STATE_INIT_ATTACH_GPRS
      \/ next = GPRS_STATE_ERROR_RESTART_MODEM
  | GPRS_STATE_ERROR_RESTART_MODEM =>
      next = GPRS_STATE_ERROR_RESTART_MODEM \/ next = GPRS_STATE_INIT_RESET_MODEM
  | GPRS_STATE_ERROR_MODEM_FAIL =>
      next = GPRS_STATE_ERROR_MODEM_FAIL \/ next = GPRS_STATE_DISABLED
  end.
Proof.
  destruct s as [g ds]. unfold updateFSM. cbn [fst snd].
  destruct (_deviceState g); cbn [fst snd]; destruct (_currentGprsState g) eqn:Hs;
    cbn zeta.
  all: unfold_handlers.
  all: case_ifs.
  all: rewrite ?transitionToState_state;
    cbn [on_mgr fst snd set_lastTransition set_attachFailCount with_conn _currentGprsState];
    rewrite ?Hs; auto 6.
Qed.

(** X2.  Bringing the link up takes three polls.  From Disabled,
    [connect()] followed by a poll that finds the serial line answering,
    a poll whose soft reset succeeds and leaves the SIM ready (an unlock,
    if one is needed, succeeding), and a poll
    that finds the modem registered with its data context up, reaches
    Operational with all counters at zero, the state being mirrored to
    the shared record; [isConnected()] is false at every earlier point. *)
Theorem bring_up_takes_three_polls (ms : Z) (o1 o2 o3 : ModemObs) (s : St) :
  _currentGprsState (fst s) = GPRS_STATE_DISABLED ->
  testAT o1 = true ->
  restart o2 = true -> testAT o2 = true ->
  simUnlock o2 = true -> simStatusCheck o2 = SIM_READY ->
  isNetworkConnected o3 = true -> isGprsConnected_modem o3 = true ->
  let started := snd (connect ms s) in
  isConnected (fst started) = false /\
  isConnected (fst (run [o1] started)) = false /\
  isConnected (fst (run [o1; o2] started)) = false /\
  conn_of (fst (run [o1; o2; o3] started)) = (GPRS_STATE_OPERATIONAL, ms_trans o3, 0, 0, 0) /\
  (_deviceState (fst s) = true ->
   currentGprsState (snd (run [o1; o2; o3] started)) = GPRS_STATE_OPERATIONAL).
Proof.
  destruct s as [g ds]. destruct g as [apn us pw pin tok dsp st last rc mr af h].
  cbn [fst _currentGprsState]. intros -> H1 H2r H2t H2u H2s H3n H3g.
  cbn zeta.
  (* connect() *)
  set (g0 := {| _apn := apn; _gprsUser := us; _gprsPass := pw; _simPin := pin;
                _authToken := tok; _deviceState := dsp;
                _currentGprsState := GPRS_STATE_INIT_START;
                _lastGprsStateTransitionTime := ms; _gprsReconnectAttempt := 0;
                _modemResetCount := 0; _gprsAttachFailCount := 0; http := h |}).
  assert (E0 : exists ds0, snd (connect ms
                 ({| _apn := apn; _gprsUser := us; _gprsPass := pw; _simPin := pin;
                     _authToken := tok; _deviceState := dsp;
                     _currentGprsState := GPRS_STATE_DISABLED;
                     _lastGprsStateTransitionTime := last; _gprsReconnectAttempt := rc;
                     _modemResetCount := mr; _gprsAttachFailCount := af; http := h |}, ds))
               = (g0, ds0)).
  { unfold connect. cbn [fst snd _currentGprsState GPRSState_eqb GPRSState_eq_dec].
    cbn. destruct dsp; eexists; reflexivity. }
  destruct E0 as [ds0 E0]. rewrite E0. clear E0.
  (* first poll *)
  set (g1 := with_conn GPRS_STATE_INIT_RESET_MODEM (ms_trans o1) 0 0 0 g0).
  assert (E1 : exists ds1, updateFSM o1 (g0, ds0) = (g1, ds1)).
  { unfold updateFSM, handleGprsInitStart, checkModemSerial. rewrite H1.
    subst g0 g1. destruct dsp; cbn; eexists; reflexivity. }
  destruct E1 as [ds1 E1].
  (* second poll *)
  set (g2 := with_conn GPRS_STATE_INIT_ATTACH_GPRS (ms_trans o2) 0 0 0 g0).
  assert (E2 : exists ds2, updateFSM o2 (g1, ds1) = (g2, ds2)).
  { unfold updateFSM, handleGprsInitResetModem, performModemSoftReset, checkModemSerial.
    rewrite H2r, H2t, H2u, H2s.
    subst g0 g1 g2. destruct dsp; cbn; rewrite ?andb_false_r; cbn; eexists; reflexivity. }
  destruct E2 as [ds2 E2].
  (* third poll *)
  set (g3 := with_conn GPRS_STATE_OPERATIONAL (ms_trans o3) 0 0 0 g0).
  assert (E3 : exists ds3, updateFSM o3 (g2, ds2) = (g3, ds3)
                 /\ (dsp = true -> currentGprsState ds3 = GPRS_STATE_OPERATIONAL)).
  { unfold updateFSM, handleGprsInitAttachGprs.
    rewrite H3n, H3g.
    subst g0 g2 g3. destruct dsp; cbn; eexists; (split; [reflexivity |]); intros;
      try discriminate; reflexivity. }
  destruct E3 as [ds3 [E3 M3]].
  cbn [run]. rewrite E1, E2, E3. cbn [fst snd].
  subst g0 g1 g2 g3. cbn. auto.
Qed.
Lemma bring_up_takes_three_polls_witness :
  conn_of (fst (run [Samples.healthy_modem 10; Samples.healthy_modem 20;
                     Samples.healthy_modem 30]
                  (snd (connect 5 (Samples.gprs_disabled, DeviceState_init)))))
  = (GPRS_STATE_OPERATIONAL, 30, 0, 0, 0).
Proof.
  pose proof (bring_up_takes_three_polls 5 (Samples.healthy_modem 10)
                (Samples.healthy_modem 20) (Samples.healthy_modem 30)
                (Samples.gprs_disabled, DeviceState_init)
                eq_refl eq_refl eq_refl eq_refl eq_refl eq_refl eq_refl eq_refl) as H.
  cbv zeta in H. destruct H as (_ & _ & _ & H & _). exact H.
Defined.

(** X3.  ErrorModemFail is entered by a failed reset only.  From any
    other state, a poll ends in ErrorModemFail exactly when the FSM was
    in InitResetModem, the reset it tried failed, and two failures had
    already been counted.  A reset that succeeds never leads there, even
    when the SIM stays locked or is not ready. *)
Theorem modem_fail_entered_only_by_failed_reset (o : ModemObs) (s : St) :
  _currentGprsState (fst s) <> GPRS_STATE_ERROR_MODEM_FAIL ->
  0 <= _modemResetCount (fst s) < 255 ->
  (_currentGprsState (fst (updateFSM o s)) = GPRS_STATE_ERROR_MODEM_FAIL <->
   _currentGprsState (fst s) = GPRS_STATE_INIT_RESET_MODEM /\
   reset_succeeds o (fst s) = false /\
   2 <= _modemResetCount (fst s)).
Proof.
  destruct s as [g ds]. destruct g as [apn us pw pin tok dsp st last rc mr af h].
  cbn [fst _currentGprsState _modemResetCount]. intros Hst Hc.
  pose proof (u8_succ mr Hc) as Hu.
  unfold updateFSM, reset_succeeds. cbn [fst snd _deviceState _currentGprsState _modemResetCount].
  destruct st; try congruence.
  all: destruct dsp; cbn [fst snd _currentGprsState]; cbn match.
  all: unfold_handlers.
  all: cbn [fst snd on_mgr _modemResetCount set_modemResetCount with_conn _simPin].
  all: rewrite ?Hu.
  all: case_ifs.
  all: rewrite ?transitionToState_state.
  all: cbn [fst snd on_mgr set_lastTransition set_attachFailCount with_conn _currentGprsState].
  all: try (split; [discriminate | intros (? & ? & ?); discriminate]).
  all: bool_to_Z; unfold Config.GPRS_MAX_MODEM_RESETS in *.
  all: try (split; [intros _; repeat split; try reflexivity; lia | reflexivity]).
  all: try (split; [discriminate | intros (? & ? & ?); try discriminate; lia]).
Qed.

Lemma modem_fail_entered_only_by_failed_reset_witness :
  _currentGprsState
    (fst (updateFSM (Samples.silent_modem 80000)
            (set_modemResetCount 2 (Samples.gprs_in GPRS_STATE_INIT_RESET_MODEM),
             DeviceState_init)))
  = GPRS_STATE_ERROR_MODEM_FAIL.
Proof.
  refine (proj2 (modem_fail_entered_only_by_failed_reset (Samples.silent_modem 80000)
                   (set_modemResetCount 2 (Samples.gprs_in GPRS_STATE_INIT_RESET_MODEM),
                    DeviceState_init) _ _) _).
  - vm_compute. discriminate.
  - split; [vm_compute; discriminate | reflexivity].
  - split; [reflexivity |]. split; [reflexivity |]. vm_compute. discriminate.
Defined.

(** A failed reset in InitResetModem. *)
Lemma failed_reset_step (o : ModemObs) (g : GPRSManager) (ds : DeviceState) :
  _currentGprsState g = GPRS_STATE_INIT_RESET_MODEM ->
  reset_succeeds o g = false ->
  0 <= _modemResetCount g < 255 ->
  exists ds',
    updateFSM o (g, ds)
    = (with_conn (if _modemResetCount g + 1 >=? Config.GPRS_MAX_MODEM_RESETS
                  then GPRS_STATE_ERROR_MODEM_FAIL else GPRS_STATE_ERROR_RESTART_MODEM)
         (ms_trans o) 0 (_modemResetCount g + 1) (_gprsAttachFailCount g) g, ds').
Proof.
  destruct g as [apn us pw pin tok dsp st last rc mr af h].
  unfold reset_succeeds. cbn [_currentGprsState _modemResetCount _gprsAttachFailCount].
  intros -> Hr Hc. pose proof (u8_succ mr Hc) as Hu.
  unfold updateFSM, handleGprsInitResetModem.
  cbn [fst snd _deviceState _currentGprsState _modemResetCount].
  destruct dsp; cbn [fst snd _currentGprsState _modemResetCount]; cbn match;
    rewrite Hr; cbn; rewrite !Hu;
    destruct (mr + 1 >=? Config.GPRS_MAX_MODEM_RESETS); cbn; eexists; reflexivity.
Qed.

(** The restart delay has elapsed in ErrorRestartModem. *)
Lemma restart_delay_step (o : ModemObs) (g : GPRSManager) (ds : DeviceState) :
  _currentGprsState g = GPRS_STATE_ERROR_RESTART_MODEM ->
  Config.GPRS_MODEM_ERROR_RESTART_DELAY_MS
    <= u32 (ms_elapsed o - _lastGprsStateTransitionTime g) ->
  exists ds',
    updateFSM o (g, ds)
    = (with_conn GPRS_STATE_INIT_RESET_MODEM (ms_trans o) 0
         (_modemResetCount g) (_gprsAttachFailCount g) g, ds').
Proof.
  destruct g as [apn us pw pin tok dsp st last rc mr af h].
  cbn [_currentGprsState _modemResetCount _gprsAttachFailCount _lastGprsStateTransitionTime].
  intros -> Hd. apply Z.ltb_ge in Hd.
  unfold updateFSM, handleGprsErrorRestartModem, getElapsedTimeInCurrentGprsState.
  cbn [fst snd _deviceState _currentGprsState _lastGprsStateTransitionTime].
  destruct dsp; cbn [fst snd _currentGprsState _lastGprsStateTransitionTime]; cbn match;
    rewrite Hd; cbn; eexists; reflexivity.
Qed.

(** X4.  Three failed resets in a row give the modem up.  From
    InitResetModem with no failure counted, a failed soft reset and two
    failed hard resets, each retried once the restart delay has elapsed
    in ErrorRestartModem, end in ErrorModemFail with the counter at its
    ceiling; the two earlier failures end in ErrorRestartModem. *)
Theorem three_failed_resets_reach_modem_fail (o1 w1 o2 w2 o3 : ModemObs) (s : St) :
  _currentGprsState (fst s) = GPRS_STATE_INIT_RESET_MODEM ->
  _modemResetCount (fst s) = 0 ->
  performModemSoftReset o1 = false ->
  performModemHardReset o2 = false ->
  performModemHardReset o3 = false ->
  Config.GPRS_MODEM_ERROR_RESTART_DELAY_MS <= u32 (ms_elapsed w1 - ms_trans o1) ->
  Config.GPRS_MODEM_ERROR_RESTART_DELAY_MS <= u32 (ms_elapsed w2 - ms_trans o2) ->
  _currentGprsState (fst (run [o1] s)) = GPRS_STATE_ERROR_RESTART_MODEM /\
  _currentGprsState (fst (run [o1; w1; o2] s)) = GPRS_STATE_ERROR_RESTART_MODEM /\
  _currentGprsState (fst (run [o1; w1; o2; w2; o3] s)) = GPRS_STATE_ERROR_MODEM_FAIL /\
  _modemResetCount (fst (run [o1; w1; o2; w2; o3] s)) = Config.GPRS_MAX_MODEM_RESETS.
Proof.
  destruct s as [g ds]. cbn [fst]. intros Hs Hc H1 H2 H3 Hw1 Hw2.
  destruct (failed_reset_step o1 g ds Hs) as [ds1 E1].
  { unfold reset_succeeds. rewrite Hc. exact H1. }
  { rewrite Hc. lia. }
  rewrite Hc in E1. change (0 + 1 >=? Config.GPRS_MAX_MODEM_RESETS) with false in E1.
  cbn match in E1.
  match type of E1 with _ = (?x, _) => set (g1 := x) in * end.
  destruct (restart_delay_step w1 g1 ds1 eq_refl Hw1) as [ds2 E2].
  match type of E2 with _ = (?x, _) => set (g2 := x) in * end.
  destruct (failed_reset_step o2 g2 ds2 eq_refl) as [ds3 E3].
  { exact H2. }
  { cbn. lia. }
  change (_modemResetCount g2 + 1 >=? Config.GPRS_MAX_MODEM_RESETS) with false in E3.
  cbn match in E3.
  match type of E3 with _ = (?x, _) => set (g3 := x) in * end.
  destruct (restart_delay_step w2 g3 ds3 eq_refl Hw2) as [ds4 E4].
  match type of E4 with _ = (?x, _) => set (g4 := x) in * end.
  destruct (failed_reset_step o3 g4 ds4 eq_refl) as [ds5 E5].
  { exact H3. }
  { cbn. lia. }
  change (_modemResetCount g4 + 1 >=? Config.GPRS_MAX_MODEM_RESETS) with true in E5.
  cbn match in E5.
  cbn [run]. rewrite E1, E2, E3, E4, E5. cbn [fst].
  repeat split; reflexivity.
Qed.
Lemma three_failed_resets_reach_modem_fail_witness :
  _currentGprsState
    (fst (run [Samples.silent_modem 10; Samples.silent_modem 70000;
               Samples.silent_modem 70010; Samples.silent_modem 140000;
               Samples.silent_modem 140010]
            (Samples.gprs_in GPRS_STATE_INIT_RESET_MODEM, DeviceState_init)))
  = GPRS_STATE_ERROR_MODEM_FAIL.
Proof.
  pose proof (three_failed_resets_reach_modem_fail
                (Samples.silent_modem 10) (Samples.silent_modem 70000)
                (Samples.silent_modem 70010) (Samples.silent_modem 140000)
                (Samples.silent_modem 140010)
                (Samples.gprs_in GPRS_STATE_INIT_RESET_MODEM, DeviceState_init)
                eq_refl eq_refl eq_refl eq_refl eq_refl
                ltac:(vm_compute; discriminate) ltac:(vm_compute; discriminate)) as H.
  destruct H as (_ & _ & H & _). exact H.
Defined.

Lemma call_keeps_reconnectAttempt (c : Call) (s : St) :
  _gprsReconnectAttempt (fst s) = 0 -> _gprsReconnectAttempt (fst (call c s)) = 0.
Proof.
  destruct s as [g ds]. destruct g as [apn us pw pin tok dsp st last rc mr af h].
  cbn [fst _gprsReconnectAttempt]. intros ->.
  destruct c as [ms | | o]; cbn [call].
  - unfold connect. cbn [fst _currentGprsState]. destruct st; reflexivity.
  - reflexivity.
  - unfold updateFSM. cbn [fst snd _deviceState _currentGprsState].
    destruct dsp; cbn [fst snd _currentGprsState]; destruct st; cbn match.
    all: unfold_handlers.
    all: conn_fields.
    all: case_ifs; try reflexivity.
    all: unfold transitionToState.
    all: conn_fields.
    all: cbn; try reflexivity.
Qed.

Lemma calls_keep_reconnectAttempt (cs : list Call) : forall s,
  _gprsReconnectAttempt (fst s) = 0 -> _gprsReconnectAttempt (fst (calls cs s)) = 0.
Proof.
  induction cs as [| c cs IH]; intros s H; cbn [calls].
  - exact H.
  - apply IH. apply call_keeps_reconnectAttempt. exact H.
Qed.

Lemma reconnecting_without_attempts (o : ModemObs) (s : St) :
  _gprsReconnectAttempt (fst s) = 0 ->
  _currentGprsState (fst s) = GPRS_STATE_RECONNECTING ->
  _currentGprsState (fst (updateFSM o s)) = GPRS_STATE_RECONNECTING \/
  _currentGprsState (fst (updateFSM o s)) = GPRS_STATE_INIT_ATTACH_GPRS.
Proof.
  destruct s as [g ds]. destruct g as [apn us pw pin tok dsp st last rc mr af h].
  cbn [fst _currentGprsState _gprsReconnectAttempt]. intros -> ->.
  unfold updateFSM, handleGprsReconnecting.
  cbn [fst snd _deviceState _currentGprsState].
  destruct dsp; cbn [fst snd _currentGprsState _gprsReconnectAttempt]; cbn match.
  all: change (0 <? Config.GPRS_MAX_RECONNECT_ATTEMPTS) with true; cbn match.
  all: case_ifs; rewrite ?transitionToState_state; auto.
Qed.

(** X5.  The reconnect-attempt counter never accumulates.  Every change
    of state other than into Reconnecting sets it to zero, and the
    increment in Reconnecting is followed at once by the change to
    InitAttach: after any sequence of [connect()], [disconnect()] and
    [updateFSM()] calls on a manager whose counter is zero (as the
    constructor leaves it) the counter is zero again.  Hence the ceiling
    on reconnect attempts is never reached: a poll in Reconnecting stays
    there or goes to InitAttach, never to ErrorRestartModem. *)
Theorem reconnect_attempts_never_accumulate (cs : list Call) (o : ModemObs) (s : St) :
  _gprsReconnectAttempt (fst s) = 0 ->
  let s' := calls cs s in
  _gprsReconnectAttempt (fst s') = 0 /\
  (_currentGprsState (fst s') = GPRS_STATE_RECONNECTING ->
   _currentGprsState (fst (updateFSM o s')) <> GPRS_STATE_ERROR_RESTART_MODEM).
Proof.
  intros H s'. pose proof (calls_keep_reconnectAttempt cs s H) as H0. fold s' in H0.
  split; [exact H0 |]. intros Hst.
  destruct (reconnecting_without_attempts o s' H0 Hst) as [E | E]; rewrite E; discriminate.
Qed.

Lemma reconnect_attempts_never_accumulate_witness :
  let s' := calls [CallConnect 5; CallUpdateFSM (Samples.healthy_modem 10);
                   CallUpdateFSM (Samples.healthy_modem 20);
                   CallUpdateFSM (Samples.healthy_modem 30);
                   CallUpdateFSM (Samples.silent_modem 40000);
                   CallUpdateFSM (Samples.silent_modem 40010)]
              (Samples.gprs_disabled, DeviceState_init) in
  _currentGprsState (fst s') = GPRS_STATE_RECONNECTING /\
  _gprsReconnectAttempt (fst s') = 0 /\
  _currentGprsState (fst (updateFSM (Samples.silent_modem 60000) s'))
  <> GPRS_STATE_ERROR_RESTART_MODEM.
Proof.
  cbv zeta.
  pose proof (reconnect_attempts_never_accumulate
                [CallConnect 5; CallUpdateFSM (Samples.healthy_modem 10);
                 CallUpdateFSM (Samples.healthy_modem 20);
                 CallUpdateFSM (Samples.healthy_modem 30);
                 CallUpdateFSM (Samples.silent_modem 40000);
                 CallUpdateFSM (Samples.silent_modem 40010)]
                (Samples.silent_modem 60000)
                (Samples.gprs_disabled, DeviceState_init) eq_refl) as H.
  cbv zeta in H. destruct H as [H1 H2].
  split; [reflexivity |]. split; [exact H1 |]. apply H2. reflexivity.
Defined.

(** X6.  How a dropped link is noticed.  In Operational a poll ends
    [isConnected()] exactly when more than the check interval has passed
    since the last check and the modem reports the data context or the
    registration gone; the FSM is then in ConnectionLost, stamped with
    the time of the change, its reconnect counter zero and the other
    counters kept.  A poll within the interval leaves the manager as it
    was. *)
Theorem operational_check_detects_loss (o : ModemObs) (s : St) :
  _currentGprsState (fst s) = GPRS_STATE_OPERATIONAL ->
  let elapsed := getElapsedTimeInCurrentGprsState (ms_elapsed o) (fst s) in
  let s' := updateFSM o s in
  (isConnected (fst s') = false <->
   Config.GPRS_CONNECTION_CHECK_INTERVAL_MS < elapsed /\
   (isGprsConnected_modem o = false \/ isNetworkConnected o = false)) /\
  (isConnected (fst s') = false ->
   conn_of (fst s') =
   (GPRS_STATE_CONNECTION_LOST, ms_trans o, 0, _modemResetCount (fst s),
    _gprsAttachFailCount (fst s))) /\
  (elapsed <= Config.GPRS_CONNECTION_CHECK_INTERVAL_MS -> fst s' = fst s).
Proof.
  destruct s as [g ds]. destruct g as [apn us pw pin tok dsp st last rc mr af h].
  cbn [fst _currentGprsState]. intros ->. cbn zeta.
  unfold updateFSM, handleGprsOperational.
  cbn [fst snd _deviceState _currentGprsState].
  destruct dsp; cbn [fst snd _currentGprsState]; cbn match.
  all: match goal with
       | |- context [getElapsedTimeInCurrentGprsState ?a ?b] =>
           generalize (getElapsedTimeInCurrentGprsState a b); intros e
       end.
  all: destruct (e >? Config.GPRS_CONNECTION_CHECK_INTERVAL_MS) eqn:He; bool_to_Z.
  all: destruct (isGprsConnected_modem o), (isNetworkConnected o); cbn.
  all: repeat split; try discriminate; try reflexivity; try lia; intros; try lia;
       try discriminate; try tauto.
  all: try (destruct H as [_ [H | H]]; discriminate).
  all: try (destruct H; lia).
Qed.

Lemma operational_check_detects_loss_witness :
  isConnected (fst (updateFSM (Samples.silent_modem 40000)
                      (Samples.gprs_operational, DeviceState_init))) = false
  /\ fst (updateFSM (Samples.silent_modem 20000)
            (Samples.gprs_operational, DeviceState_init)) = Samples.gprs_operational.
Proof.
  pose proof (operational_check_detects_loss (Samples.silent_modem 40000)
                (Samples.gprs_operational, DeviceState_init) eq_refl) as H1.
  pose proof (operational_check_detects_loss (Samples.silent_modem 20000)
                (Samples.gprs_operational, DeviceState_init) eq_refl) as H2.
  cbv zeta in H1, H2. split.
  - apply H1. split; [vm_compute; reflexivity | left; reflexivity].
  - apply H2. vm_compute. discriminate.
Defined.

(** X7.  What a poll writes to the shared record.  With a shared record
    attached, a poll stores the signal quality just read and the
    connection status the FSM had before the poll, so the flag trails
    the FSM by one poll; it keeps the mirrored state equal to the
    manager's once they agree; and it never writes the two counters of
    the record nor any member owned by the main loop. *)
Theorem device_state_mirror (o : ModemObs) (s : St) :
  _deviceState (fst s) = true ->
  let s' := updateFSM o s in
  isGprsConnected (snd s') = isConnected (fst s) /\
  gprsSignalQuality (snd s') = getSignalQuality o /\
  (currentGprsState (snd s) = _currentGprsState (fst s) ->
   currentGprsState (snd s') = _currentGprsState (fst s')) /\
  gprsModemResetCount (snd s') = gprsModemResetCount (snd s) /\
  gprsAttachFailCount (snd s') = gprsAttachFailCount (snd s) /\
  loop_fields (snd s') = loop_fields (snd s).
Proof.
  destruct s as [g ds]. destruct g as [apn us pw pin tok dsp st last rc mr af h].
  cbn [fst snd _deviceState]. intros ->. cbn zeta.
  unfold updateFSM. cbn [fst snd _deviceState _currentGprsState].
  destruct st; cbn match.
  all: unfold_handlers.
  all: conn_fields.
  all: case_ifs.
  all: unfold transitionToState.
  all: conn_fields.
  all: cbn; repeat split; try reflexivity; intros; try assumption.
Qed.

Lemma device_state_mirror_witness :
  let s' := updateFSM (Samples.healthy_modem 100) Samples.gprs_attaching in
  isConnected (fst s') = true /\ isGprsConnected (snd s') = false.
Proof.
  cbv zeta. split; [reflexivity |].
  pose proof (device_state_mirror (Samples.healthy_modem 100) Samples.gprs_attaching
                eq_refl) as H.
  cbv zeta in H. destruct H as [H _]. rewrite H. reflexivity.
Defined.

End ConnectionFsm.

(** ** The WiFi transport *)

Section WiFiLink.

Import WiFi.

Lemma WiFi_connect_failed_down link w :
  fst (connect link w) = false ->
  isConnected w = false ->
  isConnected (snd (connect link w)) = false.
Proof.
  unfold connect, connectWiFi, isConnected, MAX_CONNECT_RETRIES.
  destruct (String.length (_ssid w) =? 0)%nat; [auto |].
  cbn [connect_attempts].
  destruct (link 0%nat), (link 1%nat), (link 2%nat); cbn; auto; discriminate.
Qed.

(** X8.  The outcome of [connect()] on WiFi.  It succeeds exactly when
    the SSID is not empty and the station comes up during one of the
    three attempts.  With an SSID the station status afterwards is the
    result, so a failed call leaves the station down even if it was up
    before; with an empty SSID nothing is touched.  No member other than
    the station status changes: a request in flight is not disturbed. *)
Theorem wifi_connect_outcome (link : nat -> bool) (w : WiFiManager) :
  let res := connect link w in
  (fst res = true <->
   String.length (_ssid w) <> 0%nat /\ (link 0%nat || link 1%nat || link 2%nat) = true) /\
  (String.length (_ssid w) <> 0%nat -> isConnected (snd res) = fst res) /\
  (String.length (_ssid w) = 0%nat -> snd res = w) /\
  snd res = set_sta (isConnected (snd res)) w.
Proof.
  cbn zeta. unfold connect, connectWiFi, isConnected, MAX_CONNECT_RETRIES.
  destruct (String.length (_ssid w) =? 0)%nat eqn:E.
  - apply Nat.eqb_eq in E. cbn [fst snd]. repeat split.
    all: try congruence; try discriminate.
    all: try (intros [H _]; congruence).
    all: destruct w; reflexivity.
  - apply Nat.eqb_neq in E. cbn [connect_attempts].
    destruct (link 0%nat), (link 1%nat), (link 2%nat); cbn; repeat split; auto;
      try congruence; try (intros [_ H]; discriminate H); try discriminate.
Qed.

End WiFiLink.

Section WiFiRequests.

Import WiFi.

Variable dj : string -> option JsonDocument.

#[local] Arguments u8 : simpl never.
#[local] Arguments u32 : simpl never.

Lemma WiFi_http_wf_iff w :
  http_wf w = true <->
  _asyncOperationActive w = (match _currentHttpState w with IDLE => false | _ => true end)
  /\ (_asyncOperationActive w = true -> 0 <= _httpRetries w <= Config.MAX_HTTP_RETRIES).
Proof.
  unfold http_wf. rewrite !andb_true_iff, eqb_true_iff, orb_true_iff, andb_true_iff,
    negb_true_iff, !Z.leb_le.
  destruct (_asyncOperationActive w); split; intros [H1 H2]; split; auto.
  - intros _. destruct H2 as [H2 | H2]; [discriminate H2 | exact H2].
  - intros H. discriminate H.
Qed.

Lemma connect_attempts_http_wf link : forall n k w,
  http_wf (snd (connect_attempts n k link w)) = http_wf w.
Proof.
  induction n as [| n IH]; intros k w; cbn [connect_attempts].
  - reflexivity.
  - destruct (link k); [reflexivity |]. rewrite IH. reflexivity.
Qed.

Lemma WiFi_processingResponse_wf o w :
  _asyncOperationActive w = true ->
  0 <= _httpRetries w <= Config.MAX_HTTP_RETRIES ->
  http_wf (fst (processingResponse dj o w)) = true.
Proof.
  intros Ha Hr. apply WiFi_http_wf_iff. unfold processingResponse.
  destruct ((_httpStatusCode w >=? 200) && (_httpStatusCode w <? 300)).
  - destruct (_asyncCb w) as [f |].
    + destruct (dj (getString o)) as [d |]; [destruct (f d) |]; cbn; auto.
    + cbn; auto.
  - cbn; auto.
Qed.

Lemma WiFi_errorStep_wf o w :
  _asyncOperationActive w = true ->
  0 <= _httpRetries w <= Config.MAX_HTTP_RETRIES ->
  http_wf (errorStep o w) = true.
Proof.
  intros Ha Hr. apply WiFi_http_wf_iff. unfold errorStep.
  destruct (isRetryableError (_httpStatusCode w)); cbn [andb].
  - destruct (_httpRetries w <? Config.MAX_HTTP_RETRIES) eqn:E; bool_to_Z.
    + cbn. unfold Config.MAX_HTTP_RETRIES in *. rewrite u8_succ by lia.
      split; [exact Ha | intros _; lia].
    + cbn. split; [reflexivity | discriminate].
  - cbn. split; [reflexivity | discriminate].
Qed.

Lemma WiFi_updateHttpOperations_wf o w :
  http_wf w = true -> http_wf (fst (updateHttpOperations dj o w)) = true.
Proof.
  intros H. pose proof H as H0. apply WiFi_http_wf_iff in H0. destruct H0 as [Ha Hr].
  unfold updateHttpOperations.
  destruct (_asyncOperationActive w) eqn:Hact; cbn [negb]; [| exact H].
  specialize (Hr eq_refl).
  set (w0 := if _ >? 30000 then set_httpState ERROR w else w).
  assert (H0 : _asyncOperationActive w0 = true /\ _httpRetries w0 = _httpRetries w
               /\ _currentHttpState w0 <> IDLE).
  { subst w0. destruct (_ >? 30000); cbn.
    - repeat split; auto. discriminate.
    - repeat split; auto. destruct (_currentHttpState w); congruence. }
  destruct H0 as (A0 & R0 & S0). rewrite <- R0 in Hr. clearbody w0.
  destruct (_currentHttpState w0) eqn:Hs; try congruence.
  - destruct (http_begin o); apply WiFi_http_wf_iff; cbn; auto.
  - destruct (_ || _).
    + cbn [_httpStatusCode set_status with_ctrl].
      case_ifs; apply WiFi_http_wf_iff; cbn; rewrite ?Hs; auto.
    + apply WiFi_http_wf_iff; cbn; auto.
  - apply WiFi_processingResponse_wf; assumption.
  - case_ifs; apply WiFi_http_wf_iff; cbn; rewrite ?Hs; auto.
  - apply WiFi_http_wf_iff; cbn. split; [reflexivity | discriminate].
  - apply WiFi_errorStep_wf; assumption.
Qed.

Lemma WiFi_call_wf c w : http_wf w = true -> http_wf (fst (call dj c w)) = true.
Proof.
  intros H. destruct c as [link | | ms r | o]; cbn [call fst].
  - unfold connect, connectWiFi. destruct (_ =? _)%nat; [exact H |].
    rewrite connect_attempts_http_wf. exact H.
  - exact H.
  - unfold startAsyncHttpRequest.
    destruct (_asyncOperationActive w); [exact H |].
    destruct (negb (isConnected w)); [exact H |]. reflexivity.
  - apply WiFi_updateHttpOperations_wf. exact H.
Qed.

Lemma WiFi_calls_wf cs : forall w,
  http_wf w = true -> http_wf (fst (calls dj cs w)) = true.
Proof.
  induction cs as [| c cs IH]; intros w H; cbn [calls].
  - exact H.
  - destruct (call dj c w) as [w1 ev1] eqn:E1.
    specialize (IH w1). destruct (calls dj cs w1) as [w2 ev2]. cbn [fst] in *.
    apply IH. pose proof (WiFi_call_wf c w H) as H1. rewrite E1 in H1. exact H1.
Qed.

(** X9.  Two invariants of the WiFi request machine.  On a manager
    that is Idle with no request in flight, as the constructor leaves
    it, whatever sequence of [connect()], [disconnect()],
    [startAsyncHttpRequest()] and [updateHttpOperations()] calls
    follows, the in-flight flag is set exactly when the FSM is not in
    Idle, and while it is set the retry counter lies between zero and
    the configured maximum. *)
Theorem wifi_request_flag_and_retry_bound (cs : list Call) (w0 : WiFiManager) :
  _asyncOperationActive w0 = false ->
  _currentHttpState w0 = IDLE ->
  let w := fst (calls dj cs w0) in
  _asyncOperationActive w = (match _currentHttpState w with IDLE => false | _ => true end)
  /\ (_asyncOperationActive w = true -> 0 <= _httpRetries w <= Config.MAX_HTTP_RETRIES).
Proof.
  intros Ha Hs. cbn zeta. apply WiFi_http_wf_iff. apply WiFi_calls_wf.
  apply WiFi_http_wf_iff. rewrite Ha, Hs. split; [reflexivity | discriminate].
Qed.

(** X10.  A successful request takes four polls.  A GET or POST started
    on a connected, idle manager, whose client begins, whose server
    answers with a 2xx status and a body that parses, and whose callback
    accepts the document, is Complete after three polls and Idle with
    the flag cleared after the fourth, provided each of the four polls
    comes no later than 30 seconds (the overall time-out) after the
    start; the callback has been invoked exactly once, with the parsed
    document, and the status and document are kept. *)
Theorem wifi_request_completes_in_four_polls
  (ms : Z) (r : Request) (w : WiFiManager) (o1 o2 o3 o4 : HttpObs)
  (f : JsonDocument -> bool) (d : JsonDocument) :
  isConnected w = true ->
  _asyncOperationActive w = false ->
  String.eqb (method r) "GET" || String.eqb (method r) "POST" = true ->
  cb r = Some f ->
  http_begin o1 = true ->
  200 <= send_result o2 < 300 ->
  dj (getString o3) = Some d ->
  f d = true ->
  Forall (fun o => u32 (ms_now o - ms) <= 30000) [o1; o2; o3; o4] ->
  let started := startAsyncHttpRequest ms r w in
  let after os := calls dj (map CallUpdateHttp os) (snd started) in
  fst started = true /\
  _currentHttpState (fst (after [o1; o2; o3])) = COMPLETE /\
  snd (after [o1; o2; o3; o4]) = [EvCallback d true] /\
  _currentHttpState (fst (after [o1; o2; o3; o4])) = IDLE /\
  _asyncOperationActive (fst (after [o1; o2; o3; o4])) = false /\
  _httpStatusCode (fst (after [o1; o2; o3; o4])) = send_result o2 /\
  _jsonDoc (fst (after [o1; o2; o3; o4])) = Some d.
Proof.
  intros Hc Ha Hm Hcb Hb Hst Hd Hf Ht.
  inversion Ht as [| ? ? T1 Ht1]; subst. inversion Ht1 as [| ? ? T2 Ht2]; subst.
  inversion Ht2 as [| ? ? T3 Ht3]; subst. inversion Ht3 as [| ? ? T4 _]; subst.
  assert (G : forall o, u32 (ms_now o - ms) <= 30000 -> (u32 (ms_now o - ms) >? 30000) = false).
  { intros o H. rewrite Z.gtb_ltb. apply Z.ltb_ge. exact H. }
  apply G in T1, T2, T3, T4.
  assert (S2 : (send_result o2 >? 0) = true) by (rewrite Z.gtb_ltb; apply Z.ltb_lt; lia).
  assert (R2 : (send_result o2 >=? 200) && (send_result o2 <? 300) = true).
  { rewrite Z.geb_leb. apply andb_true_iff. split; [apply Z.leb_le | apply Z.ltb_lt]; lia. }
  cbn zeta. unfold startAsyncHttpRequest. rewrite Ha, Hc. cbn [negb fst snd].
  match goal with |- context [calls dj _ ?x] => set (w0 := x) end.
  assert (E1 : updateHttpOperations dj o1 w0 = (set_httpState SENDING_REQUEST w0, [])).
  { unfold updateHttpOperations. subst w0.
    cbn [_asyncOperationActive _asyncRequestStartTime negb]. rewrite T1.
    cbn [_currentHttpState]. rewrite Hb. reflexivity. }
  set (w1 := set_httpState SENDING_REQUEST w0) in *.
  assert (E2 : updateHttpOperations dj o2 w1
               = (set_httpState PROCESSING_RESPONSE (set_status (send_result o2) w1), [])).
  { unfold updateHttpOperations. subst w1 w0.
    cbn [_asyncOperationActive _asyncRequestStartTime negb set_httpState with_ctrl]. rewrite T2.
    cbn. rewrite Hm, S2. reflexivity. }
  set (w2 := set_httpState PROCESSING_RESPONSE (set_status (send_result o2) w1)) in *.
  assert (E3 : updateHttpOperations dj o3 w2
               = (set_httpState COMPLETE (set_jsonDoc (Some d) w2), [EvCallback d true])).
  { unfold updateHttpOperations. subst w2 w1 w0.
    cbn [_asyncOperationActive _asyncRequestStartTime negb set_httpState set_status with_ctrl].
    rewrite T3. cbn. unfold processingResponse.
    cbn. rewrite R2, Hcb, Hd, Hf. reflexivity. }
  set (w3 := set_httpState COMPLETE (set_jsonDoc (Some d) w2)) in *.
  assert (E4 : updateHttpOperations dj o4 w3
               = (set_httpState IDLE (set_active false w3), [])).
  { unfold updateHttpOperations. subst w3 w2 w1 w0.
    cbn [_asyncOperationActive _asyncRequestStartTime negb set_httpState set_status
         set_jsonDoc with_ctrl].
    rewrite T4. reflexivity. }
  cbn [map calls call]. rewrite E1, E2, E3, E4. cbn [fst snd app].
  subst w3 w2 w1 w0. cbn. auto 8.
Qed.

(** A request whose method the manager cannot send stays among the
    states before the response and keeps its status at zero. *)
Lemma unsupported_poll o w :
  String.eqb (_asyncMethod w) "GET" || String.eqb (_asyncMethod w) "POST" = false ->
  _httpStatusCode w = 0 ->
  (_currentHttpState w <> PROCESSING_RESPONSE /\ _currentHttpState w <> COMPLETE) ->
  let w' := fst (updateHttpOperations dj o w) in
  snd (updateHttpOperations dj o w) = [] /\
  _asyncMethod w' = _asyncMethod w /\
  _httpStatusCode w' = 0 /\
  (_currentHttpState w' <> PROCESSING_RESPONSE /\ _currentHttpState w' <> COMPLETE).
Proof.
  intros Hm Hc [Hp Hq]. cbn zeta. unfold updateHttpOperations.
  destruct (_asyncOperationActive w); cbn [negb fst snd]; [| auto].
  set (w0 := if _ >? 30000 then set_httpState ERROR w else w).
  assert (H0 : _asyncMethod w0 = _asyncMethod w /\ _httpStatusCode w0 = 0
               /\ _currentHttpState w0 <> PROCESSING_RESPONSE
               /\ _currentHttpState w0 <> COMPLETE).
  { subst w0. destruct (_ >? 30000); cbn; repeat split; auto; discriminate. }
  destruct H0 as (M0 & C0 & P0 & Q0). rewrite <- M0, <- C0 in *. clearbody w0.
  destruct (_currentHttpState w0) eqn:Hs; try congruence.
  - cbn. rewrite Hs. repeat split; auto; discriminate.
  - destruct (http_begin o); cbn; repeat split; auto; discriminate.
  - rewrite Hm. cbn. repeat split; auto; discriminate.
  - destruct (_ >=? _); cbn; rewrite ?Hs; repeat split; auto; discriminate.
  - unfold errorStep. destruct (_ && _); cbn; repeat split; auto; discriminate.
Qed.

Lemma unsupported_polls os : forall w,
  String.eqb (_asyncMethod w) "GET" || String.eqb (_asyncMethod w) "POST" = false ->
  _httpStatusCode w = 0 ->
  (_currentHttpState w <> PROCESSING_RESPONSE /\ _currentHttpState w <> COMPLETE) ->
  let res := calls dj (map CallUpdateHttp os) w in
  snd res = [] /\ _httpStatusCode (fst res) = 0 /\
  (_currentHttpState (fst res) <> PROCESSING_RESPONSE /\ _currentHttpState (fst res) <> COMPLETE).
Proof.
  induction os as [| o os IH]; intros w Hm Hc Hs; cbn zeta; cbn [map calls call].
  - cbn. auto.
  - pose proof (unsupported_poll o w Hm Hc Hs) as H. cbn zeta in H.
    destruct (updateHttpOperations dj o w) as [w1 ev1]. cbn [fst snd] in H.
    destruct H as (-> & M1 & C1 & S1). rewrite <- M1 in Hm.
    specialize (IH w1 Hm C1 S1). cbn zeta in IH.
    destruct (calls dj (map CallUpdateHttp os) w1) as [w2 ev2]. cbn [fst snd] in *.
    destruct IH as (-> & IH). split; [reflexivity | exact IH].
Qed.

(** X11.  A method other than GET and POST is accepted and never sent.
    On a connected, idle manager [startAsyncHttpRequest] takes such a
    request; however often it is polled afterwards, no callback is
    invoked, the status stays zero, and the FSM never reaches
    ProcessingResponse or Complete. *)
Theorem wifi_unsupported_method_accepted_never_sent
  (ms : Z) (r : Request) (w : WiFiManager) (os : list HttpObs) :
  String.eqb (method r) "GET" || String.eqb (method r) "POST" = false ->
  isConnected w = true ->
  _asyncOperationActive w = false ->
  let started := startAsyncHttpRequest ms r w in
  let res := calls dj (map CallUpdateHttp os) (snd started) in
  fst started = true /\
  snd res = [] /\
  _httpStatusCode (fst res) = 0 /\
  _currentHttpState (fst res) <> PROCESSING_RESPONSE /\
  _currentHttpState (fst res) <> COMPLETE.
Proof.
  intros Hm Hc Ha. cbn zeta. unfold startAsyncHttpRequest. rewrite Ha, Hc. cbn [negb fst snd].
  split; [reflexivity |].
  match goal with |- context [calls dj _ ?x] => set (w0 := x) end.
  pose proof (unsupported_polls os w0) as H. cbn zeta in H.
  destruct H as (E & C & P & Q); subst w0; cbn; auto; split; discriminate.
Qed.

Lemma WiFi_retry_wait_early o w :
  _asyncOperationActive w = true ->
  _currentHttpState w = RETRY_WAIT ->
  0 <= ms_now o < _asyncRequestStartTime w ->
  _asyncRequestStartTime w < 2 ^ 32 ->
  _asyncRequestStartTime w - ms_now o <= Config.HTTP_RETRY_DELAY_MS ->
  updateHttpOperations dj o w = (errorStep o (set_httpState ERROR w), []).
Proof.
  intros Ha Hs H1 H2 H3. unfold updateHttpOperations. rewrite Ha. cbn [negb].
  pose proof (early_poll_wraps _ _ H1 H2 H3) as Hw.
  destruct (u32 (ms_now o - _asyncRequestStartTime w) >? 30000) eqn:E; bool_to_Z; [| lia].
  reflexivity.
Qed.

Lemma polled_within_delay_iff a b :
  polled_within_delay a b = true <->
  0 <= ms_set a /\ ms_set a + Config.HTTP_RETRY_DELAY_MS < 2 ^ 32
  /\ ms_set a <= ms_now b < ms_set a + Config.HTTP_RETRY_DELAY_MS.
Proof.
  unfold polled_within_delay. rewrite !andb_true_iff, !Z.leb_le, !Z.ltb_lt. tauto.
Qed.

(** A retry wait armed by poll [a] and polled by [b] before the delay
    has elapsed: the overall time-out fires, and the Error state either
    arms the next wait or gives the request up. *)
Lemma WiFi_wait_polled_early a b w k :
  _asyncOperationActive w = true ->
  _currentHttpState w = RETRY_WAIT ->
  _asyncRequestStartTime w = u32 (ms_set a + Config.HTTP_RETRY_DELAY_MS) ->
  isRetryableError (_httpStatusCode w) = true ->
  _httpRetries w = k -> 0 <= k <= Config.MAX_HTTP_RETRIES ->
  polled_within_delay a b = true ->
  let w' := fst (updateHttpOperations dj b w) in
  snd (updateHttpOperations dj b w) = [] /\
  _httpStatusCode w' = _httpStatusCode w /\
  if k <? Config.MAX_HTTP_RETRIES
  then _asyncOperationActive w' = true /\ _currentHttpState w' = RETRY_WAIT
       /\ _asyncRequestStartTime w' = u32 (ms_set b + Config.HTTP_RETRY_DELAY_MS)
       /\ _httpRetries w' = k + 1
  else _asyncOperationActive w' = false /\ _currentHttpState w' = IDLE
       /\ _httpRetries w' = k.
Proof.
  intros Ha Hs Hstart Hre Hk Hr Hp. apply polled_within_delay_iff in Hp.
  destruct Hp as (P1 & P2 & P3).
  assert (Hst : _asyncRequestStartTime w = ms_set a + Config.HTTP_RETRY_DELAY_MS).
  { rewrite Hstart. apply u32_small. unfold Config.HTTP_RETRY_DELAY_MS in *. lia. }
  cbn zeta. rewrite WiFi_retry_wait_early; try assumption; try lia.
  cbn [fst snd]. unfold errorStep.
  cbn [_httpStatusCode _httpRetries set_httpState with_ctrl]. rewrite Hre, Hk. cbn [andb].
  destruct (k <? Config.MAX_HTTP_RETRIES) eqn:E; bool_to_Z; cbn.
  - unfold Config.MAX_HTTP_RETRIES in *. rewrite u8_succ by lia. auto 8.
  - auto 8.
Qed.

(** X12.  Polled at loop speed, a retryable failure is never retried.
    The Error state arms a retry wait by moving the start time of the
    request into the future; the overall time-out of the next poll,
    computed on unsigned numbers, then sees a huge elapsed time.  So
    when each poll comes before the delay armed by the previous one has
    elapsed, a request that failed with a retryable status spends its
    three retries in three polls and is given up by the fourth, without
    having been sent again and without a callback. *)
Theorem wifi_retries_burnt_without_resending (o1 o2 o3 o4 : HttpObs) (w : WiFiManager) :
  _asyncOperationActive w = true ->
  _currentHttpState w = ERROR ->
  _httpRetries w = 0 ->
  isRetryableError (_httpStatusCode w) = true ->
  polled_within_delay o1 o2 = true ->
  polled_within_delay o2 o3 = true ->
  polled_within_delay o3 o4 = true ->
  let after os := calls dj (map CallUpdateHttp os) w in
  (_currentHttpState (fst (after [o1])) = RETRY_WAIT /\ _httpRetries (fst (after [o1])) = 1) /\
  (_currentHttpState (fst (after [o1; o2])) = RETRY_WAIT
   /\ _httpRetries (fst (after [o1; o2])) = 2) /\
  (_currentHttpState (fst (after [o1; o2; o3])) = RETRY_WAIT
   /\ _httpRetries (fst (after [o1; o2; o3])) = 3) /\
  _currentHttpState (fst (after [o1; o2; o3; o4])) = IDLE /\
  _asyncOperationActive (fst (after [o1; o2; o3; o4])) = false /\
  snd (after [o1; o2; o3; o4]) = [].
Proof.
  intros Ha Hs Hr Hre P12 P23 P34.
  assert (S1 : exists w1, updateHttpOperations dj o1 w = (w1, [])
            /\ _asyncOperationActive w1 = true /\ _currentHttpState w1 = RETRY_WAIT
            /\ _asyncRequestStartTime w1 = u32 (ms_set o1 + Config.HTTP_RETRY_DELAY_MS)
            /\ isRetryableError (_httpStatusCode w1) = true /\ _httpRetries w1 = 1).
  { exists (fst (updateHttpOperations dj o1 w)).
    unfold updateHttpOperations. rewrite Ha. cbn [negb].
    destruct (_ >? 30000); cbn [_currentHttpState set_httpState with_ctrl]; rewrite ?Hs;
      unfold errorStep; cbn [_httpStatusCode _httpRetries set_httpState with_ctrl];
      rewrite Hre, Hr; cbn [andb]; cbn; rewrite ?Ha, ?Hre; auto 7. }
  destruct S1 as (w1 & E1 & A1 & St1 & T1 & R1 & K1).
  pose proof (WiFi_wait_polled_early o1 o2 w1 1 A1 St1 T1 R1 K1
                ltac:(cbv; split; discriminate) P12) as S2.
  cbn zeta in S2. destruct (updateHttpOperations dj o2 w1) as [w2 ev2] eqn:E2.
  cbn [fst snd] in S2. destruct S2 as (-> & C2 & A2 & St2 & T2 & K2). rewrite <- C2 in R1.
  pose proof (WiFi_wait_polled_early o2 o3 w2 2 A2 St2 T2 R1 K2
                ltac:(cbv; split; discriminate) P23) as S3.
  cbn zeta in S3. destruct (updateHttpOperations dj o3 w2) as [w3 ev3] eqn:E3.
  cbn [fst snd] in S3. destruct S3 as (-> & C3 & A3 & St3 & T3 & K3). rewrite <- C3 in R1.
  pose proof (WiFi_wait_polled_early o3 o4 w3 3 A3 St3 T3 R1 K3
                ltac:(cbv; split; discriminate) P34) as S4.
  cbn zeta in S4. destruct (updateHttpOperations dj o4 w3) as [w4 ev4] eqn:E4.
  cbn [fst snd] in S4. destruct S4 as (-> & C4 & A4 & St4 & K4).
  cbn zeta. cbn [map calls call]. rewrite E1, E2, E3, E4. cbn [fst snd app].
  auto 10.
Qed.

End WiFiRequests.

Lemma wifi_request_flag_and_retry_bound_witness :
  let w := fst (WiFi.calls Samples.parse_any
                  [WiFi.CallStart 0 (Samples.get_request Samples.accept);
                   WiFi.CallUpdateHttp (Samples.wifi_http_obs 10 503 EmptyString);
                   WiFi.CallUpdateHttp (Samples.wifi_http_obs 20 503 EmptyString);
                   WiFi.CallUpdateHttp (Samples.wifi_http_obs 30 503 EmptyString);
                   WiFi.CallUpdateHttp (Samples.wifi_http_obs 40 503 EmptyString)]
                  Samples.wifi_up) in
  WiFi._asyncOperationActive w = true /\ 0 <= WiFi._httpRetries w <= Config.MAX_HTTP_RETRIES.
Proof.
  cbv zeta. split; [reflexivity |].
  refine (proj2 (wifi_request_flag_and_retry_bound Samples.parse_any
                   [WiFi.CallStart 0 (Samples.get_request Samples.accept);
                    WiFi.CallUpdateHttp (Samples.wifi_http_obs 10 503 EmptyString);
                    WiFi.CallUpdateHttp (Samples.wifi_http_obs 20 503 EmptyString);
                    WiFi.CallUpdateHttp (Samples.wifi_http_obs 30 503 EmptyString);
                    WiFi.CallUpdateHttp (Samples.wifi_http_obs 40 503 EmptyString)]
                   Samples.wifi_up eq_refl eq_refl) _).
  reflexivity.
Defined.

Lemma wifi_request_completes_in_four_polls_witness :
  snd (WiFi.calls Samples.parse_any
         (map WiFi.CallUpdateHttp
            [Samples.wifi_http_obs 10 200 "{}"; Samples.wifi_http_obs 20 200 "{}";
             Samples.wifi_http_obs 30 200 "{}"; Samples.wifi_http_obs 40 200 "{}"])
         (snd (WiFi.startAsyncHttpRequest 0 (Samples.get_request Samples.accept)
                 Samples.wifi_up)))
  = [EvCallback JNull true].
Proof.
  pose proof (wifi_request_completes_in_four_polls Samples.parse_any 0
                (Samples.get_request Samples.accept) Samples.wifi_up
                (Samples.wifi_http_obs 10 200 "{}") (Samples.wifi_http_obs 20 200 "{}")
                (Samples.wifi_http_obs 30 200 "{}") (Samples.wifi_http_obs 40 200 "{}")
                (fun _ => true) JNull
                eq_refl eq_refl eq_refl eq_refl eq_refl
                ltac:(by_computation) eq_refl eq_refl
                ltac:(repeat constructor; by_computation)) as H.
  cbv zeta in H. destruct H as (_ & _ & H & _). exact H.
Defined.

Lemma wifi_unsupported_method_accepted_never_sent_witness :
  fst (WiFi.startAsyncHttpRequest 0 Samples.put_request Samples.wifi_up) = true
  /\ snd (WiFi.calls Samples.parse_any
            (map WiFi.CallUpdateHttp
               [Samples.wifi_http_obs 10 200 "{}"; Samples.wifi_http_obs 20 200 "{}"])
            (snd (WiFi.startAsyncHttpRequest 0 Samples.put_request Samples.wifi_up)))
     = [].
Proof.
  pose proof (wifi_unsupported_method_accepted_never_sent Samples.parse_any 0
                Samples.put_request Samples.wifi_up
                [Samples.wifi_http_obs 10 200 "{}"; Samples.wifi_http_obs 20 200 "{}"]
                eq_refl eq_refl eq_refl) as H.
  cbv zeta in H. destruct H as (H1 & H2 & _).
  split; [exact H1 | exact H2].
Defined.

Lemma wifi_retries_burnt_without_resending_witness :
  WiFi._asyncOperationActive
    (fst (WiFi.calls Samples.parse_any
            (map WiFi.CallUpdateHttp
               [Samples.wifi_http_obs 1000 503 EmptyString;
                Samples.wifi_http_obs 1010 503 EmptyString;
                Samples.wifi_http_obs 1020 503 EmptyString;
                Samples.wifi_http_obs 1030 503 EmptyString])
            Samples.wifi_failed))
  = false.
Proof.
  pose proof (wifi_retries_burnt_without_resending Samples.parse_any
                (Samples.wifi_http_obs 1000 503 EmptyString)
                (Samples.wifi_http_obs 1010 503 EmptyString)
                (Samples.wifi_http_obs 1020 503 EmptyString)
                (Samples.wifi_http_obs 1030 503 EmptyString)
                Samples.wifi_failed
                eq_refl eq_refl eq_refl eq_refl eq_refl eq_refl eq_refl) as H.
  cbv zeta in H. destruct H as (_ & _ & _ & _ & H & _). exact H.
Defined.

(** ** Strings, as the URL splitter uses them *)

Section StringFacts.
Open Scope string_scope.

Lemma String_length_append (a b : string) :
  String.length (a ++ b) = (String.length a + String.length b)%nat.
Proof. induction a as [| c a IH]; cbn; [reflexivity | now rewrite IH]. Qed.

Lemma String_substring_all (s : string) : substring 0 (String.length s) s = s.
Proof. induction s as [| c s IH]; cbn; [reflexivity | now rewrite IH]. Qed.

Lemma String_substring_skip (a b : string) (m : nat) :
  substring (String.length a) m (a ++ b) = substring 0 m b.
Proof. induction a as [| c a IH]; cbn; [reflexivity | exact IH]. Qed.

Lemma String_substring_take (a b : string) :
  substring 0 (String.length a) (a ++ b) = a.
Proof. induction a as [| c a IH]; cbn; [now destruct b | now rewrite IH]. Qed.

Lemma string_from_append (a b : string) : string_from (String.length a) (a ++ b) = b.
Proof.
  unfold string_from. rewrite String_length_append, String_substring_skip.
  replace (String.length a + String.length b - String.length a)%nat with (String.length b) by lia.
  apply String_substring_all.
Qed.

Lemma String_index_skips (c : ascii) (pat pre rest : string) :
  index 0 (String c EmptyString) pre = None ->
  index 0 (String c pat) (pre ++ rest)
  = match index 0 (String c pat) rest with
    | Some k => Some (String.length pre + k)%nat
    | None => None
    end.
Proof.
  induction pre as [| a pre IH]; intros H.
  - cbn [append String.length Nat.add]. destruct (index 0 (String c pat) rest); reflexivity.
  - cbn [append]. cbn [index] in H |- *. cbn [prefix] in H |- *.
    destruct (ascii_dec c a) as [E | E].
    + destruct pre; discriminate H.
    + destruct (index 0 (String c EmptyString) pre) eqn:E1; [discriminate H |].
      rewrite IH by reflexivity.
      destruct (index 0 (String c pat) rest); reflexivity.
Qed.

Lemma String_index_at_prefix (pat s : string) :
  pat <> EmptyString -> prefix pat s = true -> index 0 pat s = Some 0%nat.
Proof.
  intros Hp H. destruct s as [| a s].
  - destruct pat; [congruence | discriminate H].
  - cbn [index]. rewrite H. reflexivity.
Qed.

Lemma String_prefix_append (a b : string) : prefix a (a ++ b) = true.
Proof.
  induction a as [| c a IH]; cbn.
  - destruct b; reflexivity.
  - destruct (ascii_dec c c); [exact IH | congruence].
Qed.

Lemma String_append_assoc (a b c : string) : (a ++ b) ++ c = a ++ (b ++ c).
Proof. induction a as [| x a IH]; cbn; [reflexivity | now rewrite IH]. Qed.

Lemma digit_not_special (c : ascii) (d : Z) :
  digit_of c = Some d ->
  is_space c = false /\ c <> "-"%char /\ c <> "+"%char /\ c <> "/"%char /\ c <> ":"%char.
Proof.
  destruct c as [b0 b1 b2 b3 b4 b5 b6 b7].
  destruct b0, b1, b2, b3, b4, b5, b6, b7; vm_compute; intros H;
    try discriminate H; repeat split; discriminate.
Qed.

Lemma all_digits_no_slash (s : string) : all_digits s = true -> index 0 "/" s = None.
Proof.
  induction s as [| c s IH]; intros H; [reflexivity |].
  cbn [all_digits] in H. destruct (digit_of c) as [d |] eqn:E; [| discriminate H].
  apply digit_not_special in E. destruct E as (_ & _ & _ & E & _).
  cbn [index prefix]. destruct (ascii_dec "/" c) as [E1 | E1]; [congruence |].
  rewrite (IH H). reflexivity.
Qed.

Lemma atoi_digits_stops (s rest : string) : forall acc,
  all_digits s = true ->
  rest = EmptyString \/ prefix "/" rest = true ->
  atoi_digits acc (s ++ rest) = atoi_digits acc s.
Proof.
  induction s as [| c s IH]; intros acc H Hr.
  - cbn [append]. destruct Hr as [-> | Hr]; [reflexivity |].
    destruct rest as [| x rest]; [reflexivity |].
    cbn [prefix] in Hr. destruct (ascii_dec "/" x) as [<- | ]; [| discriminate Hr].
    reflexivity.
  - cbn [all_digits] in H. cbn [append atoi_digits].
    destruct (digit_of c); [apply IH; assumption | reflexivity].
Qed.

Lemma atoi_digits_nonneg (s : string) : forall acc,
  (0 <= acc)%Z -> (0 <= atoi_digits acc s)%Z.
Proof.
  induction s as [| c s IH]; intros acc H; cbn [atoi_digits]; [exact H |].
  unfold digit_of.
  destruct ((48 <=? Z.of_N (N_of_ascii c)) && (Z.of_N (N_of_ascii c) <=? 57))%Z eqn:E;
    [| exact H].
  apply andb_true_iff in E. destruct E as [E _]. apply Z.leb_le in E.
  apply IH. lia.
Qed.

Lemma s32_small (x : Z) : (0 <= x < 2 ^ 31)%Z -> s32 x = x.
Proof.
  intros H. unfold s32. change (2 ^ 31)%Z with 2147483648%Z in *.
  change (2 ^ 32)%Z with 4294967296%Z. rewrite Z.mod_small; lia.
Qed.

Lemma decimal_value_port_text (s rest : string) :
  all_digits s = true ->
  rest = EmptyString \/ prefix "/" rest = true ->
  decimal_value (s ++ rest) = atoi_digits 0 s.
Proof.
  intros H Hr. unfold decimal_value. destruct s as [| c s].
  - cbn [append]. destruct Hr as [-> | Hr]; [reflexivity |].
    destruct rest as [| x rest]; [reflexivity |].
    cbn [prefix] in Hr. destruct (ascii_dec "/" x) as [<- | ]; [| discriminate Hr].
    reflexivity.
  - pose proof H as H0. cbn [all_digits] in H0.
    destruct (digit_of c) as [d |] eqn:E; [| discriminate H0].
    destruct (digit_not_special c d E) as (Sp & Mi & Pl & _).
    cbn [append skip_spaces]. rewrite Sp.
    assert (G : atoi_digits 0 (String c (s ++ rest)) = atoi_digits 0 (String c s))
      by (apply (atoi_digits_stops (String c s) rest 0 H Hr)).
    destruct c as [b0 b1 b2 b3 b4 b5 b6 b7].
    destruct b0, b1, b2, b3, b4, b5, b6, b7; try congruence; exact G.
Qed.

Lemma atoi_port_text (s rest : string) :
  all_digits s = true ->
  rest = EmptyString \/ prefix "/" rest = true ->
  (atoi_digits 0 s < 2 ^ 31)%Z ->
  atoi (s ++ rest) = atoi_digits 0 s.
Proof.
  intros H Hr Hb. unfold atoi. rewrite (decimal_value_port_text s rest H Hr).
  apply s32_small. split; [apply atoi_digits_nonneg; lia | exact Hb].
Qed.

End StringFacts.

(** ** Requests on the cellular transport *)

Section UrlSplit.

Import GPRS.

Open Scope string_scope.

(** X13.  Splitting a URL without a port.  For a URL made of a scheme
    without a colon, the separator, a host without slash or colon, and
    a path that is empty or starts with a slash, host and path within
    their buffers, a connected idle manager accepts the request and
    stores exactly that host; the path as given, or a single slash when
    there is none; and port 443 when the URL starts with the letters
    https, else 80. *)
Theorem gprs_url_split (ms : Z) (r : Request) (g : GPRSManager)
  (scheme host path : string) :
  _asyncOperationActive (http g) = false ->
  isConnected g = true ->
  url r = scheme ++ "://" ++ host ++ path ->
  index 0 ":" scheme = None ->
  index 0 "/" host = None ->
  index 0 ":" host = None ->
  path = EmptyString \/ prefix "/" path = true ->
  (String.length host < Config.GPRS_MAX_HOST_LEN)%nat ->
  (String.length path < Config.GPRS_MAX_PATH_LEN)%nat ->
  let res := startAsyncHttpRequest ms r g in
  fst res = true /\
  _gprsHost (http (snd res)) = host /\
  _gprsPath (http (snd res)) = (if (String.length path =? 0)%nat then "/" else path) /\
  _gprsPort (http (snd res)) = (if prefix "https" (url r) then 443 else 80)%Z /\
  _currentHttpState (http (snd res)) = CLIENT_CONNECT.
Proof.
  intros Ha Hc Hu Hs Hh1 Hh2 Hp Lh Lp. cbn zeta.
  unfold startAsyncHttpRequest. rewrite Ha, Hc. cbn [negb].
  assert (E0 : index 0 "://" (url r) = Some (String.length scheme)).
  { rewrite Hu. rewrite (String_index_skips ":" "//" scheme _ Hs).
    rewrite String_index_at_prefix; [f_equal; lia | discriminate | apply String_prefix_append]. }
  rewrite E0.
  assert (E1 : string_from (String.length scheme + 3) (url r) = host ++ path).
  { rewrite Hu. change (scheme ++ "://" ++ host ++ path)
      with (scheme ++ String ":" (String "/" (String "/" (host ++ path)))).
    replace (scheme ++ String ":" (String "/" (String "/" (host ++ path))))
      with ((scheme ++ "://") ++ (host ++ path)).
    2:{ clear. induction scheme as [| c s IH]; cbn; [reflexivity | now rewrite IH]. }
    replace (String.length scheme + 3)%nat with (String.length (scheme ++ "://")).
    2:{ rewrite String_length_append. reflexivity. }
    apply string_from_append. }
  rewrite E1.
  assert (E2 : index 0 "/" (host ++ path)
               = if (String.length path =? 0)%nat then None else Some (String.length host)).
  { rewrite (String_index_skips "/" "" host _ Hh1). destruct Hp as [-> | Hp].
    - reflexivity.
    - rewrite String_index_at_prefix by (try discriminate; exact Hp).
      destruct path; [discriminate Hp |]. cbn [String.length Nat.eqb]. f_equal. lia. }
  assert (E3 : match index 0 ":" (host ++ path) with
               | Some c => (String.length host <= c)%nat
               | None => True
               end).
  { rewrite (String_index_skips ":" "" host _ Hh2). destruct (index 0 ":" path); [lia | exact I]. }
  assert (E4 : String.length (host ++ path) = String.length host -> path = EmptyString).
  { rewrite String_length_append. destruct path; [reflexivity | cbn; lia]. }
  rewrite E2.
  destruct (index 0 ":" (host ++ path)) as [c |] eqn:Ec.
  - destruct (String.length path =? 0)%nat eqn:El.
    + apply Nat.eqb_eq in El. destruct path; [| discriminate El].
      rewrite (String_index_skips ":" "" host _ Hh2) in Ec. discriminate Ec.
    + assert (Hlt : (c <? String.length host)%nat = false) by (apply Nat.ltb_ge; exact E3).
      rewrite Hlt.
      assert (Hle : (Config.GPRS_MAX_HOST_LEN <=? String.length host)%nat = false)
        by (apply Nat.leb_gt; exact Lh).
      rewrite Hle. rewrite string_from_append.
      assert (Hlp : (Config.GPRS_MAX_PATH_LEN <=? String.length path)%nat = false)
        by (apply Nat.leb_gt; exact Lp).
      rewrite Hlp. rewrite String_substring_take. cbn. auto.
  - destruct (String.length path =? 0)%nat eqn:El.
    + apply Nat.eqb_eq in El. destruct path; [| discriminate El].
      assert (Hle : (Config.GPRS_MAX_HOST_LEN <=? String.length (host ++ ""))%nat = false).
      { apply Nat.leb_gt. rewrite String_length_append. cbn. lia. }
      rewrite Hle. rewrite String_substring_all.
      replace (host ++ "") with host.
      2:{ clear. induction host as [| a h IH]; cbn; [reflexivity | now rewrite <- IH]. }
      cbn. auto.
    + assert (Hle : (Config.GPRS_MAX_HOST_LEN <=? String.length host)%nat = false)
        by (apply Nat.leb_gt; exact Lh).
      rewrite Hle. rewrite string_from_append.
      assert (Hlp : (Config.GPRS_MAX_PATH_LEN <=? String.length path)%nat = false)
        by (apply Nat.leb_gt; exact Lp).
      rewrite Hlp. rewrite String_substring_take. cbn. auto.
Qed.


(** X14.  Splitting a URL with a port.  With a colon and decimal
    digits between such a host and path, the same host and path are
    stored and the port is the number the digits spell (zero when there
    are none), whatever the scheme, provided that number is below 2^31
    (the port is an [int]). *)
Theorem gprs_url_split_with_port (ms : Z) (r : Request) (g : GPRSManager)
  (scheme host port_text path : string) :
  _asyncOperationActive (http g) = false ->
  isConnected g = true ->
  url r = scheme ++ "://" ++ host ++ ":" ++ port_text ++ path ->
  index 0 ":" scheme = None ->
  index 0 "/" host = None ->
  index 0 ":" host = None ->
  all_digits port_text = true ->
  path = EmptyString \/ prefix "/" path = true ->
  (String.length host < Config.GPRS_MAX_HOST_LEN)%nat ->
  (String.length path < Config.GPRS_MAX_PATH_LEN)%nat ->
  (atoi_digits 0 port_text < 2 ^ 31)%Z ->
  let res := startAsyncHttpRequest ms r g in
  fst res = true /\
  _gprsHost (http (snd res)) = host /\
  _gprsPath (http (snd res)) = (if (String.length path =? 0)%nat then "/" else path) /\
  _gprsPort (http (snd res)) = atoi_digits 0 port_text.
Proof.
  intros Ha Hc Hu Hs Hh1 Hh2 Hd Hp Lh Lp Hb. cbn zeta.
  unfold startAsyncHttpRequest. rewrite Ha, Hc. cbn [negb].
  assert (E0 : index 0 "://" (url r) = Some (String.length scheme)).
  { rewrite Hu. rewrite (String_index_skips ":" "//" scheme _ Hs).
    rewrite String_index_at_prefix; [f_equal; lia | discriminate | apply String_prefix_append]. }
  rewrite E0.
  set (tail := ":" ++ port_text ++ path) in *.
  assert (E1 : string_from (String.length scheme + 3) (url r) = host ++ tail).
  { rewrite Hu. rewrite <- (String_append_assoc scheme "://" (host ++ tail)).
    replace (String.length scheme + 3)%nat with (String.length (scheme ++ "://")).
    2:{ rewrite String_length_append. reflexivity. }
    apply string_from_append. }
  rewrite E1.
  assert (Ec : index 0 ":" (host ++ tail) = Some (String.length host)).
  { rewrite (String_index_skips ":" "" host _ Hh2). subst tail.
    rewrite String_index_at_prefix; [f_equal; lia | discriminate | apply String_prefix_append]. }
  assert (Ep : index 0 "/" (host ++ tail)
               = if (String.length path =? 0)%nat then None
                 else Some (String.length host + S (String.length port_text))%nat).
  { rewrite (String_index_skips "/" "" host _ Hh1). subst tail.
    change (":" ++ port_text ++ path) with (String ":" (port_text ++ path)).
    cbn [index prefix]. destruct (ascii_dec "/" ":") as [E | _]; [discriminate E |].
    rewrite (String_index_skips "/" "" port_text _ (all_digits_no_slash _ Hd)).
    destruct Hp as [-> | Hp]; [reflexivity |].
    rewrite String_index_at_prefix by (try discriminate; exact Hp).
    destruct path; [discriminate Hp |]. cbn [String.length Nat.eqb]. f_equal. lia. }
  assert (Et : string_from (String.length host + 1) (host ++ tail) = port_text ++ path).
  { subst tail. rewrite <- (String_append_assoc host ":" (port_text ++ path)).
    replace (String.length host + 1)%nat with (String.length (host ++ ":")).
    2:{ rewrite String_length_append. reflexivity. }
    apply string_from_append. }
  assert (Hle : (Config.GPRS_MAX_HOST_LEN <=? String.length host)%nat = false)
    by (apply Nat.leb_gt; exact Lh).
  assert (Hlp : (Config.GPRS_MAX_PATH_LEN <=? String.length path)%nat = false)
    by (apply Nat.leb_gt; exact Lp).
  rewrite Ec, Ep.
  destruct (String.length path =? 0)%nat eqn:El.
  - assert (Hlt : (String.length host <? String.length (host ++ tail))%nat = true).
    { apply Nat.ltb_lt. rewrite String_length_append. subst tail. cbn. lia. }
    rewrite Hlt, Hle, String_substring_take, Et. cbn.
    rewrite (atoi_port_text port_text path Hd Hp Hb). auto.
  - assert (Hlt : (String.length host <? String.length host + S (String.length port_text))%nat
                  = true) by (apply Nat.ltb_lt; lia).
    rewrite Hlt, Hle, String_substring_take, Et.
    assert (Epath : string_from (String.length host + S (String.length port_text))
                      (host ++ tail) = path).
    { subst tail. rewrite <- (String_append_assoc host ":" (port_text ++ path)).
      rewrite <- (String_append_assoc (host ++ ":") port_text path).
      replace (String.length host + S (String.length port_text))%nat
        with (String.length ((host ++ ":") ++ port_text)).
      2:{ rewrite !String_length_append. cbn. lia. }
      apply string_from_append. }
    rewrite Epath, Hlp. cbn.
    rewrite (atoi_port_text port_text path Hd Hp Hb). auto.
Qed.

End UrlSplit.

Section CellularRequests.

Import GPRS.

Variable dj : string -> option JsonDocument.

#[local] Arguments u8 : simpl never.
#[local] Arguments u32 : simpl never.

(** X15.  What a refused request leaves behind.  When
    [startAsyncHttpRequest] returns false, every member of the manager
    is as before except possibly the host buffer; the manager is
    untouched altogether when a request was in flight, when the FSM was
    not Operational, or when the URL has no scheme separator.  (A path
    that is too long is detected after the host has been copied.) *)
Theorem gprs_rejected_request_touches_only_host (ms : Z) (r : Request) (g : GPRSManager) :
  fst (startAsyncHttpRequest ms r g) = false ->
  let g' := snd (startAsyncHttpRequest ms r g) in
  on_http (fun h => with_target (_gprsHost (http g)) (_gprsPath h) (_gprsPort h) h) g' = g /\
  (_asyncOperationActive (http g) = true \/ isConnected g = false
   \/ String.index 0 "://" (url r) = None -> g' = g).
Proof.
  destruct g as [apn us pw pin tok dsp st last rc mr af h].
  destruct h as [hs hu hm ht hp hc hn hst ha hr hh hpa hpo hb hco hl hch hbr hj].
  cbn zeta. unfold startAsyncHttpRequest, isConnected.
  cbn [http _asyncOperationActive _currentGprsState _gprsHost].
  destruct ha; cbn [negb fst snd]; [intros _; split; [reflexivity | intros _; reflexivity] |].
  destruct (GPRSState_eqb st GPRS_STATE_OPERATIONAL); cbn [negb fst snd];
    [| intros _; split; [reflexivity | intros _; reflexivity]].
  destruct (String.index 0 "://" (url r)) as [pe |];
    [| intros _; split; [reflexivity | intros _; reflexivity]].
  match goal with |- context [(Config.GPRS_MAX_HOST_LEN <=? ?x)%nat] =>
    destruct (Config.GPRS_MAX_HOST_LEN <=? x)%nat end;
    [intros _; split; [reflexivity | intros _; reflexivity] |].
  match goal with |- context [String.index 0 "/" ?x] =>
    destruct (String.index 0 "/" x) as [p |] end.
  - match goal with |- context [(Config.GPRS_MAX_PATH_LEN <=? ?x)%nat] =>
      destruct (Config.GPRS_MAX_PATH_LEN <=? x)%nat end.
    + intros _. split; [reflexivity |].
      intros [H | [H | H]]; discriminate H.
    + cbn [fst]. discriminate.
  - cbn [fst]. discriminate.
Qed.

(** X16.  A refused socket demotes the link.  When the client cannot
    connect to the server while the request is in ClientConnect within
    its time-out, the poll moves the connection FSM from Operational to
    ConnectionLost, stamped and mirrored, so [isConnected()] turns
    false; the request goes to Error and stays in flight, and no
    callback is invoked. *)
Theorem gprs_socket_failure_drops_connection (o : HttpObs) (s : St) :
  _asyncOperationActive (http (fst s)) = true ->
  isConnected (fst s) = true ->
  _currentHttpState (http (fst s)) = CLIENT_CONNECT ->
  u32 (ms_now o - _asyncRequestStartTime (http (fst s))) <= Config.GPRS_HTTP_CONNECT_TIMEOUT_MS ->
  client_connect o = false ->
  exists s',
    updateHttpOperations dj o s = Some (s', []) /\
    isConnected (fst s') = false /\
    conn_of (fst s') =
      (GPRS_STATE_CONNECTION_LOST, ms_transition o, 0,
       _modemResetCount (fst s), _gprsAttachFailCount (fst s)) /\
    _currentHttpState (http (fst s')) = ERROR /\
    _asyncOperationActive (http (fst s')) = true /\
    (_deviceState (fst s) = true ->
     currentGprsState (snd s') = GPRS_STATE_CONNECTION_LOST).
Proof.
  destruct s as [g ds].
  destruct g as [apn us pw pin tok dsp st last rc mr af h].
  destruct h as [hs hu hm ht hp hc hn hst ha hr hh hpa hpo hb hco hl hch hbr hj].
  unfold isConnected.
  cbn [fst snd http _asyncOperationActive _currentGprsState _currentHttpState _httpRetries
       _asyncRequestStartTime _gprsHttpStatusCode _modemResetCount _gprsAttachFailCount
       _deviceState].
  intros -> Hc -> Ht Hcc. apply GPRSState_eqb_eq in Hc. subst st.
  unfold updateHttpOperations.
  cbn [fst snd http _asyncOperationActive _currentGprsState _currentHttpState _httpRetries
       _asyncRequestStartTime _gprsHttpStatusCode negb GPRSState_eqb].
  cbn [GPRSState_eq_dec]. cbn -[u32 Z.gtb Config.GPRS_HTTP_TOTAL_TIMEOUT_MS
                               Config.GPRS_HTTP_CONNECT_TIMEOUT_MS].
  assert (E2 : (u32 (ms_now o - hst) >? Config.GPRS_HTTP_CONNECT_TIMEOUT_MS) = false)
    by (rewrite Z.gtb_ltb; apply Z.ltb_ge; exact Ht).
  assert (E1 : (u32 (ms_now o - hst) >? Config.GPRS_HTTP_TOTAL_TIMEOUT_MS) = false).
  { rewrite Z.gtb_ltb. apply Z.ltb_ge.
    unfold Config.GPRS_HTTP_TOTAL_TIMEOUT_MS, Config.GPRS_HTTP_CONNECT_TIMEOUT_MS in *. lia. }
  rewrite E1. cbn -[u32 Z.gtb Config.GPRS_HTTP_CONNECT_TIMEOUT_MS]. rewrite E2, Hcc.
  eexists. split; [reflexivity |].
  destruct dsp; cbn; repeat split; try reflexivity; intros; try discriminate.
Qed.

(** X17.  A request is parked while the link is down.  While the
    connection FSM is not Operational, a poll of a request in flight
    only moves it to Error unless it was Idle, Complete or already in
    Error; a further poll changes nothing.  The request stays
    in flight with its retry counter untouched, nothing is retried or
    given up, and no callback is invoked. *)
Theorem gprs_request_parked_while_link_down (o1 o2 : HttpObs) (s : St) :
  _asyncOperationActive (http (fst s)) = true ->
  isConnected (fst s) = false ->
  exists g',
    updateHttpOperations dj o1 s = Some ((g', snd s), []) /\
    updateHttpOperations dj o2 (g', snd s) = Some ((g', snd s), []) /\
    _asyncOperationActive (http g') = true /\
    _httpRetries (http g') = _httpRetries (http (fst s)) /\
    conn_of g' = conn_of (fst s) /\
    _currentHttpState (http g')
    = (if http_in_flight (_currentHttpState (http (fst s))) then ERROR
       else _currentHttpState (http (fst s))).
Proof.
  destruct s as [g ds].
  destruct g as [apn us pw pin tok dsp st last rc mr af h].
  destruct h as [hs hu hm ht hp hc hn hst ha hr hh hpa hpo hb hco hl hch hbr hj].
  unfold isConnected.
  cbn [fst snd http _asyncOperationActive _currentGprsState _currentHttpState _httpRetries].
  intros -> Hc.
  unfold updateHttpOperations.
  cbn [fst snd http _asyncOperationActive _currentGprsState _currentHttpState negb].
  rewrite Hc. cbn [negb].
  destruct hs; cbn [http_in_flight]; eexists; (split; [reflexivity |]);
    cbn [on_http set_http set_httpState with_ctrl http _asyncOperationActive
         _currentGprsState _currentHttpState negb _asyncRequestStartTime _httpRetries];
    rewrite ?Hc; cbn [negb http_in_flight]; repeat split; reflexivity.
Qed.
(** X18.  The retry wait is cut short on this transport too.  In
    RetryWait on an Operational link, a poll that comes before the start
    time that the Error state moved into the future is taken by the
    overall time-out for a request long overdue: the request goes
    through Error at once, where it either arms the next wait with one
    more retry counted or is given up; it is not sent again. *)
Theorem gprs_retry_wait_cut_short (o : HttpObs) (s : St) :
  _asyncOperationActive (http (fst s)) = true ->
  isConnected (fst s) = true ->
  _currentHttpState (http (fst s)) = RETRY_WAIT ->
  0 <= _httpRetries (http (fst s)) <= Config.MAX_HTTP_RETRIES ->
  0 <= ms_now o < _asyncRequestStartTime (http (fst s)) ->
  _asyncRequestStartTime (http (fst s)) < 2 ^ 32 ->
  _asyncRequestStartTime (http (fst s)) - ms_now o <= Config.HTTP_RETRY_DELAY_MS ->
  exists g',
    updateHttpOperations dj o s = Some ((g', snd s), []) /\
    conn_of g' = conn_of (fst s) /\
    _currentHttpState (http g') <> CLIENT_CONNECT /\
    (if isRetryableError (_gprsHttpStatusCode (http (fst s)))
        && (_httpRetries (http (fst s)) <? Config.MAX_HTTP_RETRIES)
     then _currentHttpState (http g') = RETRY_WAIT
          /\ _httpRetries (http g') = _httpRetries (http (fst s)) + 1
          /\ _asyncRequestStartTime (http g') = u32 (ms_set o + Config.HTTP_RETRY_DELAY_MS)
     else _currentHttpState (http g') = IDLE /\ _asyncOperationActive (http g') = false).
Proof.
  destruct s as [g ds].
  destruct g as [apn us pw pin tok dsp st last rc mr af h].
  destruct h as [hs hu hm ht hp hc hn hst ha hr hh hpa hpo hb hco hl hch hbr hj].
  unfold isConnected.
  cbn [fst snd http _asyncOperationActive _currentGprsState _currentHttpState _httpRetries
       _asyncRequestStartTime _gprsHttpStatusCode].
  intros -> Hc -> Hr H1 H2 H3.
  pose proof (early_poll_wraps _ _ H1 H2 H3) as Hw.
  unfold updateHttpOperations.
  cbn [fst snd http _asyncOperationActive _currentGprsState _currentHttpState _httpRetries
       _asyncRequestStartTime _gprsHttpStatusCode negb]. rewrite Hc. cbn [negb http_in_flight andb].
  destruct (u32 (ms_now o - hst) >? Config.GPRS_HTTP_TOTAL_TIMEOUT_MS) eqn:E; bool_to_Z;
    [| unfold Config.GPRS_HTTP_TOTAL_TIMEOUT_MS in E; lia].
  cbn [on_http set_http set_httpState with_ctrl http _currentHttpState].
  eexists. split; [reflexivity |].
  unfold errorStep.
  cbn [http _gprsHttpStatusCode _httpRetries on_http set_http set_httpState with_ctrl].
  destruct (isRetryableError hco); cbn [andb].
  - destruct (hr <? Config.MAX_HTTP_RETRIES) eqn:E1; bool_to_Z; cbn.
    + unfold Config.MAX_HTTP_RETRIES in *. rewrite u8_succ by lia.
      repeat split; try reflexivity. discriminate.
    + repeat split; try reflexivity. discriminate.
  - cbn. repeat split; try reflexivity. discriminate.
Qed.

End CellularRequests.

Lemma gprs_url_split_witness :
  GPRS._gprsHost
    (GPRS.http (snd (GPRS.startAsyncHttpRequest 0 (Samples.get_request Samples.accept)
                       Samples.gprs_operational)))
  = "api.example.com"%string.
Proof.
  pose proof (gprs_url_split 0 (Samples.get_request Samples.accept)
                Samples.gprs_operational "http" "api.example.com" "/data"
                eq_refl eq_refl eq_refl eq_refl eq_refl eq_refl (or_intror eq_refl)
                ltac:(vm_compute; lia) ltac:(vm_compute; lia)) as H.
  cbv zeta in H. destruct H as (_ & H & _). exact H.
Defined.

Lemma gprs_url_split_with_port_witness :
  GPRS._gprsPort
    (GPRS.http (snd (GPRS.startAsyncHttpRequest 0 Samples.port_request
                       Samples.gprs_operational)))
  = 8080.
Proof.
  pose proof (gprs_url_split_with_port 0 Samples.port_request
                Samples.gprs_operational "http" "10.0.0.7" "8080" "/v1/th"
                eq_refl eq_refl eq_refl eq_refl eq_refl eq_refl eq_refl (or_intror eq_refl)
                ltac:(vm_compute; lia) ltac:(vm_compute; lia) eq_refl) as H.
  cbv zeta in H. destruct H as (_ & _ & _ & H). rewrite H. reflexivity.
Defined.

Lemma gprs_rejected_request_touches_only_host_witness :
  snd (GPRS.startAsyncHttpRequest 0 (Samples.get_request Samples.accept)
         Samples.gprs_disabled)
  = Samples.gprs_disabled.
Proof.
  pose proof (gprs_rejected_request_touches_only_host 0
                (Samples.get_request Samples.accept) Samples.gprs_disabled eq_refl) as H.
  cbv zeta in H. destruct H as [_ H]. apply H. right. left. reflexivity.
Defined.

Lemma gprs_socket_failure_drops_connection_witness :
  exists s',
    GPRS.updateHttpOperations Samples.parse_any (Samples.refused_socket 100)
      (Samples.gprs_requesting, DeviceState_init) = Some (s', [])
    /\ GPRS.isConnected (fst s') = false.
Proof.
  destruct (gprs_socket_failure_drops_connection Samples.parse_any
              (Samples.refused_socket 100) (Samples.gprs_requesting, DeviceState_init)
              eq_refl eq_refl eq_refl ltac:(by_computation) eq_refl)
    as (s' & H1 & H2 & _).
  exists s'. split; [exact H1 | exact H2].
Defined.

Lemma gprs_request_parked_while_link_down_witness :
  exists g',
    GPRS.updateHttpOperations Samples.parse_any (Samples.gprs_http_obs 100)
      (GPRS.set_state GPRS_STATE_CONNECTION_LOST Samples.gprs_requesting, DeviceState_init)
    = Some ((g', DeviceState_init), [])
    /\ GPRS._currentHttpState (GPRS.http g') = GPRS.ERROR.
Proof.
  destruct (gprs_request_parked_while_link_down Samples.parse_any
              (Samples.gprs_http_obs 100) (Samples.gprs_http_obs 200)
              (GPRS.set_state GPRS_STATE_CONNECTION_LOST Samples.gprs_requesting,
               DeviceState_init) eq_refl eq_refl)
    as (g' & H1 & _ & _ & _ & _ & H2).
  exists g'. split; [exact H1 | exact H2].
Defined.

Lemma gprs_retry_wait_cut_short_witness :
  exists g',
    GPRS.updateHttpOperations Samples.parse_any (Samples.gprs_http_obs 1010)
      (Samples.gprs_waiting, DeviceState_init)
    = Some ((g', DeviceState_init), [])
    /\ GPRS._httpRetries (GPRS.http g') = 2.
Proof.
  destruct (gprs_retry_wait_cut_short Samples.parse_any (Samples.gprs_http_obs 1010)
              (Samples.gprs_waiting, DeviceState_init)
              eq_refl eq_refl eq_refl ltac:(by_computation) ltac:(by_computation)
              eq_refl ltac:(by_computation))
    as (g' & H1 & _ & _ & H2).
  exists g'. split; [exact H1 |]. vm_compute in H2. apply H2.
Defined.

(** ** The facade *)

Section FacadeBookkeeping.

Import Facade.

Variable dj : string -> option JsonDocument.

#[local] Arguments WiFi.connect : simpl never.
#[local] Arguments GPRS.connect : simpl never.
#[local] Arguments WiFi.startAsyncHttpRequest : simpl never.
#[local] Arguments GPRS.startAsyncHttpRequest : simpl never.
#[local] Arguments WiFi.updateHttpOperations : simpl never.
#[local] Arguments GPRS.updateHttpOperations : simpl never.

Lemma determine_active_present f : active_present (determineActiveInterface f) = true.
Proof.
  destruct f as [p wm gm dsp act].
  unfold determineActiveInterface, active_present, wifiConnected, gprsConnected.
  cbn [_preference getWiFiManager getGPRSManager _wifiManagerRaw _gprsManagerRaw present
       _activeInterface set_active].
  destruct p, wm as [w |], gm as [g |]; cbn;
    try destruct (WiFi.isConnected w); try destruct (GPRS.isConnected g); reflexivity.
Qed.

Lemma connect_ends_with_selection o s :
  exists f1, fst (snd (fst (connect o s))) = determineActiveInterface f1.
Proof.
  unfold connect. destruct (connect_attempt o s) as [[ok s1] evs]. cbn. eauto.
Qed.

Lemma switchToWiFi_ends o s :
  snd (fst (switchToWiFi o s)) = s \/
  exists f1, fst (snd (fst (switchToWiFi o s))) = determineActiveInterface f1.
Proof.
  unfold switchToWiFi. destruct (getWiFiManager (fst s)) as [w |]; [| left; reflexivity].
  right. destruct (wifi_connect o w s) as [[ok s1] ev1]. destruct ok.
  - destruct (gprs_disconnect_if_connected s1) as [s2 ev2]. cbn. eauto.
  - cbn. eauto.
Qed.

Lemma switchToGPRS_ends o s :
  snd (fst (switchToGPRS o s)) = s \/
  exists f1, fst (snd (fst (switchToGPRS o s))) = determineActiveInterface f1.
Proof.
  unfold switchToGPRS. destruct (getGPRSManager (fst s)) as [g |]; [| left; reflexivity].
  right. destruct (gprs_connect o g s) as [[ok s1] ev1]. destruct ok.
  - destruct (wifi_disconnect_if_connected s1) as [s2 ev2]. cbn. eauto.
  - cbn. eauto.
Qed.

Lemma active_start_present ms r s :
  active_present (fst s) = true ->
  active_present (fst (snd (active_startAsyncHttpRequest ms r s))) = true.
Proof.
  destruct s as [f ds]. destruct f as [p wm gm dsp act].
  unfold active_startAsyncHttpRequest, active_present.
  cbn [fst snd _activeInterface getWiFiManager getGPRSManager _wifiManagerRaw _gprsManagerRaw].
  destruct act as [[|] |]; [destruct wm as [w |] | destruct gm as [g |] |]; cbn; auto.
  - destruct (WiFi.startAsyncHttpRequest ms r w). cbn. auto.
  - destruct (GPRS.startAsyncHttpRequest ms r g). cbn. auto.
Qed.

Lemma start_present o ms r s :
  active_present (fst s) = true ->
  active_present (fst (snd (fst (startAsyncHttpRequest o ms r s)))) = true.
Proof.
  intros H. unfold startAsyncHttpRequest.
  destruct (negb (isConnected (fst s))).
  - destruct (connect_ends_with_selection o s) as [f1 E].
    destruct (connect o s) as [[ok s1] evs]. cbn [fst snd] in E.
    assert (H1 : active_present (fst s1) = true) by (rewrite E; apply determine_active_present).
    destruct ok; cbn [negb]; [| exact H1].
    destruct (activeConnected (fst s1)); [| exact H1].
    pose proof (active_start_present ms r s1 H1) as H2.
    destruct (active_startAsyncHttpRequest ms r s1). exact H2.
  - cbn [negb]. destruct (activeConnected (fst s)); [| exact H].
    pose proof (active_start_present ms r s H) as H2.
    destruct (active_startAsyncHttpRequest ms r s). exact H2.
Qed.

(** The facade's poll fails to return only where the poll of its active
    cellular manager does. *)
Lemma update_present ow og s :
  active_present (fst s) = true ->
  match updateHttpOperations dj ow og s with
  | Some (s', _) => active_present (fst s') = true
  | None => active_reads_chunked_body (fst s) = true
  end.
Proof.
  destruct s as [f ds]. destruct f as [p wm gm dsp act].
  unfold updateHttpOperations, active_present, active_reads_chunked_body.
  cbn [fst snd _activeInterface getWiFiManager getGPRSManager _wifiManagerRaw _gprsManagerRaw].
  destruct act as [[|] |]; [destruct wm as [w |] | destruct gm as [g |] |]; cbn;
    intros H; auto.
  - destruct (WiFi.updateHttpOperations dj ow w). reflexivity.
  - pose proof (http_poll_conn dj og (g, ds)) as Hp.
    destruct (GPRS.updateHttpOperations dj og (g, ds)) as [[[g' ds'] ev] |];
      [reflexivity |].
    cbn [fst] in Hp. destruct Hp as [H1 H2].
    unfold GPRS.reads_chunked_body. rewrite H1. exact H2.
Qed.

(** X19.  The active pointer never dangles.  A facade whose active
    interface is null or one of its own managers is still so after
    [connect()], [disconnect()], [switchToWiFi()], [switchToGPRS()],
    [setPreference()], [startAsyncHttpRequest()] and every
    [updateHttpOperations()] that returns; the constructors establish
    it.  The one [updateHttpOperations()] that does not return polls an
    active cellular manager that is receiving a body in chunked
    encoding. *)
Theorem active_interface_names_a_manager
  (o : ConnObs) (ms : Z) (r : Request) (p : NetworkPreference)
  (ow : WiFi.HttpObs) (og : GPRS.HttpObs) (s : St) :
  active_present (fst s) = true ->
  active_present (fst (snd (fst (connect o s)))) = true /\
  active_present (fst (fst (disconnect s))) = true /\
  active_present (fst (snd (fst (switchToWiFi o s)))) = true /\
  active_present (fst (snd (fst (switchToGPRS o s)))) = true /\
  active_present (setPreference p (fst s)) = true /\
  active_present (fst (snd (fst (startAsyncHttpRequest o ms r s)))) = true /\
  match updateHttpOperations dj ow og s with
  | Some (s', _) => active_present (fst s') = true
  | None => active_reads_chunked_body (fst s) = true
  end /\
  (forall wm gm d, active_present (init p wm gm d) = true).
Proof.
  intros H. split; [| split; [| split; [| split; [| split; [| split; [| split]]]]]].
  - destruct (connect_ends_with_selection o s) as [f1 E]. rewrite E.
    apply determine_active_present.
  - unfold disconnect. destruct (wifi_disconnect_if_connected s) as [s1 ev1].
    destruct (gprs_disconnect_if_connected s1) as [s2 ev2]. reflexivity.
  - destruct (switchToWiFi_ends o s) as [E | [f1 E]]; rewrite E;
      [exact H | apply determine_active_present].
  - destruct (switchToGPRS_ends o s) as [E | [f1 E]]; rewrite E;
      [exact H | apply determine_active_present].
  - apply determine_active_present.
  - apply start_present. exact H.
  - apply update_present. exact H.
  - intros wm gm d. apply determine_active_present.
Qed.


(** X20.  What [isConnected()] reports right after the active
    interface has been derived.  Under a PREFERRED preference it is true
    exactly when one of the two transports is connected.  Under an ONLY
    preference it is the status of the named transport when the facade
    has that manager; when it has not, the active pointer is null and
    the status of the other transport is reported. *)
Theorem isConnected_after_selection (f : NetworkFacade) :
  isConnected (determineActiveInterface f) =
  match _preference f with
  | WIFI_ONLY => if present (getWiFiManager f) then wifiConnected f else gprsConnected f
  | GPRS_ONLY => if present (getGPRSManager f) then gprsConnected f else wifiConnected f
  | WIFI_PREFERRED | GPRS_PREFERRED => wifiConnected f || gprsConnected f
  end.
Proof.
  destruct f as [p wm gm dsp act].
  unfold isConnected, determineActiveInterface, wifiConnected, gprsConnected.
  cbn [_preference getWiFiManager getGPRSManager _wifiManagerRaw _gprsManagerRaw present
       _activeInterface set_active].
  destruct p, wm as [w |], gm as [g |]; cbn;
    try destruct (WiFi.isConnected w); try destruct (GPRS.isConnected g); reflexivity.
Qed.

(** X21.  After [disconnect()] the facade still reports the cellular
    link.  The call takes the WiFi station down and clears the active
    pointer, but leaves the cellular manager and the shared record as
    they were, so [isConnected()] afterwards is the cellular status from
    before the call.  Each transport is told to disconnect exactly when
    it was connected. *)
Theorem disconnect_leaves_gprs_reported (s : St) :
  let res := disconnect s in
  let f' := fst (fst res) in
  wifiConnected f' = false /\
  getCurrentInterface f' = None /\
  getGPRSManager f' = getGPRSManager (fst s) /\
  snd (fst res) = snd s /\
  isConnected f' = gprsConnected (fst s) /\
  (In EvWiFiDisconnect (snd res) <-> wifiConnected (fst s) = true) /\
  (In EvGprsDisconnect (snd res) <-> gprsConnected (fst s) = true).
Proof.
  destruct s as [f ds]. destruct f as [p wm gm dsp act].
  cbn zeta. unfold disconnect, wifi_disconnect_if_connected, gprs_disconnect_if_connected,
    isConnected, wifiConnected, gprsConnected, GPRS.disconnect, WiFi.disconnect.
  cbn [fst snd getWiFiManager getGPRSManager _wifiManagerRaw _gprsManagerRaw].
  destruct wm as [w |]; [destruct (WiFi.isConnected w) eqn:Ew |];
    (destruct gm as [g |]; [destruct (GPRS.isConnected g) eqn:Eg |]);
    cbn; rewrite ?Ew, ?Eg; cbn; rewrite ?Ew, ?Eg; repeat split; auto; try discriminate;
    try (intros [H | H]; try discriminate H; try contradiction; auto);
    try (intros [H | [H | H]]; try discriminate H; try contradiction; auto);
    try contradiction; auto.
Qed.

(** X22.  An ONLY preference touches one transport.  [connect()]
    under WIFI_ONLY leaves the cellular manager and the shared record
    alone and issues no cellular command; under GPRS_ONLY it leaves the
    WiFi manager alone and issues no WiFi command.  Without the named
    manager it fails. *)
Theorem connect_with_only_preference_touches_one_manager (o : ConnObs) (s : St) :
  let res := connect o s in
  (_preference (fst s) = WIFI_ONLY ->
   getGPRSManager (fst (snd (fst res))) = getGPRSManager (fst s) /\
   snd (snd (fst res)) = snd s /\
   (forall ok, ~ In (EvGprsConnect ok) (snd res)) /\ ~ In EvGprsDisconnect (snd res) /\
   (getWiFiManager (fst s) = None -> fst (fst res) = false)) /\
  (_preference (fst s) = GPRS_ONLY ->
   getWiFiManager (fst (snd (fst res))) = getWiFiManager (fst s) /\
   (forall ok, ~ In (EvWiFiConnect ok) (snd res)) /\ ~ In EvWiFiDisconnect (snd res) /\
   (getGPRSManager (fst s) = None -> fst (fst res) = false)).
Proof.
  destruct s as [f ds]. destruct f as [p wm gm dsp act].
  cbn zeta. unfold connect, connect_attempt.
  cbn [fst snd _preference getWiFiManager getGPRSManager _wifiManagerRaw _gprsManagerRaw].
  split; intros ->.
  - destruct wm as [w |].
    + rewrite wifi_connect_spec. cbn. repeat split; auto.
      * intros ok [H | H]; [discriminate H | contradiction].
      * intros [H | H]; [discriminate H | contradiction].
      * discriminate.
    + cbn. repeat split; auto.
  - destruct gm as [g |].
    + rewrite gprs_connect_spec. cbn. repeat split; auto.
      * intros ok [H | H]; [discriminate H | contradiction].
      * intros [H | H]; [discriminate H | contradiction].
      * discriminate.
    + cbn. repeat split; auto.
Qed.

(** X23.  GPRS_PREFERRED never falls back to WiFi.  When the facade
    has a cellular manager, [connect()] under GPRS_PREFERRED returns
    true after the single call that starts the cellular FSM: the WiFi
    manager is neither tried nor changed, and the facade reports
    connected afterwards exactly when one of the transports already
    was. *)
Theorem gprs_preferred_never_falls_back_to_wifi (o : ConnObs) (s : St) (g : GPRS.GPRSManager) :
  _preference (fst s) = GPRS_PREFERRED ->
  getGPRSManager (fst s) = Some g ->
  let res := connect o s in
  fst (fst res) = true /\
  snd res = [EvGprsConnect true] /\
  getWiFiManager (fst (snd (fst res))) = getWiFiManager (fst s) /\
  isConnected (fst (snd (fst res)))
  = (GPRS.isConnected g || wifiConnected (fst s)).
Proof.
  destruct s as [f ds]. destruct f as [p wm gm dsp act].
  cbn [fst snd _preference getGPRSManager _gprsManagerRaw]. intros -> ->.
  cbn zeta. unfold connect, connect_attempt.
  cbn [fst snd _preference getWiFiManager getGPRSManager _wifiManagerRaw _gprsManagerRaw].
  rewrite gprs_connect_spec. cbn [fst snd].
  repeat split.
  unfold GPRS.connect, isConnected, determineActiveInterface, wifiConnected, gprsConnected,
    GPRS.isConnected.
  cbn [fst snd].
  destruct g as [apn us pw pin tok dsq st last rc mr af h].
  cbn [GPRS._currentGprsState].
  destruct st; cbn; destruct wm as [w |]; cbn; try destruct (WiFi.isConnected w); reflexivity.
Qed.


(** X24.  The fallback takes effect at the next [connect()].  Under
    WIFI_PREFERRED with WiFi down and the active pointer on the WiFi
    manager, the facade reports disconnected even though the cellular
    FSM is Operational.  A [connect()] whose WiFi attempt fails then
    returns true, leaves the cellular manager as it is, makes it the
    active interface, and the facade reports connected. *)
Theorem fallback_noticed_at_next_connect
  (o : ConnObs) (s : St) (w : WiFi.WiFiManager) (g : GPRS.GPRSManager) :
  _preference (fst s) = WIFI_PREFERRED ->
  getWiFiManager (fst s) = Some w ->
  getGPRSManager (fst s) = Some g ->
  getCurrentInterface (fst s) = Some IfWiFi ->
  WiFi.isConnected w = false ->
  GPRS.isConnected g = true ->
  fst (WiFi.connect (wifi_link o) w) = false ->
  isConnected (fst s) = false /\
  let res := connect o s in
  fst (fst res) = true /\
  snd res = [EvWiFiConnect false; EvGprsConnect true] /\
  getCurrentInterface (fst (snd (fst res))) = Some IfGPRS /\
  isConnected (fst (snd (fst res))) = true /\
  getGPRSManager (fst (snd (fst res))) = Some g.
Proof.
  destruct s as [f ds]. destruct f as [p wm gm dsp act].
  unfold getCurrentInterface.
  cbn [fst snd _preference getWiFiManager getGPRSManager _wifiManagerRaw _gprsManagerRaw
       _activeInterface].
  intros -> -> -> -> Hw Hg Hf.
  pose proof (WiFi_connect_failed_down (wifi_link o) w Hf Hw) as Hk.
  split.
  - unfold isConnected, wifiConnected. cbn. exact Hw.
  - cbn zeta. unfold connect, connect_attempt.
    cbn [fst snd _preference getWiFiManager getGPRSManager _wifiManagerRaw _gprsManagerRaw].
    rewrite wifi_connect_spec. rewrite Hf.
    cbn [fst snd getGPRSManager _gprsManagerRaw set_wifi].
    unfold wifi_disconnect_if_connected.
    cbn [fst snd getWiFiManager _wifiManagerRaw set_wifi]. rewrite Hk.
    rewrite gprs_connect_spec. cbn [fst snd app].
    assert (Eg : GPRS.connect (gprs_ms o) (g, ds) = (true, (g, ds))).
    { unfold GPRS.connect. cbn [fst]. unfold GPRS.isConnected in Hg.
      apply GPRSState_eqb_eq in Hg. rewrite Hg. reflexivity. }
    rewrite Eg. cbn [fst snd].
    unfold isConnected, determineActiveInterface, wifiConnected, gprsConnected.
    cbn. rewrite Hk, Hg. cbn. rewrite ?Hg. auto 6.
Qed.

Lemma WiFi_start_accepted ms r w :
  fst (WiFi.startAsyncHttpRequest ms r w) = true ->
  WiFi._asyncOperationActive (snd (WiFi.startAsyncHttpRequest ms r w)) = true /\
  WiFi.isConnected (snd (WiFi.startAsyncHttpRequest ms r w)) = WiFi.isConnected w.
Proof.
  unfold WiFi.startAsyncHttpRequest.
  destruct (WiFi._asyncOperationActive w); [discriminate |].
  destruct (negb (WiFi.isConnected w)); [discriminate |]. cbn. auto.
Qed.

Lemma GPRS_start_accepted ms r g :
  fst (GPRS.startAsyncHttpRequest ms r g) = true ->
  GPRS._asyncOperationActive (GPRS.http (snd (GPRS.startAsyncHttpRequest ms r g))) = true /\
  GPRS.isConnected (snd (GPRS.startAsyncHttpRequest ms r g)) = GPRS.isConnected g.
Proof.
  unfold GPRS.startAsyncHttpRequest.
  destruct (GPRS._asyncOperationActive (GPRS.http g)); [discriminate |].
  destruct (negb (GPRS.isConnected g)); [discriminate |].
  destruct (String.index 0 "://" (url r)); [| discriminate].
  repeat match goal with
         | |- context [if ?b then _ else _] => destruct b; try discriminate
         | |- context [match ?b with Some _ => _ | None => _ end] =>
             destruct b; try discriminate
         end; cbn; auto.
Qed.

(** The request of the active manager is in flight. *)
Lemma active_start_accepted ms r s :
  activeConnected (fst s) = true ->
  fst (active_startAsyncHttpRequest ms r s) = true ->
  let f' := fst (snd (active_startAsyncHttpRequest ms r s)) in
  activeConnected f' = true /\
  _activeInterface f' = _activeInterface (fst s) /\
  match _activeInterface f' with
  | Some IfWiFi =>
      exists w, getWiFiManager f' = Some w /\ WiFi._asyncOperationActive w = true
  | Some IfGPRS =>
      exists g, getGPRSManager f' = Some g
                /\ GPRS._asyncOperationActive (GPRS.http g) = true
  | None => False
  end.
Proof.
  destruct s as [f ds]. destruct f as [p wm gm dsp act].
  unfold active_startAsyncHttpRequest, activeConnected, wifiConnected, gprsConnected.
  cbn [fst snd _activeInterface getWiFiManager getGPRSManager _wifiManagerRaw _gprsManagerRaw].
  destruct act as [[|] |]; [destruct wm as [w |] | destruct gm as [g |] |];
    try discriminate.
  - intros Hc. pose proof (WiFi_start_accepted ms r w) as H.
    destruct (WiFi.startAsyncHttpRequest ms r w) as [ok w']. cbn [fst snd] in *.
    intros ->. destruct (H eq_refl) as [Ha Hk]. cbn. rewrite Hk, Hc. eauto.
  - intros Hc. pose proof (GPRS_start_accepted ms r g) as H.
    destruct (GPRS.startAsyncHttpRequest ms r g) as [ok g']. cbn [fst snd] in *.
    intros ->. destruct (H eq_refl) as [Ha Hk]. cbn. rewrite Hk, Hc. eauto.
Qed.

Lemma activeConnected_isConnected f : activeConnected f = true -> isConnected f = true.
Proof.
  unfold activeConnected, isConnected. destruct (_activeInterface f) as [[|] |]; auto.
  discriminate.
Qed.

Lemma facade_start_accepted (o : ConnObs) (ms : Z) (r : Request) (s : St) :
  fst (fst (startAsyncHttpRequest o ms r s)) = true ->
  let f' := fst (snd (fst (startAsyncHttpRequest o ms r s))) in
  isConnected f' = true /\
  (isConnected (fst s) = true -> snd (startAsyncHttpRequest o ms r s) = []) /\
  match getCurrentInterface f' with
  | Some IfWiFi =>
      exists w, getWiFiManager f' = Some w /\ WiFi.isConnected w = true
                /\ WiFi._asyncOperationActive w = true
  | Some IfGPRS =>
      exists g, getGPRSManager f' = Some g /\ GPRS.isConnected g = true
                /\ GPRS._asyncOperationActive (GPRS.http g) = true
  | None => False
  end.
Proof.
  unfold startAsyncHttpRequest.
  assert (G : forall (s1 : St) (evs : list Event),
    fst (fst (if activeConnected (fst s1)
              then let (ok, s2) := active_startAsyncHttpRequest ms r s1 in (ok, s2, evs)
              else (false, s1, evs))) = true ->
    let f' := fst (snd (fst (if activeConnected (fst s1)
              then let (ok, s2) := active_startAsyncHttpRequest ms r s1 in (ok, s2, evs)
              else (false, s1, evs)))) in
    isConnected f' = true /\
    match getCurrentInterface f' with
    | Some IfWiFi =>
        exists w, getWiFiManager f' = Some w /\ WiFi.isConnected w = true
                  /\ WiFi._asyncOperationActive w = true
    | Some IfGPRS =>
        exists g, getGPRSManager f' = Some g /\ GPRS.isConnected g = true
                  /\ GPRS._asyncOperationActive (GPRS.http g) = true
    | None => False
    end).
  { intros s1 evs. destruct (activeConnected (fst s1)) eqn:Hc; [| discriminate].
    pose proof (active_start_accepted ms r s1 Hc) as H.
    destruct (active_startAsyncHttpRequest ms r s1) as [ok s2]. cbn [fst snd] in *.
    intros ->. destruct (H eq_refl) as (H1 & H2 & H3). cbn zeta.
    split; [apply activeConnected_isConnected; exact H1 |].
    unfold getCurrentInterface, activeConnected, wifiConnected, gprsConnected in *.
    destruct (_activeInterface (fst s2)) as [[|] |]; [| | contradiction].
    - destruct H3 as (w & E & A). rewrite E in H1. eauto.
    - destruct H3 as (g & E & A). rewrite E in H1. eauto. }
  destruct (negb (isConnected (fst s))) eqn:Hn.
  - destruct (connect o s) as [[ok s1] evs]. destruct ok; cbn [negb]; [| discriminate].
    intros H. destruct (G s1 evs H) as [H1 H2]. cbn zeta.
    split; [exact H1 |]. split; [| exact H2].
    intros Hc. rewrite Hc in Hn. discriminate Hn.
  - cbn [negb]. intros H. destruct (G s [] H) as [H1 H2]. cbn zeta.
    split; [exact H1 |]. split; [| exact H2].
    intros _. destruct (activeConnected (fst s)); [| reflexivity].
    destruct (active_startAsyncHttpRequest ms r s). reflexivity.
Qed.


(** X25.  An accepted request is in flight on the connected active
    transport.  When [startAsyncHttpRequest] returns true, the facade
    reports connected, its active interface is one of its managers, that
    manager is connected and has a request in flight.  A facade that was
    connected already issues no connect or disconnect command. *)
Theorem accepted_request_is_in_flight_on_active
  (o : ConnObs) (ms : Z) (r : Request) (s : St) :
  fst (fst (startAsyncHttpRequest o ms r s)) = true ->
  let f' := fst (snd (fst (startAsyncHttpRequest o ms r s))) in
  isConnected f' = true /\
  (isConnected (fst s) = true -> snd (startAsyncHttpRequest o ms r s) = []) /\
  match getCurrentInterface f' with
  | Some IfWiFi =>
      exists w, getWiFiManager f' = Some w /\ WiFi.isConnected w = true
                /\ WiFi._asyncOperationActive w = true
  | Some IfGPRS =>
      exists g, getGPRSManager f' = Some g /\ GPRS.isConnected g = true
                /\ GPRS._asyncOperationActive (GPRS.http g) = true
  | None => False
  end.
Proof. exact (facade_start_accepted o ms r s). Qed.

(** X26.  One request at a time through the facade.  Right after an
    accepted request, any further [startAsyncHttpRequest] returns false,
    attempts no connection and changes nothing: of two requests issued
    back to back the second is dropped whenever the first is taken. *)
Theorem second_request_is_rejected
  (o1 o2 : ConnObs) (ms1 ms2 : Z) (r1 r2 : Request) (s : St) :
  fst (fst (startAsyncHttpRequest o1 ms1 r1 s)) = true ->
  let s1 := snd (fst (startAsyncHttpRequest o1 ms1 r1 s)) in
  startAsyncHttpRequest o2 ms2 r2 s1 = (false, s1, []).
Proof.
  intros H. pose proof (facade_start_accepted o1 ms1 r1 s H) as F. cbn zeta in F |- *.
  destruct (snd (fst (startAsyncHttpRequest o1 ms1 r1 s))) as [f1 ds1].
  cbn [fst snd] in F. destruct F as (Hc & _ & Hm).
  unfold startAsyncHttpRequest. cbn [fst snd]. rewrite Hc. cbn [negb].
  destruct f1 as [p wm gm dsp act].
  unfold getCurrentInterface, getWiFiManager, getGPRSManager, activeConnected,
    active_startAsyncHttpRequest, wifiConnected, gprsConnected in *.
  cbn [fst snd _activeInterface getWiFiManager getGPRSManager _wifiManagerRaw
       _gprsManagerRaw] in *.
  destruct act as [[|] |]; [| | contradiction].
  - destruct Hm as (w & -> & Hw & Ha). rewrite Hw.
    unfold WiFi.startAsyncHttpRequest. rewrite Ha. reflexivity.
  - destruct Hm as (g & -> & Hg & Ha). rewrite Hg.
    unfold GPRS.startAsyncHttpRequest. rewrite Ha. reflexivity.
Qed.

(** X27.  A switch abandons the request in flight.  When the WiFi
    manager has a request in flight, the cellular link is up and the
    preference is not WIFI_ONLY, [switchToGPRS()] makes the cellular
    manager active and leaves the WiFi manager disconnected, its
    request still in flight in the same state, so that it refuses every
    new request.  The next [updateHttpOperations()] of the facade,
    whatever the cellular request is doing, leaves the WiFi manager
    exactly so when it returns; it fails to return only while the
    cellular manager is receiving a body in chunked encoding. *)
Theorem request_in_flight_is_abandoned_by_switch
  (o : ConnObs) (ow : WiFi.HttpObs) (og : GPRS.HttpObs) (s : St)
  (w : WiFi.WiFiManager) :
  getWiFiManager (fst s) = Some w ->
  WiFi._asyncOperationActive w = true ->
  _preference (fst s) <> WIFI_ONLY ->
  gprsConnected (fst s) = true ->
  let s1 := snd (fst (switchToGPRS o s)) in
  getCurrentInterface (fst s1) = Some IfGPRS /\
  getWiFiManager (fst s1) = Some (WiFi.disconnect w) /\
  match updateHttpOperations dj ow og s1 with
  | Some (s', _) => getWiFiManager (fst s') = Some (WiFi.disconnect w)
  | None => active_reads_chunked_body (fst s1) = true
  end /\
  WiFi._asyncOperationActive (WiFi.disconnect w) = true /\
  WiFi._currentHttpState (WiFi.disconnect w) = WiFi._currentHttpState w /\
  (forall ms r, fst (WiFi.startAsyncHttpRequest ms r (WiFi.disconnect w)) = false).
Proof.
  destruct s as [f ds]. destruct f as [p wm gm dsp act].
  unfold gprsConnected, getCurrentInterface.
  cbn [fst snd _preference getWiFiManager getGPRSManager _wifiManagerRaw _gprsManagerRaw].
  intros -> Ha Hp. destruct gm as [g |]; [| discriminate]. intros Hg.
  assert (Eg : GPRS.connect (gprs_ms o) (g, ds) = (true, (g, ds))).
  { unfold GPRS.connect. cbn [fst]. unfold GPRS.isConnected in Hg.
    apply GPRSState_eqb_eq in Hg. rewrite Hg. reflexivity. }
  assert (Hs : forall ms r, fst (WiFi.startAsyncHttpRequest ms r (WiFi.disconnect w)) = false).
  { intros ms r. unfold WiFi.startAsyncHttpRequest.
    change (WiFi._asyncOperationActive (WiFi.disconnect w)) with (WiFi._asyncOperationActive w).
    rewrite Ha. reflexivity. }
  assert (Ew : WiFi.isConnected w = false -> w = WiFi.disconnect w).
  { unfold WiFi.isConnected. destruct w. cbn. intros ->. reflexivity. }
  assert (E1 : snd (fst (switchToGPRS o
                           ({| _preference := p; _wifiManagerRaw := Some w;
                               _gprsManagerRaw := Some g; _deviceState := dsp;
                               _activeInterface := act |}, ds)))
               = ({| _preference := p; _wifiManagerRaw := Some (WiFi.disconnect w);
                     _gprsManagerRaw := Some g; _deviceState := dsp;
                     _activeInterface := Some IfGPRS |}, ds)).
  { unfold switchToGPRS.
    cbn [fst snd getGPRSManager _gprsManagerRaw]. rewrite gprs_connect_spec.
    cbn [fst snd]. rewrite Eg. cbn [fst snd]. unfold wifi_disconnect_if_connected.
    cbn [fst snd getWiFiManager _wifiManagerRaw set_gprs].
    unfold determineActiveInterface, wifiConnected, gprsConnected.
    destruct (WiFi.isConnected w) eqn:Ec;
      cbn [fst snd _preference getWiFiManager getGPRSManager _wifiManagerRaw _gprsManagerRaw
           present _activeInterface set_active set_wifi set_gprs app];
      change (WiFi.isConnected (WiFi.disconnect w)) with false; rewrite ?Ec, Hg;
      destruct p; try congruence; cbn [andb];
      cbn [fst snd _preference getWiFiManager getGPRSManager _wifiManagerRaw _gprsManagerRaw
           present _activeInterface set_active set_wifi set_gprs app];
      try reflexivity; rewrite <- (Ew eq_refl); reflexivity. }
  cbn zeta. rewrite E1. clear E1.
  split; [reflexivity |]. split; [reflexivity |]. split; [| auto].
  unfold updateHttpOperations, active_reads_chunked_body.
  cbn [fst snd _activeInterface getWiFiManager getGPRSManager _wifiManagerRaw _gprsManagerRaw].
  pose proof (http_poll_conn dj og (g, ds)) as Hq.
  destruct (GPRS.updateHttpOperations dj og (g, ds)) as [[[g' ds'] ev] |].
  - reflexivity.
  - cbn [fst] in Hq. destruct Hq as [H1 H2].
    unfold GPRS.reads_chunked_body. rewrite H1. exact H2.
Qed.
End FacadeBookkeeping.

(** ** The reconnect helper of the main loop *)

Section RateLimit.

Import Sketch.

#[local] Arguments WiFi.connect : simpl never.
#[local] Arguments GPRS.connect : simpl never.
#[local] Arguments u32 : simpl never.
#[local] Arguments Facade.connect : simpl never.
#[local] Arguments Facade.switchToWiFi : simpl never.
#[local] Arguments Facade.isConnected : simpl never.

Lemma reconnect_step_attempt now o s ok :
  In (Reconnect ok) (snd (reconnect_step now o s)) ->
  lastConnectionRetryTime (deviceState (fst (reconnect_step now o s))) = now.
Proof.
  unfold reconnect_step. destruct s as [nf ds]. cbn [networkFacade deviceState].
  destruct nf as [f |]; [| cbn; contradiction].
  destruct (negb (Facade.isConnected f) && _); [| cbn; contradiction].
  pose proof (Facade_connect_loop_fields (reconnect_obs o)
                (f, ds_set_reconnect now (currentConnectionRetryDelayMs ds) ds)) as Hl.
  destruct (Facade.connect (reconnect_obs o)
              (f, ds_set_reconnect now (currentConnectionRetryDelayMs ds) ds))
    as [[ok0 [f' ds2]] evs].
  cbn [fst snd] in Hl. unfold loop_fields in Hl. cbn in Hl.
  injection Hl as H1 H2 H3 H4 H5. intros _. cbn. exact H1.
Qed.

Lemma switchback_step_general now o s :
  lastConnectionRetryTime (deviceState (fst (switchback_step now o s)))
  = lastConnectionRetryTime (deviceState s) /\
  general_delay (fst (switchback_step now o s)) = general_delay s /\
  forall ok, ~ In (Reconnect ok) (snd (switchback_step now o s)).
Proof.
  unfold switchback_step, general_delay. destruct s as [nf ds]. cbn [networkFacade deviceState].
  destruct nf as [f |]; [| cbn; auto].
  match goal with |- context [if ?b then _ else _] => destruct b end; [| cbn; auto].
  pose proof (switchToWiFi_shared_state (switch_obs o)
                (f, ds_set_switchback now (currentWiFiSwitchBackoffDelayMs ds) ds)) as Hl.
  destruct (Facade.switchToWiFi (switch_obs o)
              (f, ds_set_switchback now (currentWiFiSwitchBackoffDelayMs ds) ds))
    as [[ok0 [f' ds2]] evs].
  cbn [fst snd] in Hl. subst ds2. cbn. repeat split; auto.
  intros ok [H | H]; [discriminate H | contradiction].
Qed.

(** X28.  Reconnect attempts are spaced by the backoff delay.  A call
    of [handleNetworkConnection] that attempts a reconnect records its
    time; a later call whose time lies less than the delay then in force
    after it attempts no reconnect, whatever the state of the links. *)
Theorem reconnect_attempts_are_rate_limited
  (now1 now2 : Z) (o1 o2 : LoopObs) (s : Globals) (ok : bool) :
  In (Reconnect ok) (snd (handleNetworkConnection now1 o1 s)) ->
  let s1 := fst (handleNetworkConnection now1 o1 s) in
  lastConnectionRetryTime (deviceState s1) = now1 /\
  (0 <= now1 <= now2 -> now2 < 2 ^ 32 -> now2 - now1 < general_delay s1 ->
   forall ok', ~ In (Reconnect ok') (snd (handleNetworkConnection now2 o2 s1))).
Proof.
  unfold handleNetworkConnection. intros Hin.
  pose proof (reconnect_step_attempt now1 o1 s ok) as Ha.
  destruct (reconnect_step now1 o1 s) as [sa a1].
  pose proof (switchback_step_general now1 o1 sa) as (Hb1 & Hb2 & Hb3).
  destruct (switchback_step now1 o1 sa) as [sb a2].
  cbn [fst snd] in *.
  assert (Hin1 : In (Reconnect ok) a1).
  { apply in_app_or in Hin. destruct Hin as [H | H]; [exact H | exfalso; exact (Hb3 ok H)]. }
  specialize (Ha Hin1). split; [congruence |].
  intros Hn Hn2 Hd ok' Hin2.
  assert (Hno : snd (reconnect_step now2 o2 sb) = []).
  { unfold reconnect_step. destruct sb as [nf ds]. cbn [networkFacade deviceState] in *.
    destruct nf as [f |]; [| reflexivity].
    assert (E : (u32 (now2 - lastConnectionRetryTime ds) >=? currentConnectionRetryDelayMs ds)
                = false).
    { rewrite Hb1, Ha. unfold general_delay in Hd. cbn [deviceState] in Hd.
      rewrite Z.geb_leb. apply Z.leb_gt. rewrite u32_small; [lia |].
      change (2 ^ 32) with 4294967296 in *. lia. }
    rewrite E, andb_false_r. reflexivity. }
  destruct (reconnect_step now2 o2 sb) as [sc a3]. cbn [snd] in Hno. subst a3.
  pose proof (switchback_step_general now2 o2 sc) as (_ & _ & Hc3).
  destruct (switchback_step now2 o2 sc) as [sd a4]. cbn [fst snd app] in Hin2.
  exact (Hc3 ok' Hin2).
Qed.

End RateLimit.

Section SwitchBack.

Import Sketch.

#[local] Arguments WiFi.connect : simpl never.
#[local] Arguments u32 : simpl never.

Lemma reconnect_step_no_switchback now o s ok :
  ~ In (SwitchBack ok) (snd (reconnect_step now o s)).
Proof.
  unfold reconnect_step. destruct (networkFacade s) as [f |]; [| cbn; auto].
  destruct (negb (Facade.isConnected f) && _); [| cbn; auto].
  destruct (Facade.connect _ _) as [[ok0 [f' ds2]] evs]. cbn.
  intros [H | H]; [discriminate H | contradiction].
Qed.

Lemma switchback_step_outcome now o s ok :
  In (SwitchBack ok) (snd (switchback_step now o s)) ->
  exists f',
    networkFacade (fst (switchback_step now o s)) = Some f' /\
    Facade.getPreference f' = Facade.WIFI_PREFERRED /\
    lastWiFiRetryWhenGprsTime (deviceState (fst (switchback_step now o s))) = now /\
    (ok = true ->
     Facade.getCurrentInterface f' = Some Facade.IfWiFi /\ Facade.isConnected f' = true) /\
    (ok = false -> Facade.getGPRSManager f' <> None ->
     Facade.gprsConnected f' = true /\ Facade.isConnected f' = true).
Proof.
  unfold switchback_step. destruct s as [nf ds]. cbn [networkFacade deviceState].
  destruct nf as [f |]; [| cbn; contradiction].
  destruct f as [p wm gm dsp act].
  unfold Facade.getPreference, current_is_gprs, Facade.getCurrentInterface.
  cbn [Facade._preference Facade.getWiFiManager Facade.getGPRSManager
       Facade._wifiManagerRaw Facade._gprsManagerRaw Facade._activeInterface].
  destruct p; cbn [andb]; try (cbn; contradiction).
  destruct wm as [w |]; cbn [Facade.present andb]; [| cbn; contradiction].
  match goal with |- context [if ?b then _ else _] => destruct b eqn:Eb end;
    [| cbn; contradiction].
  apply andb_true_iff in Eb. destruct Eb as [Eb _].
  apply andb_true_iff in Eb. destruct Eb as [Ecur Econ].
  unfold Facade.switchToWiFi, Facade.gprs_disconnect_if_connected.
  cbn [fst snd Facade.getWiFiManager Facade._wifiManagerRaw].
  rewrite wifi_connect_spec. cbn [fst snd].
  pose proof (WiFi_connect_ok (Facade.wifi_link (switch_obs o)) w) as Hok.
  destruct (fst (WiFi.connect (Facade.wifi_link (switch_obs o)) w)) eqn:Hc.
  - specialize (Hok eq_refl).
    destruct gm as [g |];
      cbn [fst snd app Facade.getGPRSManager Facade._gprsManagerRaw Facade.set_wifi
           GPRS.disconnect];
      [destruct (GPRS.isConnected g) eqn:Eg |];
      cbn [fst snd app networkFacade deviceState In];
      (intros [H | H]; [| contradiction]); injection H as <-;
      (eexists; split; [reflexivity |]);
      unfold Facade.isConnected, Facade.determineActiveInterface, Facade.wifiConnected,
        Facade.gprsConnected, Facade.getPreference, Facade.getCurrentInterface;
      cbn; rewrite ?Hok; cbn; rewrite ?Hok;
      repeat split; auto; discriminate.
  - clear Hok.
    cbn [fst snd networkFacade deviceState In].
    (intros [H | H]; [| contradiction]); injection H as <-.
    eexists; split; [reflexivity |].
    unfold Facade.isConnected, Facade.determineActiveInterface, Facade.wifiConnected,
      Facade.gprsConnected, Facade.getPreference, Facade.getCurrentInterface in *.
    cbn in Econ |- *.
    split; [reflexivity |]. split; [reflexivity |]. split; [discriminate |].
    intros _ Hn. destruct gm as [g |]; [clear Hn | congruence].
    destruct act as [[|] |]; try discriminate Ecur.
    rewrite Econ. split; [reflexivity |].
    destruct (WiFi.isConnected _) eqn:Ew; cbn; rewrite ?Ew, ?Econ; reflexivity.
Qed.


(** What [connect()] does when WiFi is preferred, its attempt fails and
    the cellular FSM is already Operational. *)
Lemma connect_falls_back o w g dsp act ds :
  WiFi.isConnected w = false ->
  GPRS.isConnected g = true ->
  fst (WiFi.connect (Facade.wifi_link o) w) = false ->
  Facade.connect o
    ({| Facade._preference := Facade.WIFI_PREFERRED;
        Facade._wifiManagerRaw := Some w;
        Facade._gprsManagerRaw := Some g;
        Facade._deviceState := dsp;
        Facade._activeInterface := act |}, ds)
  = (true,
     ({| Facade._preference := Facade.WIFI_PREFERRED;
         Facade._wifiManagerRaw := Some (snd (WiFi.connect (Facade.wifi_link o) w));
         Facade._gprsManagerRaw := Some g;
         Facade._deviceState := dsp;
         Facade._activeInterface := Some Facade.IfGPRS |}, ds),
     [EvWiFiConnect false; EvGprsConnect true]).
Proof.
  intros Hw Hg Hf.
  pose proof (WiFi_connect_failed_down (Facade.wifi_link o) w Hf Hw) as Hk.
  unfold Facade.connect, Facade.connect_attempt.
  cbn [fst snd Facade._preference Facade.getWiFiManager Facade.getGPRSManager
       Facade._wifiManagerRaw Facade._gprsManagerRaw].
  rewrite wifi_connect_spec. rewrite Hf.
  cbn [fst snd Facade.getGPRSManager Facade._gprsManagerRaw Facade.set_wifi].
  unfold Facade.wifi_disconnect_if_connected.
  cbn [fst snd Facade.getWiFiManager Facade._wifiManagerRaw Facade.set_wifi]. rewrite Hk.
  rewrite gprs_connect_spec. cbn [fst snd app].
  assert (Eg : GPRS.connect (Facade.gprs_ms o) (g, ds) = (true, (g, ds))).
  { unfold GPRS.connect. cbn [fst]. unfold GPRS.isConnected in Hg.
    apply GPRSState_eqb_eq in Hg. rewrite Hg. reflexivity. }
  rewrite Eg. cbn [fst snd].
  unfold Facade.determineActiveInterface, Facade.wifiConnected, Facade.gprsConnected.
  cbn. rewrite Hk, Hg. reflexivity.
Qed.

(** X29.  A switch back to WiFi never costs the connection.  A call of
    [handleNetworkConnection] attempts the switch only under
    WIFI_PREFERRED and records its time.  If the switch succeeds the
    WiFi manager is the active interface and the facade reports
    connected; if it fails and the facade has a cellular manager, that
    manager is still connected and the facade still reports connected. *)
Theorem switch_back_keeps_the_connection
  (now : Z) (o : LoopObs) (s : Globals) (ok : bool) :
  In (SwitchBack ok) (snd (handleNetworkConnection now o s)) ->
  exists f',
    networkFacade (fst (handleNetworkConnection now o s)) = Some f' /\
    Facade.getPreference f' = Facade.WIFI_PREFERRED /\
    lastWiFiRetryWhenGprsTime (deviceState (fst (handleNetworkConnection now o s))) = now /\
    (ok = true ->
     Facade.getCurrentInterface f' = Some Facade.IfWiFi /\ Facade.isConnected f' = true) /\
    (ok = false -> Facade.getGPRSManager f' <> None ->
     Facade.gprsConnected f' = true /\ Facade.isConnected f' = true).
Proof.
  unfold handleNetworkConnection. intros Hin.
  pose proof (reconnect_step_no_switchback now o s ok) as Hno.
  destruct (reconnect_step now o s) as [s1 a1].
  pose proof (switchback_step_outcome now o s1 ok) as Hs.
  destruct (switchback_step now o s1) as [s2 a2].
  cbn [fst snd] in *. apply Hs.
  apply in_app_or in Hin. destruct Hin as [H | H]; [contradiction | exact H].
Qed.

(** X30.  One call can try WiFi twice.  Under WIFI_PREFERRED, when the
    facade reports disconnected while the cellular FSM is Operational
    and both delays have elapsed, a call of [handleNetworkConnection]
    whose WiFi attempt fails reconnects through the cellular manager and,
    in the same call, attempts the switch back to WiFi: the call makes
    one successful reconnect and one switch-back attempt, stamps both
    timers and resets the reconnect delay to its floor. *)
Theorem fallback_then_switch_back_in_one_call
  (now : Z) (o : LoopObs) (s : Globals) (f : Facade.NetworkFacade)
  (w : WiFi.WiFiManager) (g : GPRS.GPRSManager) :
  networkFacade s = Some f ->
  Facade.getPreference f = Facade.WIFI_PREFERRED ->
  Facade.getWiFiManager f = Some w ->
  Facade.getGPRSManager f = Some g ->
  Facade.isConnected f = false ->
  GPRS.isConnected g = true ->
  fst (WiFi.connect (Facade.wifi_link (reconnect_obs o)) w) = false ->
  currentConnectionRetryDelayMs (deviceState s)
    <= u32 (now - lastConnectionRetryTime (deviceState s)) ->
  currentWiFiSwitchBackoffDelayMs (deviceState s)
    <= u32 (now - lastWiFiRetryWhenGprsTime (deviceState s)) ->
  let w1 := snd (WiFi.connect (Facade.wifi_link (reconnect_obs o)) w) in
  let res := handleNetworkConnection now o s in
  snd res = [Reconnect true;
             SwitchBack (fst (WiFi.connect (Facade.wifi_link (switch_obs o)) w1))] /\
  lastConnectionRetryTime (deviceState (fst res)) = now /\
  lastWiFiRetryWhenGprsTime (deviceState (fst res)) = now /\
  general_delay (fst res) = Config.INITIAL_RETRY_DELAY_MS.
Proof.
  destruct s as [nf ds]. destruct f as [p wm gm dsp act].
  unfold Facade.getPreference.
  cbn [networkFacade deviceState Facade._preference Facade.getWiFiManager
       Facade.getGPRSManager Facade._wifiManagerRaw Facade._gprsManagerRaw].
  intros -> -> -> -> Hdown Hg Hf Hd1 Hd2.
  assert (Hw : WiFi.isConnected w = false).
  { unfold Facade.isConnected, Facade.wifiConnected, Facade.gprsConnected in Hdown.
    cbn in Hdown. rewrite Hg in Hdown.
    destruct act as [[|] |]; try discriminate Hdown; [exact Hdown |].
    destruct (WiFi.isConnected w); [discriminate Hdown | reflexivity]. }
  cbn zeta. unfold handleNetworkConnection, reconnect_step.
  cbn [networkFacade deviceState]. rewrite Hdown.
  apply Z.geb_le in Hd1. rewrite Hd1. cbn [negb andb].
  rewrite (connect_falls_back (reconnect_obs o) w g dsp act _ Hw Hg Hf).
  unfold switchback_step. cbn [networkFacade deviceState].
  unfold Facade.getPreference, current_is_gprs, Facade.getCurrentInterface, Facade.isConnected,
    Facade.gprsConnected.
  cbn [Facade._preference Facade.getWiFiManager Facade.getGPRSManager
       Facade._wifiManagerRaw Facade._gprsManagerRaw Facade._activeInterface
       Facade.present andb lastWiFiRetryWhenGprsTime currentWiFiSwitchBackoffDelayMs
       ds_set_reconnect lastConnectionRetryTime].
  rewrite Hg. apply Z.geb_le in Hd2. rewrite Hd2. cbn [andb].
  unfold Facade.switchToWiFi.
  cbn [fst snd Facade.getWiFiManager Facade._wifiManagerRaw].
  rewrite wifi_connect_spec. cbn [fst snd].
  set (ok := fst (WiFi.connect (Facade.wifi_link (switch_obs o)) _)).
  unfold general_delay.
  destruct ok.
  - unfold Facade.gprs_disconnect_if_connected.
    cbn [fst snd Facade.getGPRSManager Facade._gprsManagerRaw Facade.set_wifi].
    rewrite Hg. cbn. auto.
  - cbn. auto.
Qed.

End SwitchBack.

Lemma active_interface_names_a_manager_witness :
  Facade.active_present
    (fst (snd (fst (Facade.connect (Samples.conn_obs Samples.link_never 5)
                      (Samples.facade_gprs_lost, DeviceState_init)))))
  = true.
Proof.
  apply (active_interface_names_a_manager Samples.parse_any
           (Samples.conn_obs Samples.link_never 5) 0 (Samples.get_request Samples.accept)
           Facade.WIFI_PREFERRED (Samples.wifi_http_obs 0 200 EmptyString)
           (Samples.gprs_http_obs 0) (Samples.facade_gprs_lost, DeviceState_init)).
  reflexivity.
Defined.

Lemma gprs_preferred_never_falls_back_to_wifi_witness :
  snd (Facade.connect (Samples.conn_obs Samples.link_first 5)
         (Samples.facade_gprs_preferred, DeviceState_init))
  = [EvGprsConnect true].
Proof.
  pose proof (gprs_preferred_never_falls_back_to_wifi
                (Samples.conn_obs Samples.link_first 5)
                (Samples.facade_gprs_preferred, DeviceState_init)
                Samples.gprs_disabled eq_refl eq_refl) as H.
  cbv zeta in H. destruct H as (_ & H & _). exact H.
Defined.

Lemma fallback_noticed_at_next_connect_witness :
  Facade.isConnected Samples.facade_before_fallback = false
  /\ Facade.isConnected
       (fst (snd (fst (Facade.connect (Samples.conn_obs Samples.link_never 5)
                         (Samples.facade_before_fallback, DeviceState_init)))))
     = true.
Proof.
  pose proof (fallback_noticed_at_next_connect (Samples.conn_obs Samples.link_never 5)
                (Samples.facade_before_fallback, DeviceState_init)
                Samples.wifi_down Samples.gprs_operational
                eq_refl eq_refl eq_refl eq_refl eq_refl eq_refl eq_refl) as H.
  cbv zeta in H. destruct H as (H1 & _ & _ & _ & H2 & _).
  split; [exact H1 | exact H2].
Defined.

Lemma accepted_request_is_in_flight_on_active_witness :
  Facade.isConnected
    (fst (snd (fst (Facade.startAsyncHttpRequest (Samples.conn_obs Samples.link_first 5) 10
                      (Samples.get_request Samples.accept)
                      (Samples.facade_wifi_up, DeviceState_init)))))
  = true.
Proof.
  pose proof (accepted_request_is_in_flight_on_active
                (Samples.conn_obs Samples.link_first 5) 10
                (Samples.get_request Samples.accept)
                (Samples.facade_wifi_up, DeviceState_init) eq_refl) as H.
  cbv zeta in H. destruct H as (H & _). exact H.
Defined.

Lemma second_request_is_rejected_witness :
  fst (fst (Facade.startAsyncHttpRequest (Samples.conn_obs Samples.link_first 5) 20
              Samples.port_request
              (snd (fst (Facade.startAsyncHttpRequest
                           (Samples.conn_obs Samples.link_first 5) 10
                           (Samples.get_request Samples.accept)
                           (Samples.facade_wifi_up, DeviceState_init))))))
  = false.
Proof.
  pose proof (second_request_is_rejected
                (Samples.conn_obs Samples.link_first 5)
                (Samples.conn_obs Samples.link_first 5) 10 20
                (Samples.get_request Samples.accept) Samples.port_request
                (Samples.facade_wifi_up, DeviceState_init) eq_refl) as H.
  cbv zeta in H. rewrite H. reflexivity.
Defined.

Lemma request_in_flight_is_abandoned_by_switch_witness :
  let started :=
    snd (fst (Facade.startAsyncHttpRequest (Samples.conn_obs Samples.link_first 5) 10
                (Samples.get_request Samples.accept)
                (Samples.facade_wifi_up, DeviceState_init))) in
  let switched :=
    snd (fst (Facade.switchToGPRS (Samples.conn_obs Samples.link_first 5) started)) in
  let w := snd (WiFi.startAsyncHttpRequest 10 (Samples.get_request Samples.accept)
                  Samples.wifi_up) in
  Facade.getWiFiManager (fst switched) = Some (WiFi.disconnect w)
  /\ match Facade.updateHttpOperations Samples.parse_any
             (Samples.wifi_http_obs 30 200 EmptyString) (Samples.gprs_http_obs 30) switched with
     | Some (s', _) => Facade.getWiFiManager (fst s') = Some (WiFi.disconnect w)
     | None => Facade.active_reads_chunked_body (fst switched) = true
     end.
Proof.
  cbv zeta.
  pose proof (request_in_flight_is_abandoned_by_switch Samples.parse_any
                (Samples.conn_obs Samples.link_first 5)
                (Samples.wifi_http_obs 30 200 EmptyString) (Samples.gprs_http_obs 30)
                (snd (fst (Facade.startAsyncHttpRequest
                             (Samples.conn_obs Samples.link_first 5) 10
                             (Samples.get_request Samples.accept)
                             (Samples.facade_wifi_up, DeviceState_init))))
                (snd (WiFi.startAsyncHttpRequest 10 (Samples.get_request Samples.accept)
                        Samples.wifi_up))
                eq_refl eq_refl ltac:(vm_compute; discriminate) eq_refl) as H.
  cbv zeta in H. destruct H as (_ & H1 & H2 & _). split; [exact H1 | exact H2].
Defined.

Lemma reconnect_attempts_are_rate_limited_witness :
  lastConnectionRetryTime
    (Sketch.deviceState
       (fst (Sketch.handleNetworkConnection 400000
               (Samples.loop_obs Samples.link_never 400000)
               (Samples.sketch_with Samples.facade_wifi_only))))
  = 400000.
Proof.
  destruct (reconnect_attempts_are_rate_limited 400000 410000
              (Samples.loop_obs Samples.link_never 400000)
              (Samples.loop_obs Samples.link_never 410000)
              (Samples.sketch_with Samples.facade_wifi_only) false) as [H _].
  - vm_compute. left. reflexivity.
  - exact H.
Defined.

Lemma switch_back_keeps_the_connection_witness :
  exists f',
    Sketch.networkFacade
      (fst (Sketch.handleNetworkConnection 1000000
              (Samples.loop_obs Samples.link_never 1000000)
              (Samples.sketch_with Samples.facade_on_gprs))) = Some f' /\
    Facade.isConnected f' = true.
Proof.
  destruct (switch_back_keeps_the_connection 1000000
              (Samples.loop_obs Samples.link_never 1000000)
              (Samples.sketch_with Samples.facade_on_gprs) false)
    as (f' & Hf & _ & _ & _ & Hc).
  - vm_compute. left. reflexivity.
  - exists f'. split; [exact Hf |].
    apply Hc; [reflexivity |].
    vm_compute in Hf. injection Hf as <-. discriminate.
Defined.

Lemma fallback_then_switch_back_in_one_call_witness :
  snd (Sketch.handleNetworkConnection 1000000
         (Samples.loop_obs Samples.link_never 1000000)
         (Samples.sketch_with Samples.facade_before_fallback))
  = [Sketch.Reconnect true; Sketch.SwitchBack false].
Proof.
  destruct (fallback_then_switch_back_in_one_call 1000000
              (Samples.loop_obs Samples.link_never 1000000)
              (Samples.sketch_with Samples.facade_before_fallback)
              Samples.facade_before_fallback Samples.wifi_down Samples.gprs_operational
              eq_refl eq_refl eq_refl eq_refl eq_refl eq_refl eq_refl
              ltac:(vm_compute; discriminate) ltac:(vm_compute; discriminate))
    as [H _].
  exact H.
Defined.
